(** * Hebrew calendar converter plugin: date parsers and conversion gateway

    A shallow embedding of [src/__init__.py] (the functions
    [parseHebrewDate], [parseGregorianDate], [convertHebrewToGregorian],
    [convertGregorianToHebrew], [createResultItem] and
    [Plugin.handleTriggerQuery]) together with the properties its
    specification states about them and further properties read off the
    code.

    Modelling conventions.
    - A Python [str] is a [string]; each [ascii] stands for the code point
      of the same number, so the development covers the strings over
      U+0000..U+00FF.  The character classes below are Python's, cut down to
      that range.
    - Python's [int] is unbounded: integers are [Z].  A conversion between
      [int] and [str] raises [ValueError] beyond the interpreter's limit on
      the number of digits, taken at its default, 4300.
    - A call that can raise is a computation in the [result] monad.
    - [re.match] with the two patterns of the source is a small greedy
      backtracking matcher over the atoms those patterns are made of.
    - The HTTP exchange and [json.loads] are outside the program: the
      gateway takes the behaviour of the service as an argument.
    - The launcher's [StandardItem] and [Action] are records; the handler
      returns the items it gives to [query.add], in order. *)

From Stdlib Require Import ZArith NArith List Bool Ascii String Lia.
From Stdlib Require Import DecimalString DecimalFacts DecimalPos DecimalN.
Import ListNotations.

Local Open Scope string_scope.
Local Open Scope Z_scope.

Local Set Warnings "-register-all".

(* ================================================================== *)
(** ** Exceptions and the error monad *)

(** The exception classes raised by the modelled calls, and
    [KeyboardInterrupt], which unlike them derives from [BaseException]
    only and passes through [except Exception]. *)
Inductive exn : Type :=
| ValueError
| TypeError
| KeyError
| URLError
| HTTPError (status : Z)
| TimeoutError
| UnicodeDecodeError
| JSONDecodeError
| KeyboardInterrupt.

Definition is_Exception (e : exn) : bool :=
  match e with
  | KeyboardInterrupt => false
  | _ => true
  end.

Inductive result (A : Type) : Type :=
| Returned (a : A)
| Raised (e : exn).

Arguments Returned {A} a.
Arguments Raised {A} e.

Definition bind {A B : Type} (c : result A) (k : A -> result B) : result B :=
  match c with
  | Returned a => k a
  | Raised e => Raised e
  end.

Notation "x <- c ;; k" := (bind c (fun x => k))
  (at level 61, c at next level, right associativity).
Notation "' pat <- c ;; k" := (bind c (fun x => let 'pat := x in k))
  (at level 61, pat pattern, c at next level, right associativity).

(* ================================================================== *)
(** ** Python string primitives *)

Module PyStr.

Definition code (c : ascii) : N := N_of_ascii c.

Definition between (lo hi : N) (c : ascii) : bool :=
  ((lo <=? code c) && (code c <=? hi))%N.

(** [\d] of [re] on a [str] pattern, and the digits [int] accepts: the
    decimal digits (category Nd), which below U+0100 are '0'..'9'. *)
Definition is_decimal (c : ascii) : bool := between 48 57 c.

(** One character of [str.isdigit]: the decimal digits and the characters
    of numeric type Digit, which below U+0100 adds the superscripts
    U+00B2, U+00B3 and U+00B9. *)
Definition char_isdigit (c : ascii) : bool :=
  is_decimal c || (code c =? 178)%N || (code c =? 179)%N || (code c =? 185)%N.

(** The separators of [str.split()] without argument. *)
Definition char_isspace (c : ascii) : bool :=
  between 9 13 c || between 28 32 c || (code c =? 133)%N || (code c =? 160)%N.

(** One character of [str.lower]: 'A'..'Z' and U+00C0..U+00DE (without the
    multiplication sign U+00D7) move up by 32. *)
Definition char_lower (c : ascii) : ascii :=
  if between 65 90 c || (between 192 222 c && negb (code c =? 215)%N)
  then ascii_of_N (code c + 32)
  else c.

Fixpoint lower (s : string) : string :=
  match s with
  | EmptyString => EmptyString
  | String c s' => String (char_lower c) (lower s')
  end.

Fixpoint all_chars (p : ascii -> bool) (s : string) : bool :=
  match s with
  | EmptyString => true
  | String c s' => p c && all_chars p s'
  end.

Definition nonempty (s : string) : bool :=
  match s with
  | EmptyString => false
  | String _ _ => true
  end.

(** [s.isdigit()]: at least one character, all of them digits. *)
Definition isdigit (s : string) : bool :=
  nonempty s && all_chars char_isdigit s.

(** The maximal runs of characters satisfying [keep], left to right;
    [cur] is the run being read. *)
Fixpoint runs_from (keep : ascii -> bool) (cur : string) (s : string)
  : list string :=
  match s with
  | EmptyString => if nonempty cur then [cur] else []
  | String c s' =>
      if keep c then runs_from keep (cur ++ String c EmptyString) s'
      else if nonempty cur then cur :: runs_from keep EmptyString s'
      else runs_from keep EmptyString s'
  end.

Definition runs (keep : ascii -> bool) (s : string) : list string :=
  runs_from keep EmptyString s.

(** [s.split()]: the maximal runs of non-space characters. *)
Definition split (s : string) : list string :=
  runs (fun c => negb (char_isspace c)) s.

Fixpoint digits_value_from (acc : Z) (s : string) : Z :=
  match s with
  | EmptyString => acc
  | String c s' => digits_value_from (10 * acc + (Z.of_N (code c) - 48)) s'
  end.

Definition digits_value (s : string) : Z := digits_value_from 0 s.

(** [sys.get_int_max_str_digits()] at its default: the longest digit
    string [int] converts and the longest [str] gives for an [int]. *)
Definition max_str_digits : Z := 4300.

(** [int(s)] as the source uses it, on strings that [\d] or [isdigit]
    accepted (so that sign, underscores and padding cannot occur): the
    decimal value when every character is a decimal digit and there are at
    most [max_str_digits] of them, [ValueError] otherwise. *)
Definition int (s : string) : result Z :=
  if nonempty s && all_chars is_decimal s
  then if Z.of_nat (String.length s) <=? max_str_digits
       then Returned (digits_value s)
       else Raised ValueError
  else Raised ValueError.

(** [needle in hay] on two strings. *)
Fixpoint contains (needle hay : string) : bool :=
  String.prefix needle hay ||
  match hay with
  | EmptyString => false
  | String _ hay' => contains needle hay'
  end.

Fixpoint remove_chars (drop : ascii -> bool) (s : string) : string :=
  match s with
  | EmptyString => EmptyString
  | String c s' =>
      if drop c then remove_chars drop s' else String c (remove_chars drop s')
  end.

End PyStr.

(** A [dict] with string keys whose iteration order matters: the items in
    insertion order. *)
Fixpoint dict_get {V : Type} (k : string) (d : list (string * V)) : option V :=
  match d with
  | [] => None
  | (k', v) :: d' => if String.eqb k k' then Some v else dict_get k d'
  end.

(* ================================================================== *)
(** ** The Hebrew date parser *)

Module HebrewDate.
Record t : Type := mk { year : Z; month : string; day : Z }.
End HebrewDate.

Definition HEBREW_MONTHS : list (string * string) :=
  [ ("tishrei", "Tishrei"); ("cheshvan", "Cheshvan"); ("kislev", "Kislev");
    ("tevet", "Tevet"); ("shvat", "Shvat"); ("adar", "Adar");
    ("adar1", "Adar1"); ("adar2", "Adar2"); ("nisan", "Nisan");
    ("iyyar", "Iyyar"); ("sivan", "Sivan"); ("tamuz", "Tamuz");
    ("av", "Av"); ("elul", "Elul") ].

(** The three local variables [year, month, day] of [parseHebrewDate]. *)
Record slots : Type :=
  mkSlots { s_year : option Z; s_month : option string; s_day : option Z }.

Definition no_slots : slots := mkSlots None None None.

(** [re.sub(r'[,.]', '', date_str)] *)
Definition strip_punctuation (date_str : string) : string :=
  PyStr.remove_chars
    (fun c => Ascii.eqb c ","%char || Ascii.eqb c "."%char) date_str.

(** The body of [for part in parts]. *)
Definition scan_part (st : slots) (part : string) : result slots :=
  if PyStr.isdigit part then
    num <- PyStr.int part ;;
    if num >? 5000 then
      Returned (mkSlots (Some num) (s_month st) (s_day st))
    else if (1 <=? num) && (num <=? 30) then
      Returned (mkSlots (s_year st) (s_month st) (Some num))
    else Returned st
  else
    match dict_get part HEBREW_MONTHS with
    | Some name => Returned (mkSlots (s_year st) (Some name) (s_day st))
    | None => Returned st
    end.

Fixpoint scan_parts (st : slots) (parts : list string) : result slots :=
  match parts with
  | [] => Returned st
  | part :: parts' => st' <- scan_part st part ;; scan_parts st' parts'
  end.

(** Truth value of a variable holding [None] or an [int]. *)
Definition truthy_int (v : option Z) : bool :=
  match v with
  | Some n => negb (n =? 0)
  | None => false
  end.

(** Truth value of a variable holding [None] or a [str]. *)
Definition truthy_str (v : option string) : bool :=
  match v with
  | Some s => PyStr.nonempty s
  | None => false
  end.

Definition hebrew_parts (date_str : string) : list string :=
  PyStr.split (PyStr.lower (strip_punctuation date_str)).

Definition parseHebrewDate (date_str : string)
  : result (option HebrewDate.t) :=
  let parts := hebrew_parts date_str in
  if (List.length parts <? 3)%nat then Returned None
  else
    st <- scan_parts no_slots parts ;;
    match s_year st, s_month st, s_day st with
    | Some y, Some m, Some d =>
        if truthy_int (s_year st) && truthy_str (s_month st)
           && truthy_int (s_day st)
        then Returned (Some (HebrewDate.mk y m d))
        else Returned None
    | _, _, _ => Returned None
    end.

(* ================================================================== *)
(** ** Regular expressions of the source *)

Module Re.

(** What the two patterns given to [re.match] are made of: a literal
    character, and a capturing group [(\d{lo,hi})]. *)
Inductive atom : Type :=
| Lit (c : ascii)
| Digits (lo hi : nat).

Definition pattern : Type := list atom.

(** The first [n] characters of [s] when they are [n] decimal digits,
    with what follows them. *)
Fixpoint take_digits (n : nat) (s : string) : option (string * string) :=
  match n with
  | O => Some (EmptyString, s)
  | S n' =>
      match s with
      | EmptyString => None
      | String c s' =>
          if PyStr.is_decimal c then
            match take_digits n' s' with
            | Some (g, rest) => Some (String c g, rest)
            | None => None
            end
          else None
      end
  end.

(** A greedy bounded repetition followed by the rest of the pattern
    [cont]: the group takes [lo + extra] digits if the rest then matches,
    otherwise one digit fewer, down to [lo]. *)
Fixpoint greedy (extra lo : nat) (cont : string -> option (list string))
         (s : string) : option (list string) :=
  let attempt :=
    match take_digits (lo + extra) s with
    | Some (g, rest) =>
        match cont rest with
        | Some groups => Some (g :: groups)
        | None => None
        end
    | None => None
    end in
  match attempt with
  | Some groups => Some groups
  | None =>
      match extra with
      | O => None
      | S extra' => greedy extra' lo cont s
      end
  end.

(** [re.match(p, s)]: the pattern is tried at the start of [s] only; the
    result is [m.groups()]. *)
Fixpoint re_match (p : pattern) (s : string) : option (list string) :=
  match p with
  | [] => Some []
  | Lit c :: p' =>
      match s with
      | EmptyString => None
      | String a s' => if Ascii.eqb a c then re_match p' s' else None
      end
  | Digits lo hi :: p' =>
      if (lo <=? hi)%nat then greedy (hi - lo) lo (re_match p') s else None
  end.

(** [re.findall(r'\d+', s)]: the maximal runs of decimal digits. *)
Definition findall_digits (s : string) : list string :=
  PyStr.runs PyStr.is_decimal s.

(** [r'(\d{4})-(\d{1,2})-(\d{1,2})'] *)
Definition iso_pattern : pattern :=
  [Digits 4 4; Lit "-"; Digits 1 2; Lit "-"; Digits 1 2].

(** [r'(\d{1,2})/(\d{1,2})/(\d{4})'] *)
Definition slash_pattern : pattern :=
  [Digits 1 2; Lit "/"; Digits 1 2; Lit "/"; Digits 4 4].

End Re.

(* ================================================================== *)
(** ** The Gregorian date parser *)

Module GregorianDate.
Record t : Type := mk { year : Z; month : Z; day : Z }.
End GregorianDate.

(** The local [months] dictionary, in iteration order.  The literal lists
    ['may'] twice with the same value; a dictionary keeps one entry, at the
    place of the first. *)
Definition months : list (string * Z) :=
  [ ("january", 1); ("february", 2); ("march", 3); ("april", 4);
    ("may", 5); ("june", 6); ("july", 7); ("august", 8);
    ("september", 9); ("october", 10); ("november", 11); ("december", 12);
    ("jan", 1); ("feb", 2); ("mar", 3); ("apr", 4); ("jun", 6);
    ("jul", 7); ("aug", 8); ("sep", 9); ("oct", 10); ("nov", 11);
    ("dec", 12) ].

(** [year, month, day = map(int, groups)] on three groups. *)
Definition int3 (groups : list string) : result (Z * Z * Z) :=
  match groups with
  | [a; b; c] =>
      x <- PyStr.int a ;; y <- PyStr.int b ;; z <- PyStr.int c ;;
      Returned (x, y, z)
  | _ => Raised ValueError
  end.

(** The loop [for month_name, month_num in months.items()] and the final
    [return None]. *)
Fixpoint natural_language (items : list (string * Z)) (date_str : string)
  : result (option GregorianDate.t) :=
  match items with
  | [] => Returned None
  | (month_name, month_num) :: items' =>
      if PyStr.contains month_name (PyStr.lower date_str) then
        let numbers := Re.findall_digits date_str in
        if (2 <=? List.length numbers)%nat then
          day <- PyStr.int (List.hd EmptyString numbers) ;;
          year <- PyStr.int (List.last numbers EmptyString) ;;
          let year := if year <? 100 then year + 2000 else year in
          Returned (Some (GregorianDate.mk year month_num day))
        else natural_language items' date_str
      else natural_language items' date_str
  end.

Definition parseGregorianDate (date_str : string)
  : result (option GregorianDate.t) :=
  match Re.re_match Re.iso_pattern date_str with
  | Some groups =>
      '(year, month, day) <- int3 groups ;;
      Returned (Some (GregorianDate.mk year month day))
  | None =>
      match Re.re_match Re.slash_pattern date_str with
      | Some groups =>
          '(m1, m2, year) <- int3 groups ;;
          if m1 >? 12
          then Returned (Some (GregorianDate.mk year m2 m1))
          else Returned (Some (GregorianDate.mk year m1 m2))
      | None => natural_language months date_str
      end
  end.

(* ================================================================== *)
(** ** The conversion gateway *)

(** A value produced by [json.loads].  A float is kept as the text Python
    prints for it, which is all the program does with one. *)
Inductive pyval : Type :=
| PNone
| PBool (b : bool)
| PInt (n : Z)
| PFloat (repr : string)
| PStr (s : string)
| PList (items : list pyval)
| PDict (items : list (string * pyval)).

Module ConvertedDate.
Record t : Type :=
  mk { year : pyval; month : pyval; day : pyval; formatted : string }.
End ConvertedDate.

(** What the service does with one request, as [urlopen], [read], [decode]
    and [json.loads] see it. *)
Inductive service_behaviour : Type :=
| NetworkError
| Timeout
| BadStatus (status : Z)
| UndecodableBody
| MalformedJson
| JsonBody (data : pyval).

(** The decimal text of an integer. *)
Definition str_int (n : Z) : string :=
  DecimalString.NilZero.string_of_int (Z.to_int n).

(** The number of digits of the decimal text, the sign not counted. *)
Definition digits_of (n : Z) : Z :=
  Z.of_nat (String.length (str_int (Z.abs n))).

(** [str(n)] for an [int]: its decimal text, [ValueError] when that has
    more than [max_str_digits] digits. *)
Definition int_str (n : Z) : result string :=
  if digits_of n <=? PyStr.max_str_digits
  then Returned (str_int n)
  else Raised ValueError.

Definition hex_digit (n : N) : ascii :=
  if (n <? 10)%N then ascii_of_N (48 + n) else ascii_of_N (55 + n).

Definition percent_byte (b : N) : string :=
  String "%" (String (hex_digit (b / 16)) (String (hex_digit (b mod 16)) "")).

(** [urllib.parse.quote_plus] on one character: letters, digits and
    [_.-~] stay, a space becomes [+], anything else is the percent-encoding
    of its UTF-8 bytes. *)
Definition quote_plus_char (c : ascii) : string :=
  let n := PyStr.code c in
  if PyStr.between 48 57 c || PyStr.between 65 90 c || PyStr.between 97 122 c
     || Ascii.eqb c "_" || Ascii.eqb c "." || Ascii.eqb c "-"
     || Ascii.eqb c "~"
  then String c ""
  else if Ascii.eqb c " " then "+"
  else if (n <? 128)%N then percent_byte n
  else percent_byte (192 + n / 64) ++ percent_byte (128 + n mod 64).

Fixpoint quote_plus (s : string) : string :=
  match s with
  | EmptyString => EmptyString
  | String c s' => quote_plus_char c ++ quote_plus s'
  end.

(** [urllib.parse.urlencode] on a dictionary whose values are already
    strings. *)
Fixpoint urlencode (params : list (string * string)) : string :=
  match params with
  | [] => ""
  | [(k, v)] => quote_plus k ++ "=" ++ quote_plus v
  | (k, v) :: params' =>
      quote_plus k ++ "=" ++ quote_plus v ++ "&" ++ urlencode params'
  end.

(** A value of the [params] dictionary: a string or an integer. *)
Inductive param : Type :=
| StrParam (s : string)
| IntParam (n : Z).

(** [str(v)] on such a value. *)
Definition param_str (v : param) : result string :=
  match v with
  | StrParam s => Returned s
  | IntParam n => int_str n
  end.

(** [urllib.parse.urlencode(params)]: every value goes through [str]. *)
Fixpoint urlencode_params (params : list (string * param)) : result string :=
  match params with
  | [] => Returned ""
  | [(k, v)] =>
      s <- param_str v ;;
      Returned (quote_plus k ++ "=" ++ quote_plus s)
  | (k, v) :: params' =>
      s <- param_str v ;;
      rest <- urlencode_params params' ;;
      Returned (quote_plus k ++ "=" ++ quote_plus s ++ "&" ++ rest)
  end.

(** Whether a value holds, at any depth, an integer whose decimal text
    has more than [max_str_digits] digits; [repr] of a list or a dictionary
    raises [ValueError] at the first of them. *)
Fixpoint holds_long_int (v : pyval) : bool :=
  match v with
  | PInt n => negb (digits_of n <=? PyStr.max_str_digits)
  | PList items => existsb holds_long_int items
  | PDict items => existsb (fun '(_, x) => holds_long_int x) items
  | PNone | PBool _ | PFloat _ | PStr _ => false
  end.

(** [key in data] *)
Definition py_in (key : string) (data : pyval) : result bool :=
  match data with
  | PDict items =>
      Returned (match dict_get key items with Some _ => true | None => false end)
  | PList items =>
      Returned (existsb (fun v => match v with
                                  | PStr s => String.eqb key s
                                  | _ => false
                                  end) items)
  | PStr s => Returned (PyStr.contains key s)
  | PNone | PBool _ | PInt _ | PFloat _ => Raised TypeError
  end.

(** [data[key]] with a string key. *)
Definition py_getitem (data : pyval) (key : string) : result pyval :=
  match data with
  | PDict items =>
      match dict_get key items with
      | Some v => Returned v
      | None => Raised KeyError
      end
  | _ => Raised TypeError
  end.

(** [format(v, '02d')] *)
Definition format_02d (v : pyval) : result string :=
  match v with
  | PInt n =>
      if digits_of n <=? PyStr.max_str_digits
      then Returned (if (0 <=? n) && (n <? 10)
                     then "0" ++ str_int n else str_int n)
      else Raised ValueError
  | PBool b => Returned (if b then "01" else "00")
  | PFloat _ | PStr _ => Raised ValueError
  | PNone | PList _ | PDict _ => Raised TypeError
  end.

(** [try: body except Exception: pass] followed by [return None]. *)
Definition try_except_Exception {A : Type} (body : result (option A))
  : result (option A) :=
  match body with
  | Returned v => Returned v
  | Raised e => if is_Exception e then Returned None else Raised e
  end.

Section Gateway.

(** The service, as a function of the URL requested. *)
Variable service : string -> service_behaviour.

(** The text of Python's [repr] of a list or a dictionary that holds no
    integer beyond the limit. *)
Variable container_repr : pyval -> string.

(** [format(v, '')], that is [str(v)]. *)
Definition py_str (v : pyval) : result string :=
  match v with
  | PNone => Returned "None"
  | PBool b => Returned (if b then "True" else "False")
  | PInt n => int_str n
  | PFloat repr => Returned repr
  | PStr s => Returned s
  | PList _ | PDict _ =>
      if holds_long_int v then Raised ValueError
      else Returned (container_repr v)
  end.

(** [with urllib.request.urlopen(url, timeout=5) as response:
       data = json.loads(response.read().decode())] *)
Definition fetch_json (url : string) : result pyval :=
  match service url with
  | NetworkError => Raised URLError
  | Timeout => Raised TimeoutError
  | BadStatus status => Raised (HTTPError status)
  | UndecodableBody => Raised UnicodeDecodeError
  | MalformedJson => Raised JSONDecodeError
  | JsonBody data => Returned data
  end.

(** The text of the URL of a request, when one is built. *)
Definition hebrew_url (hebrew_date : HebrewDate.t) : string :=
  "https://www.hebcal.com/converter?" ++
  urlencode [ ("cfg", "json");
              ("hy", str_int (HebrewDate.year hebrew_date));
              ("hm", HebrewDate.month hebrew_date);
              ("hd", str_int (HebrewDate.day hebrew_date));
              ("h2g", "1"); ("strict", "1") ].

Definition gregorian_url (gregorian_date : GregorianDate.t) : string :=
  "https://www.hebcal.com/converter?" ++
  urlencode [ ("cfg", "json");
              ("gy", str_int (GregorianDate.year gregorian_date));
              ("gm", str_int (GregorianDate.month gregorian_date));
              ("gd", str_int (GregorianDate.day gregorian_date));
              ("g2h", "1"); ("strict", "1") ].

(** [url = 'https://www.hebcal.com/converter?' + urlencode(params)] *)
Definition hebrew_request (hebrew_date : HebrewDate.t) : result string :=
  query <- urlencode_params
             [ ("cfg", StrParam "json");
               ("hy", IntParam (HebrewDate.year hebrew_date));
               ("hm", StrParam (HebrewDate.month hebrew_date));
               ("hd", IntParam (HebrewDate.day hebrew_date));
               ("h2g", StrParam "1"); ("strict", StrParam "1") ] ;;
  Returned ("https://www.hebcal.com/converter?" ++ query).

Definition gregorian_request (gregorian_date : GregorianDate.t)
  : result string :=
  query <- urlencode_params
             [ ("cfg", StrParam "json");
               ("gy", IntParam (GregorianDate.year gregorian_date));
               ("gm", IntParam (GregorianDate.month gregorian_date));
               ("gd", IntParam (GregorianDate.day gregorian_date));
               ("g2h", StrParam "1"); ("strict", StrParam "1") ] ;;
  Returned ("https://www.hebcal.com/converter?" ++ query).

(** [a in data and b in data and c in data] *)
Definition has_fields (a b c : string) (data : pyval) : result bool :=
  x <- py_in a data ;;
  if x then
    y <- py_in b data ;;
    if y then py_in c data else Returned false
  else Returned false.

Definition convertHebrewToGregorian (hebrew_date : HebrewDate.t)
  : result (option ConvertedDate.t) :=
  try_except_Exception (
    url <- hebrew_request hebrew_date ;;
    data <- fetch_json url ;;
    ok <- has_fields "gy" "gm" "gd" data ;;
    if ok then
      gy <- py_getitem data "gy" ;;
      gm <- py_getitem data "gm" ;;
      gd <- py_getitem data "gd" ;;
      yyyy <- py_str gy ;;
      mm <- format_02d gm ;;
      dd <- format_02d gd ;;
      Returned (Some (ConvertedDate.mk gy gm gd
                        (yyyy ++ "-" ++ mm ++ "-" ++ dd)))
    else Returned None).

Definition convertGregorianToHebrew (gregorian_date : GregorianDate.t)
  : result (option ConvertedDate.t) :=
  try_except_Exception (
    url <- gregorian_request gregorian_date ;;
    data <- fetch_json url ;;
    ok <- has_fields "hy" "hm" "hd" data ;;
    if ok then
      hy <- py_getitem data "hy" ;;
      hm <- py_getitem data "hm" ;;
      hd <- py_getitem data "hd" ;;
      d <- py_str hd ;;
      m <- py_str hm ;;
      y <- py_str hy ;;
      Returned (Some (ConvertedDate.mk hy hm hd (d ++ " " ++ m ++ " " ++ y)))
    else Returned None).

End Gateway.

(* ================================================================== *)
(** ** The result presenter and the query handler *)

(** An [Action] of the launcher: its identifier, its label, and the text
    its callback hands to [setClipboardText]. *)
Record Action : Type :=
  mkAction { action_id : string; action_text : string; clipboard : string }.

(** A [StandardItem] of the launcher; [icon] is the path its icon factory
    loads, [actions] is empty when the constructor is given none. *)
Record StandardItem : Type :=
  mkItem { item_id : string; icon : string; text : string;
           subtext : string; actions : list Action }.

Definition md_name : string := "Hebrew Calendar Converter".

(** The two record shapes of the parsers as the dictionaries they are. *)
Definition hebrew_dict (d : HebrewDate.t) : pyval :=
  PDict [ ("year", PInt (HebrewDate.year d));
          ("month", PStr (HebrewDate.month d));
          ("day", PInt (HebrewDate.day d)) ].

Definition gregorian_dict (d : GregorianDate.t) : pyval :=
  PDict [ ("year", PInt (GregorianDate.year d));
          ("month", PInt (GregorianDate.month d));
          ("day", PInt (GregorianDate.day d)) ].

(** [s.lstrip()] and [s.rstrip()] without argument. *)
Fixpoint lstrip (s : string) : string :=
  match s with
  | EmptyString => EmptyString
  | String c s' => if PyStr.char_isspace c then lstrip s' else s
  end.

Fixpoint rstrip (s : string) : string :=
  match s with
  | EmptyString => EmptyString
  | String c s' =>
      let r := rstrip s' in
      if PyStr.nonempty r then String c r
      else if PyStr.char_isspace c then EmptyString
      else String c EmptyString
  end.

(** [s.strip()] *)
Definition strip (s : string) : string := rstrip (lstrip s).

Section Handler.

Variable service : string -> service_behaviour.
Variable container_repr : pyval -> string.

(** [iconPath], fixed when the module is loaded. *)
Variable iconPath : string.

(** The arrow of the two direction labels, U+2192, a character outside the
    range the strings of this development cover. *)
Variable arrow : string.

Definition createResultItem (input_date : pyval)
           (output_date : ConvertedDate.t) (hebrew_to_gregorian : bool)
  : result StandardItem :=
  '(input_text, conversion_type) <-
    (if hebrew_to_gregorian then
       day <- py_getitem input_date "day" ;;
       d <- py_str container_repr day ;;
       month <- py_getitem input_date "month" ;;
       m <- py_str container_repr month ;;
       year <- py_getitem input_date "year" ;;
       y <- py_str container_repr year ;;
       Returned (d ++ " " ++ m ++ " " ++ y,
                 "Hebrew " ++ arrow ++ " Gregorian")
     else
       year <- py_getitem input_date "year" ;;
       yyyy <- py_str container_repr year ;;
       month <- py_getitem input_date "month" ;;
       mm <- format_02d month ;;
       day <- py_getitem input_date "day" ;;
       dd <- format_02d day ;;
       Returned (yyyy ++ "-" ++ mm ++ "-" ++ dd,
                 "Gregorian " ++ arrow ++ " Hebrew")) ;;
  let output_text := ConvertedDate.formatted output_date in
  Returned (mkItem md_name iconPath output_text
              (conversion_type ++ ": " ++ input_text)
              [ mkAction "copy" "Copy to clipboard" output_text;
                mkAction "copy-input" "Copy input date" input_text ]).

(** The item shown for an empty query. *)
Definition prompt_item : StandardItem :=
  mkItem md_name iconPath "Hebrew Calendar Converter"
    "Enter a Hebrew or Gregorian date to convert" [].

(** The item shown when nothing was converted. *)
Definition invalid_item : StandardItem :=
  mkItem md_name iconPath "Invalid date format"
    "Try formats like '5784 Kislev 25', '2023-12-08', or 'December 8, 2023'"
    [].

(** The block "Try to parse as Gregorian date": what it appends to the
    empty [items]. *)
Definition gregorian_items (query_string : string)
  : result (list StandardItem) :=
  gregorian_result <- parseGregorianDate query_string ;;
  match gregorian_result with
  | Some g =>
      hebrew_date <- convertGregorianToHebrew service container_repr g ;;
      match hebrew_date with
      | Some h =>
          item <- createResultItem (gregorian_dict g) h false ;;
          Returned [item]
      | None => Returned []
      end
  | None => Returned []
  end.

(** The block "Try to parse as Hebrew date": [items] after it. *)
Definition hebrew_items (query_string : string) (items : list StandardItem)
  : result (list StandardItem) :=
  hebrew_result <- parseHebrewDate query_string ;;
  match hebrew_result with
  | Some h =>
      gregorian_date <- convertHebrewToGregorian service container_repr h ;;
      match gregorian_date with
      | Some g =>
          item <- createResultItem (hebrew_dict h) g true ;;
          Returned (items ++ [item])%list
      | None => Returned items
      end
  | None => Returned items
  end.

(** [Plugin.handleTriggerQuery] on [query.string]; the value is the list
    of the items given to [query.add], in order.  The calls of [debug] only
    log: the records they format are those the parsers and the gateway
    returned, which hold no integer beyond the limit of [str]. *)
Definition handleTriggerQuery (query : string)
  : result (list StandardItem) :=
  let query_string := strip query in
  if negb (PyStr.nonempty query_string) then Returned [prompt_item]
  else
    items <- gregorian_items query_string ;;
    items <- hebrew_items query_string items ;;
    match items with
    | [] => Returned [invalid_item]
    | _ :: _ => Returned items
    end.

End Handler.

(* ================================================================== *)
(** ** Vocabulary of the specification *)

(** A digit string: some decimal digits, at least [lo] and at most [hi]. *)
Definition digit_field (lo hi : nat) (g : string) : Prop :=
  PyStr.all_chars PyStr.is_decimal g = true /\
  (lo <= String.length g <= hi)%nat.

(** [s] does not go on with a decimal digit. *)
Definition stops_digits (s : string) : bool :=
  match s with
  | EmptyString => true
  | String c _ => negb (PyStr.is_decimal c)
  end.

(** [s] begins with the ISO form [YYYY-M-D]; [d] is the day field as the
    pattern reads it, two digits wherever two are there. *)
Definition iso_form (s y m d rest : string) : Prop :=
  s = y ++ "-" ++ m ++ "-" ++ d ++ rest /\
  digit_field 4 4 y /\ digit_field 1 2 m /\ digit_field 1 2 d /\
  (String.length d = 2%nat \/ stops_digits rest = true).

(** [s] begins with the slash form [M/D/YYYY]. *)
Definition slash_form (s n1 n2 y rest : string) : Prop :=
  s = n1 ++ "/" ++ n2 ++ "/" ++ y ++ rest /\
  digit_field 1 2 n1 /\ digit_field 1 2 n2 /\ digit_field 4 4 y.

(** The input reaches the natural-language branch and a month name occurs
    in it, in any letter case. *)
Definition names_a_month (s : string) : Prop :=
  Re.re_match Re.iso_pattern s = None /\
  Re.re_match Re.slash_pattern s = None /\
  exists name num,
    In (name, num) months /\ PyStr.contains name (PyStr.lower s) = true.

Fixpoint last_opt {A : Type} (l : list A) : option A :=
  match l with
  | [] => None
  | [x] => Some x
  | _ :: l' => last_opt l'
  end.

(** The two-digit-year rule. *)
Definition two_digit_year (y : Z) : Z := if y <? 100 then y + 2000 else y.

(** The parser takes the first numeric run of [s] as the day and the last
    one as the year. *)
Definition takes_first_and_last (s : string) : Prop :=
  forall first last,
    List.hd_error (Re.findall_digits s) = Some first ->
    last_opt (Re.findall_digits s) = Some last ->
    exists r,
      parseGregorianDate s = Returned (Some r) /\
      GregorianDate.day r = PyStr.digits_value first /\
      GregorianDate.year r = two_digit_year (PyStr.digits_value last).

(** A numeric token: a non-empty string of decimal digits. *)
Definition numeric (t : string) : bool :=
  PyStr.nonempty t && PyStr.all_chars PyStr.is_decimal t.

(** What a token offers to each slot of the Hebrew parser. *)
Definition year_candidate (t : string) : option Z :=
  if numeric t && (PyStr.digits_value t >? 5000)
  then Some (PyStr.digits_value t) else None.

Definition day_candidate (t : string) : option Z :=
  if numeric t && (1 <=? PyStr.digits_value t) && (PyStr.digits_value t <=? 30)
  then Some (PyStr.digits_value t) else None.

Definition month_candidate (t : string) : option string :=
  dict_get t HEBREW_MONTHS.

(** The values the qualifying tokens offer, in token order. *)
Fixpoint qualifying {A : Type} (offer : string -> option A)
         (parts : list string) : list A :=
  match parts with
  | [] => []
  | t :: parts' =>
      match offer t with
      | Some v => v :: qualifying offer parts'
      | None => qualifying offer parts'
      end
  end.

(** The record made of the last value offered to each slot, when every slot
    was offered one. *)
Definition last_of_each_slot (parts : list string) : option HebrewDate.t :=
  match last_opt (qualifying year_candidate parts),
        last_opt (qualifying month_candidate parts),
        last_opt (qualifying day_candidate parts) with
  | Some y, Some m, Some d => Some (HebrewDate.mk y m d)
  | _, _, _ => None
  end.

(** The 14 display names. *)
Definition canonical_names : list string := List.map snd HEBREW_MONTHS.

(** The first option when it holds a value, the second otherwise. *)
Definition or_else {A : Type} (o d : option A) : option A :=
  match o with
  | Some v => Some v
  | None => d
  end.

(** A token that passes [isdigit] is one [int] converts: decimal digits
    only, at most [max_str_digits] of them. *)
Definition plain_digits (t : string) : bool :=
  negb (PyStr.isdigit t)
  || (numeric t && (Z.of_nat (String.length t) <=? PyStr.max_str_digits)).

(** A digit run [int] converts. *)
Definition within_limit (g : string) : bool :=
  Z.of_nat (String.length g) <=? PyStr.max_str_digits.

(** The first and the last numeric run of [s] are ones [int] converts. *)
Definition runs_within_limit (s : string) : bool :=
  within_limit (List.hd EmptyString (Re.findall_digits s))
  && within_limit (List.last (Re.findall_digits s) EmptyString).

(** U+00B2, SUPERSCRIPT TWO. *)
Definition superscript_two : string := String (ascii_of_N 178) "".

(** The bounds of the groups of a pattern, in order. *)
Fixpoint group_bounds (p : Re.pattern) : list (nat * nat) :=
  match p with
  | [] => []
  | Re.Lit _ :: p' => group_bounds p'
  | Re.Digits lo hi :: p' => (lo, hi) :: group_bounds p'
  end.

(** The record of the natural-language branch for the month number [num]. *)
Definition natural_record (s : string) (num : Z) : GregorianDate.t :=
  GregorianDate.mk
    (two_digit_year
       (PyStr.digits_value (List.last (Re.findall_digits s) EmptyString)))
    num
    (PyStr.digits_value (List.hd EmptyString (Re.findall_digits s))).

(** A behaviour of the service from which no conversion can be read: a
    failed exchange, or a body that is not an object with the three
    fields. *)
Definition unusable (a b c : string) (beh : service_behaviour) : bool :=
  match beh with
  | JsonBody (PDict items) =>
      match dict_get a items, dict_get b items, dict_get c items with
      | Some _, Some _, Some _ => false
      | _, _, _ => true
      end
  | _ => true
  end.

(** A computation that raises, if it does, an exception that
    [except Exception] catches. *)
Definition catchable {A : Type} (c : result A) : Prop :=
  match c with
  | Returned _ => True
  | Raised e => is_Exception e = true
  end.

(** The first entry of [months], in the order of the table, whose name
    occurs in the lowered input. *)
Definition first_named (s : string) : option (string * Z) :=
  List.find (fun item => PyStr.contains (fst item) (PyStr.lower s)) months.

(** What the natural-language branch gives for [s]. *)
Definition natural_outcome (s : string) : result (option GregorianDate.t) :=
  match first_named s with
  | Some (_, num) =>
      if (2 <=? List.length (Re.findall_digits s))%nat
      then if runs_within_limit s
           then Returned (Some (natural_record s num))
           else Raised ValueError
      else Returned None
  | None => Returned None
  end.

(** The characters [re.sub(r'[,.]', ...)] removes. *)
Definition is_punctuation (c : ascii) : bool :=
  Ascii.eqb c ","%char || Ascii.eqb c "."%char.

(** The number of occurrences of [c] in [s]. *)
Fixpoint count_char (c : ascii) (s : string) : nat :=
  match s with
  | EmptyString => O
  | String a s' => ((if Ascii.eqb a c then 1 else 0) + count_char c s')%nat
  end.

(** The characters [quote_plus] leaves as they are. *)
Definition unreserved (c : ascii) : bool :=
  PyStr.between 48 57 c || PyStr.between 65 90 c || PyStr.between 97 122 c
  || Ascii.eqb c "_" || Ascii.eqb c "." || Ascii.eqb c "-" || Ascii.eqb c "~".

(** The text of [format(n, '02d')] for an [int] that [str] converts. *)
Definition zero_pad2 (n : Z) : string :=
  if (0 <=? n) && (n <? 10) then "0" ++ str_int n else str_int n.

(** The text the presenter shows for the input, for each record shape. *)
Definition gregorian_input_text (g : GregorianDate.t) : string :=
  str_int (GregorianDate.year g) ++ "-" ++ zero_pad2 (GregorianDate.month g)
  ++ "-" ++ zero_pad2 (GregorianDate.day g).

Definition hebrew_input_text (h : HebrewDate.t) : string :=
  str_int (HebrewDate.day h) ++ " " ++ HebrewDate.month h ++ " "
  ++ str_int (HebrewDate.year h).

(** An item that shows a conversion: its first action copies the text it
    shows, its second the input text, which ends its subtext. *)
Definition shows_conversion (item : StandardItem) : Prop :=
  exists label input_text,
    subtext item = label ++ ": " ++ input_text /\
    actions item
    = [ mkAction "copy" "Copy to clipboard" (text item);
        mkAction "copy-input" "Copy input date" input_text ].

(** A service from which no conversion can be read, in either direction. *)
Definition service_down (service : string -> service_behaviour) : Prop :=
  forall url,
    unusable "gy" "gm" "gd" (service url) = true /\
    unusable "hy" "hm" "hd" (service url) = true.

(** The item of one conversion: the converted text, the direction label
    with the input text, and the two copy actions. *)
Definition conversion_item (iconPath label input_text : string)
           (out : ConvertedDate.t) : StandardItem :=
  mkItem md_name iconPath (ConvertedDate.formatted out)
    (label ++ ": " ++ input_text)
    [ mkAction "copy" "Copy to clipboard" (ConvertedDate.formatted out);
      mkAction "copy-input" "Copy input date" input_text ].

(** The Gregorian reading of a query converts to nothing. *)
Definition no_gregorian_conversion
           (service : string -> service_behaviour)
           (container_repr : pyval -> string) (q : string) : Prop :=
  forall g,
    parseGregorianDate q = Returned (Some g) ->
    convertGregorianToHebrew service container_repr g = Returned None.

(** The Hebrew reading of a query converts to nothing. *)
Definition no_hebrew_conversion
           (service : string -> service_behaviour)
           (container_repr : pyval -> string) (q : string) : Prop :=
  forall h,
    parseHebrewDate q = Returned (Some h) ->
    convertHebrewToGregorian service container_repr h = Returned None.

(** A literal of a pattern that lowering neither creates nor removes. *)
Definition case_free (a : Re.atom) : Prop :=
  match a with
  | Re.Lit c => forall x, Ascii.eqb (PyStr.char_lower x) c = Ascii.eqb x c
  | Re.Digits _ _ => True
  end.

(* ================================================================== *)
(** ** Strings *)

Lemma all_chars_app (p : ascii -> bool) (a b : string) :
  PyStr.all_chars p (a ++ b) = PyStr.all_chars p a && PyStr.all_chars p b.
Proof.
  induction a as [|x a IH]; simpl; [reflexivity|].
  now rewrite IH, andb_assoc.
Qed.

Lemma decimal_digit_range (c : ascii) :
  PyStr.is_decimal c = true -> 0 <= Z.of_N (PyStr.code c) - 48 <= 9.
Proof.
  unfold PyStr.is_decimal, PyStr.between. intros H.
  apply andb_true_iff in H. destruct H as [H1 H2].
  apply N.leb_le in H1. apply N.leb_le in H2. lia.
Qed.

Lemma decimal_isdigit (c : ascii) :
  PyStr.is_decimal c = true -> PyStr.char_isdigit c = true.
Proof. unfold PyStr.char_isdigit. intros ->. reflexivity. Qed.

Lemma digits_value_from_nonneg (g : string) :
  forall acc, 0 <= acc -> PyStr.all_chars PyStr.is_decimal g = true ->
              0 <= PyStr.digits_value_from acc g.
Proof.
  induction g as [|c g IH];
    cbn [PyStr.digits_value_from PyStr.all_chars]; intros acc Hacc H;
    [exact Hacc|].
  apply andb_true_iff in H. destruct H as [Hc Hg].
  apply IH; [|exact Hg]. pose proof (decimal_digit_range c Hc). lia.
Qed.

Lemma digits_value_nonneg (g : string) :
  PyStr.all_chars PyStr.is_decimal g = true -> 0 <= PyStr.digits_value g.
Proof. apply digits_value_from_nonneg. lia. Qed.

Lemma digits_value_two (g : string) :
  PyStr.all_chars PyStr.is_decimal g = true -> (String.length g <= 2)%nat ->
  0 <= PyStr.digits_value g <= 99.
Proof.
  intros H L. unfold PyStr.digits_value.
  destruct g as [|a [|b [|c g]]];
    cbn [PyStr.digits_value_from PyStr.all_chars String.length] in *;
    try lia.
  - rewrite andb_true_r in H. pose proof (decimal_digit_range a H). lia.
  - rewrite andb_true_r in H. apply andb_true_iff in H. destruct H as [Ha Hb].
    pose proof (decimal_digit_range a Ha).
    pose proof (decimal_digit_range b Hb). lia.
Qed.

Lemma int_digit_string (g : string) :
  PyStr.nonempty g = true -> PyStr.all_chars PyStr.is_decimal g = true ->
  within_limit g = true ->
  PyStr.int g = Returned (PyStr.digits_value g).
Proof.
  unfold within_limit. intros N D L. unfold PyStr.int. now rewrite N, D, L.
Qed.

Lemma int_returned (g : string) (n : Z) :
  PyStr.int g = Returned n -> numeric g = true /\ n = PyStr.digits_value g.
Proof.
  unfold PyStr.int, numeric.
  destruct (PyStr.nonempty g && PyStr.all_chars PyStr.is_decimal g);
    [|discriminate].
  destruct (Z.of_nat (String.length g) <=? PyStr.max_str_digits);
    intros H; inversion H; auto.
Qed.

Lemma int_returned_limit (g : string) (n : Z) :
  PyStr.int g = Returned n -> within_limit g = true.
Proof.
  unfold PyStr.int, within_limit.
  destruct (PyStr.nonempty g && PyStr.all_chars PyStr.is_decimal g);
    [|discriminate].
  destruct (Z.of_nat (String.length g) <=? PyStr.max_str_digits);
    [reflexivity | discriminate].
Qed.

Lemma int_raised (g : string) (e : exn) :
  PyStr.int g = Raised e -> e = ValueError.
Proof.
  unfold PyStr.int.
  destruct (PyStr.nonempty g && PyStr.all_chars PyStr.is_decimal g);
    [destruct (Z.of_nat (String.length g) <=? PyStr.max_str_digits)|];
    intros H; inversion H; reflexivity.
Qed.

Lemma int_beyond_limit (g : string) :
  within_limit g = false -> PyStr.int g = Raised ValueError.
Proof.
  unfold PyStr.int, within_limit. intros ->.
  now destruct (PyStr.nonempty g && PyStr.all_chars PyStr.is_decimal g).
Qed.

Lemma nonempty_length (g : string) :
  (1 <= String.length g)%nat -> PyStr.nonempty g = true.
Proof. destruct g; simpl; [lia | reflexivity]. Qed.

Lemma int_digit_field (lo hi : nat) (g : string) :
  (1 <= lo)%nat -> Z.of_nat hi <= PyStr.max_str_digits ->
  digit_field lo hi g ->
  PyStr.int g = Returned (PyStr.digits_value g).
Proof.
  intros Hlo Hhi [D L]. apply int_digit_string; [|exact D|].
  - apply nonempty_length. lia.
  - unfold within_limit. apply Z.leb_le. lia.
Qed.

(** The runs of [runs_from] are non-empty and made of kept characters. *)
Lemma runs_from_kept (keep : ascii -> bool) (s : string) :
  forall cur, PyStr.all_chars keep cur = true ->
    Forall (fun g => PyStr.nonempty g = true /\ PyStr.all_chars keep g = true)
           (PyStr.runs_from keep cur s).
Proof.
  induction s as [|c s IH]; simpl; intros cur Hcur.
  - destruct (PyStr.nonempty cur) eqn:E; constructor; auto.
  - destruct (keep c) eqn:K.
    + apply IH. rewrite all_chars_app, Hcur. simpl. now rewrite K.
    + destruct (PyStr.nonempty cur) eqn:E.
      * constructor; [auto | apply IH; reflexivity].
      * apply IH; reflexivity.
Qed.

Lemma findall_digits_numeric (s : string) :
  Forall (fun g => numeric g = true) (Re.findall_digits s).
Proof.
  unfold Re.findall_digits, PyStr.runs.
  eapply Forall_impl; [|apply runs_from_kept; reflexivity].
  intros g [N D]. unfold numeric. now rewrite N, D.
Qed.

(* ================================================================== *)
(** ** The matcher *)

Lemma take_digits_sound (n : nat) :
  forall s g rest,
    Re.take_digits n s = Some (g, rest) ->
    s = g ++ rest /\ String.length g = n /\
    PyStr.all_chars PyStr.is_decimal g = true.
Proof.
  induction n as [|n IH]; intros s g rest H; simpl in H.
  - inversion H; subst. auto.
  - destruct s as [|c s]; [discriminate|].
    destruct (PyStr.is_decimal c) eqn:Hc; [|discriminate].
    destruct (Re.take_digits n s) as [[g' rest']|] eqn:E; [|discriminate].
    inversion H; subst. destruct (IH _ _ _ E) as (-> & L & D).
    simpl. rewrite Hc, D, L. auto.
Qed.

Lemma take_digits_exact (g rest : string) :
  PyStr.all_chars PyStr.is_decimal g = true ->
  Re.take_digits (String.length g) (g ++ rest) = Some (g, rest).
Proof.
  induction g as [|c g IH]; simpl; intros H; [reflexivity|].
  apply andb_true_iff in H. destruct H as [Hc Hg].
  now rewrite Hc, (IH Hg).
Qed.

Lemma take_digits_short (g rest : string) :
  forall n, (String.length g < n)%nat -> stops_digits rest = true ->
            Re.take_digits n (g ++ rest) = None.
Proof.
  induction g as [|c g IH]; simpl; intros n L S.
  - destruct n as [|n]; [lia|]. simpl. destruct rest as [|c rest]; auto.
    simpl in S. apply negb_true_iff in S. now rewrite S.
  - destruct n as [|n]; [lia|]. simpl.
    destruct (PyStr.is_decimal c); [|reflexivity].
    rewrite IH; auto. lia.
Qed.

Lemma greedy_sound (cont : string -> option (list string)) (lo : nat) :
  forall extra s groups,
    Re.greedy extra lo cont s = Some groups ->
    exists g rest groups',
      groups = g :: groups' /\ s = g ++ rest /\
      digit_field lo (lo + extra) g /\ cont rest = Some groups'.
Proof.
  induction extra as [|extra IH]; intros s groups H; simpl in H.
  - destruct (Re.take_digits (lo + 0) s) as [[g rest]|] eqn:E;
      [|discriminate].
    destruct (cont rest) as [gs|] eqn:C; [|discriminate].
    inversion H; subst. destruct (take_digits_sound _ _ _ _ E) as (-> & L & D).
    exists g, rest, gs. unfold digit_field. repeat split; auto; lia.
  - destruct (Re.take_digits (lo + S extra) s) as [[g rest]|] eqn:E.
    + destruct (cont rest) as [gs|] eqn:C.
      * inversion H; subst.
        destruct (take_digits_sound _ _ _ _ E) as (-> & L & D).
        exists g, rest, gs. unfold digit_field. repeat split; auto; lia.
      * destruct (IH _ _ H) as (g' & rest' & gs' & -> & -> & [D L] & C').
        exists g', rest', gs'. unfold digit_field. repeat split; auto; lia.
    + destruct (IH _ _ H) as (g' & rest' & gs' & -> & -> & [D L] & C').
      exists g', rest', gs'. unfold digit_field. repeat split; auto; lia.
Qed.

(** The group takes the whole digit field [g] when the field is as long as
    the repetition allows or the text stops having digits after it. *)
Lemma greedy_complete (cont : string -> option (list string)) (lo : nat)
      (g rest : string) (groups : list string) :
  forall extra,
    digit_field lo (lo + extra) g ->
    String.length g = (lo + extra)%nat \/ stops_digits rest = true ->
    cont rest = Some groups ->
    Re.greedy extra lo cont (g ++ rest) = Some (g :: groups).
Proof.
  induction extra as [|extra IH]; intros [D L] M C.
  - assert (E : (lo + 0)%nat = String.length g) by lia.
    simpl. rewrite E, take_digits_exact, C; auto.
  - destruct (Nat.eq_dec (String.length g) (lo + S extra)) as [E|E].
    + simpl. rewrite <- E, take_digits_exact, C; auto.
    + destruct M as [M|M]; [contradiction|].
      simpl. rewrite take_digits_short; [|lia|exact M].
      apply IH; auto. split; [exact D | lia].
Qed.

Lemma re_match_groups (p : Re.pattern) :
  forall s groups,
    Re.re_match p s = Some groups ->
    Forall2 (fun b g => digit_field (fst b) (snd b) g) (group_bounds p) groups.
Proof.
  induction p as [|[c|lo hi] p IH]; intros s groups H; simpl in H.
  - inversion H. constructor.
  - destruct s as [|a s]; [discriminate|].
    destruct (Ascii.eqb a c); [|discriminate]. simpl. eauto.
  - destruct (lo <=? hi)%nat eqn:B; [|discriminate].
    apply Nat.leb_le in B.
    destruct (greedy_sound _ _ _ _ _ H) as (g & rest & gs & -> & _ & [D L] & C).
    simpl. constructor; [|eauto]. split; simpl; [exact D | lia].
Qed.

Lemma three_groups (b1 b2 b3 : nat * nat) (groups : list string) :
  Forall2 (fun b g => digit_field (fst b) (snd b) g) [b1; b2; b3] groups ->
  exists g1 g2 g3,
    groups = [g1; g2; g3] /\ digit_field (fst b1) (snd b1) g1 /\
    digit_field (fst b2) (snd b2) g2 /\ digit_field (fst b3) (snd b3) g3.
Proof.
  intros H. inversion H as [|? g1 ? l1 H1 T1]; subst.
  inversion T1 as [|? g2 ? l2 H2 T2]; subst.
  inversion T2 as [|? g3 ? l3 H3 T3]; subst.
  inversion T3; subst. exists g1, g2, g3. auto.
Qed.

Lemma iso_match_groups (s : string) (groups : list string) :
  Re.re_match Re.iso_pattern s = Some groups ->
  exists y m d,
    groups = [y; m; d] /\ digit_field 4 4 y /\ digit_field 1 2 m /\
    digit_field 1 2 d.
Proof. intros H. apply re_match_groups in H. now apply three_groups in H. Qed.

Lemma slash_match_groups (s : string) (groups : list string) :
  Re.re_match Re.slash_pattern s = Some groups ->
  exists n1 n2 y,
    groups = [n1; n2; y] /\ digit_field 1 2 n1 /\ digit_field 1 2 n2 /\
    digit_field 4 4 y.
Proof. intros H. apply re_match_groups in H. now apply three_groups in H. Qed.

Lemma iso_form_matches (s y m d rest : string) :
  iso_form s y m d rest -> Re.re_match Re.iso_pattern s = Some [y; m; d].
Proof.
  intros (-> & Hy & Hm & Hd & Hmax).
  unfold Re.iso_pattern. cbn [Re.re_match Nat.leb Nat.sub].
  apply greedy_complete; [exact Hy | left; destruct Hy; lia |].
  cbn [Re.re_match String.append Ascii.eqb Bool.eqb Nat.leb Nat.sub].
  apply greedy_complete; [exact Hm | right; reflexivity |].
  cbn [Re.re_match String.append Ascii.eqb Bool.eqb Nat.leb Nat.sub].
  apply greedy_complete; [exact Hd | exact Hmax | reflexivity].
Qed.

Lemma take_digits_extend (n : nat) :
  forall s g c rest,
    Re.take_digits n s = Some (g, String c rest) ->
    PyStr.is_decimal c = true ->
    Re.take_digits (S n) s = Some (g ++ String c "", rest).
Proof.
  induction n as [|n IH]; intros s g c rest H Hc.
  - simpl in H. inversion H; subst. simpl. now rewrite Hc.
  - cbn [Re.take_digits] in H. destruct s as [|a s]; [discriminate|].
    destruct (PyStr.is_decimal a) eqn:Ha; [|discriminate].
    destruct (Re.take_digits n s) as [[g' rest']|] eqn:E; [|discriminate].
    inversion H; subst.
    change (Re.take_digits (S (S n)) (String a s))
      with (if PyStr.is_decimal a
            then match Re.take_digits (S n) s with
                 | Some (g, rest) => Some (String a g, rest)
                 | None => None
                 end
            else None).
    now rewrite Ha, (IH _ _ _ _ E Hc).
Qed.

(** The last group of a pattern is as long as the text allows. *)
Lemma last_group_maximal (s d : string) :
  Re.re_match [Re.Digits 1 2] s = Some [d] ->
  exists rest,
    s = d ++ rest /\ digit_field 1 2 d /\
    (String.length d = 2%nat \/ stops_digits rest = true).
Proof.
  cbn [Re.re_match Nat.leb Nat.sub Re.greedy Nat.add]. intros H.
  destruct (Re.take_digits 2 s) as [[g rest]|] eqn:E2.
  - inversion H; subst. destruct (take_digits_sound _ _ _ _ E2) as (-> & L & D).
    exists rest. unfold digit_field. repeat split; auto; lia.
  - destruct (Re.take_digits 1 s) as [[g rest]|] eqn:E1; [|discriminate].
    inversion H; subst. destruct (take_digits_sound _ _ _ _ E1) as (Hs & L & D).
    exists rest. unfold digit_field. repeat split; auto; try lia.
    right. destruct rest as [|c rest]; [reflexivity|]. simpl.
    destruct (PyStr.is_decimal c) eqn:Hc; [|reflexivity].
    rewrite (take_digits_extend _ _ _ _ _ E1 Hc) in E2. discriminate.
Qed.

Lemma lit_match (c : ascii) (p : Re.pattern) (s : string)
      (groups : list string) :
  Re.re_match (Re.Lit c :: p) s = Some groups ->
  exists s', s = String c s' /\ Re.re_match p s' = Some groups.
Proof.
  simpl. destruct s as [|a s]; [discriminate|].
  destruct (Ascii.eqb a c) eqn:E; [|discriminate].
  apply Ascii.eqb_eq in E. subst. eauto.
Qed.

Lemma digits_match (lo hi : nat) (p : Re.pattern) (s : string)
      (groups : list string) :
  Re.re_match (Re.Digits lo hi :: p) s = Some groups ->
  exists g rest groups',
    groups = g :: groups' /\ s = g ++ rest /\ digit_field lo hi g /\
    Re.re_match p rest = Some groups'.
Proof.
  cbn [Re.re_match]. destruct (lo <=? hi)%nat eqn:B; [|discriminate].
  apply Nat.leb_le in B. intros H. apply greedy_sound in H.
  destruct H as (g & rest & gs & -> & -> & [D L] & C).
  exists g, rest, gs. unfold digit_field. repeat split; auto; lia.
Qed.

(** The strings the ISO pattern matches are the ones of [iso_form]. *)
Lemma iso_match_form (s y m d : string) :
  Re.re_match Re.iso_pattern s = Some [y; m; d] ->
  exists rest, iso_form s y m d rest.
Proof.
  unfold Re.iso_pattern. intros H.
  apply digits_match in H. destruct H as (g1 & r1 & gs1 & E1 & -> & F1 & H).
  inversion E1; subst. apply lit_match in H. destruct H as (s2 & -> & H).
  apply digits_match in H. destruct H as (g2 & r2 & gs2 & E2 & -> & F2 & H).
  inversion E2; subst. apply lit_match in H. destruct H as (s3 & -> & H).
  apply last_group_maximal in H. destruct H as (rest & -> & F3 & M).
  exists rest. unfold iso_form. auto 6.
Qed.

Lemma slash_form_matches (s n1 n2 y rest : string) :
  slash_form s n1 n2 y rest ->
  Re.re_match Re.iso_pattern s = None /\
  Re.re_match Re.slash_pattern s = Some [n1; n2; y].
Proof.
  intros (-> & H1 & H2 & Hy). split.
  - unfold Re.iso_pattern. cbn [Re.re_match Nat.leb Nat.sub Re.greedy Nat.add].
    rewrite take_digits_short; [reflexivity | destruct H1; lia | reflexivity].
  - unfold Re.slash_pattern. cbn [Re.re_match Nat.leb Nat.sub].
    apply greedy_complete; [exact H1 | right; reflexivity |].
    cbn [Re.re_match String.append Ascii.eqb Bool.eqb Nat.leb Nat.sub].
    apply greedy_complete; [exact H2 | right; reflexivity |].
    cbn [Re.re_match String.append Ascii.eqb Bool.eqb Nat.leb Nat.sub].
    apply greedy_complete; [exact Hy | left; destruct Hy; lia | reflexivity].
Qed.

Lemma slash_match_form (s n1 n2 y : string) :
  Re.re_match Re.slash_pattern s = Some [n1; n2; y] ->
  exists rest, slash_form s n1 n2 y rest.
Proof.
  unfold Re.slash_pattern. intros H.
  apply digits_match in H. destruct H as (g1 & r1 & gs1 & E1 & -> & F1 & H).
  inversion E1; subst. apply lit_match in H. destruct H as (s2 & -> & H).
  apply digits_match in H. destruct H as (g2 & r2 & gs2 & E2 & -> & F2 & H).
  inversion E2; subst. apply lit_match in H. destruct H as (s3 & -> & H).
  apply digits_match in H. destruct H as (g3 & r3 & gs3 & E3 & -> & F3 & H).
  inversion E3; subst. exists r3. unfold slash_form. auto.
Qed.

(* ================================================================== *)
(** ** The Gregorian parser, branch by branch *)

Lemma int3_digit_fields (a b c : string) (la ha lb hb lc hc : nat) :
  (1 <= la)%nat -> (1 <= lb)%nat -> (1 <= lc)%nat ->
  Z.of_nat ha <= PyStr.max_str_digits ->
  Z.of_nat hb <= PyStr.max_str_digits ->
  Z.of_nat hc <= PyStr.max_str_digits ->
  digit_field la ha a -> digit_field lb hb b -> digit_field lc hc c ->
  int3 [a; b; c]
  = Returned (PyStr.digits_value a, PyStr.digits_value b, PyStr.digits_value c).
Proof.
  intros La Lb Lc Ha Hb Hc Fa Fb Fc. unfold int3.
  rewrite (int_digit_field _ _ _ La Ha Fa), (int_digit_field _ _ _ Lb Hb Fb),
    (int_digit_field _ _ _ Lc Hc Fc).
  reflexivity.
Qed.

Lemma parse_iso_groups (s y m d : string) :
  Re.re_match Re.iso_pattern s = Some [y; m; d] ->
  parseGregorianDate s
  = Returned (Some (GregorianDate.mk (PyStr.digits_value y)
                      (PyStr.digits_value m) (PyStr.digits_value d))).
Proof.
  intros H. unfold parseGregorianDate. rewrite H.
  destruct (iso_match_groups _ _ H) as (y' & m' & d' & E & Fy & Fm & Fd).
  inversion E; subst.
  rewrite (int3_digit_fields _ _ _ 4 4 1 2 1 2)
    by (auto; cbv delta [PyStr.max_str_digits]; lia).
  reflexivity.
Qed.

Lemma parse_slash_groups (s n1 n2 y : string) :
  Re.re_match Re.iso_pattern s = None ->
  Re.re_match Re.slash_pattern s = Some [n1; n2; y] ->
  parseGregorianDate s
  = Returned (Some (if PyStr.digits_value n1 >? 12
                    then GregorianDate.mk (PyStr.digits_value y)
                           (PyStr.digits_value n2) (PyStr.digits_value n1)
                    else GregorianDate.mk (PyStr.digits_value y)
                           (PyStr.digits_value n1) (PyStr.digits_value n2))).
Proof.
  intros Hi H. unfold parseGregorianDate. rewrite Hi, H.
  destruct (slash_match_groups _ _ H) as (a & b & c & E & Fa & Fb & Fc).
  inversion E; subst.
  rewrite (int3_digit_fields _ _ _ 1 2 1 2 4 4)
    by (auto; cbv delta [PyStr.max_str_digits]; lia).
  cbn [bind]. destruct (PyStr.digits_value a >? 12); reflexivity.
Qed.

Lemma parse_natural (s : string) :
  Re.re_match Re.iso_pattern s = None ->
  Re.re_match Re.slash_pattern s = None ->
  parseGregorianDate s = natural_language months s.
Proof. intros Hi Hs. unfold parseGregorianDate. now rewrite Hi, Hs. Qed.

Lemma hd_in (l : list string) (d : string) :
  (1 <= List.length l)%nat -> In (List.hd d l) l.
Proof. destruct l; simpl; [lia | auto]. Qed.

Lemma last_in (l : list string) (d : string) :
  (1 <= List.length l)%nat -> In (List.last l d) l.
Proof.
  induction l as [|x l IH]; simpl; [lia|]. intros _.
  destruct l as [|y l]; [auto|]. right. apply IH. simpl. lia.
Qed.

Lemma last_opt_last {A : Type} (l : list A) (x d : A) :
  last_opt l = Some x -> List.last l d = x.
Proof.
  induction l as [|a l IH]; simpl; [discriminate|].
  destruct l as [|b l]; [congruence | exact IH].
Qed.

Lemma last_opt_in {A : Type} (l : list A) (x : A) :
  last_opt l = Some x -> In x l.
Proof.
  induction l as [|a l IH]; simpl; [discriminate|].
  destruct l as [|b l]; [intros H; inversion H; auto | auto].
Qed.

Lemma last_opt_none {A : Type} (l : list A) : last_opt l = None -> l = [].
Proof.
  induction l as [|a l IH]; [reflexivity|]. simpl.
  destruct l as [|b l]; [discriminate|]. intros H. discriminate (IH H).
Qed.

Lemma run_nonneg (s g : string) :
  In g (Re.findall_digits s) -> 0 <= PyStr.digits_value g.
Proof.
  intros I. pose proof (findall_digits_numeric s) as F.
  rewrite Forall_forall in F. specialize (F g I). unfold numeric in F.
  apply andb_true_iff in F. destruct F as [N D].
  now apply digits_value_nonneg.
Qed.

Lemma int_of_run (s g : string) :
  In g (Re.findall_digits s) -> within_limit g = true ->
  PyStr.int g = Returned (PyStr.digits_value g).
Proof.
  intros I L. pose proof (findall_digits_numeric s) as F.
  rewrite Forall_forall in F. specialize (F g I). unfold numeric in F.
  apply andb_true_iff in F. destruct F as [N D].
  now apply int_digit_string.
Qed.

Lemma natural_language_cons (s name : string) (num : Z)
      (items : list (string * Z)) :
  natural_language ((name, num) :: items) s
  = if PyStr.contains name (PyStr.lower s) then
      if (2 <=? List.length (Re.findall_digits s))%nat then
        day <- PyStr.int (List.hd EmptyString (Re.findall_digits s)) ;;
        year <- PyStr.int (List.last (Re.findall_digits s) EmptyString) ;;
        Returned (Some (GregorianDate.mk (two_digit_year year) num day))
      else natural_language items s
    else natural_language items s.
Proof. reflexivity. Qed.

Lemma natural_language_few (s : string) (items : list (string * Z)) :
  (List.length (Re.findall_digits s) < 2)%nat ->
  natural_language items s = Returned None.
Proof.
  intros L. induction items as [|[name num] items IH]; [reflexivity|].
  rewrite natural_language_cons.
  destruct (PyStr.contains name (PyStr.lower s)); [|exact IH].
  destruct (2 <=? List.length (Re.findall_digits s))%nat eqn:E; [|exact IH].
  apply Nat.leb_le in E. lia.
Qed.

Lemma natural_language_hit (s : string) (name : string) (num : Z)
      (items : list (string * Z)) :
  (2 <= List.length (Re.findall_digits s))%nat ->
  PyStr.contains name (PyStr.lower s) = true ->
  runs_within_limit s = true ->
  natural_language ((name, num) :: items) s
  = Returned (Some (natural_record s num)).
Proof.
  intros L C W. rewrite natural_language_cons, C.
  destruct (2 <=? List.length (Re.findall_digits s))%nat eqn:E;
    [|apply Nat.leb_gt in E; lia].
  unfold runs_within_limit in W. apply andb_true_iff in W.
  destruct W as [W1 W2].
  rewrite (int_of_run s _ (hd_in (Re.findall_digits s) EmptyString ltac:(lia)) W1).
  rewrite (int_of_run s _ (last_in (Re.findall_digits s) EmptyString ltac:(lia)) W2).
  reflexivity.
Qed.

Lemma natural_language_beyond (s : string) (name : string) (num : Z)
      (items : list (string * Z)) :
  (2 <= List.length (Re.findall_digits s))%nat ->
  PyStr.contains name (PyStr.lower s) = true ->
  runs_within_limit s = false ->
  natural_language ((name, num) :: items) s = Raised ValueError.
Proof.
  intros L C W. rewrite natural_language_cons, C.
  destruct (2 <=? List.length (Re.findall_digits s))%nat eqn:E;
    [|apply Nat.leb_gt in E; lia].
  unfold runs_within_limit in W.
  destruct (within_limit (List.hd EmptyString (Re.findall_digits s))) eqn:W1.
  - rewrite (int_of_run s _ (hd_in (Re.findall_digits s) EmptyString ltac:(lia)) W1). cbn [bind].
    simpl in W. now rewrite (int_beyond_limit _ W).
  - now rewrite (int_beyond_limit _ W1).
Qed.

Lemma natural_language_found (s : string) (items : list (string * Z)) :
  (2 <= List.length (Re.findall_digits s))%nat ->
  runs_within_limit s = true ->
  (exists name num,
      In (name, num) items /\ PyStr.contains name (PyStr.lower s) = true) ->
  exists name num,
    In (name, num) items /\ PyStr.contains name (PyStr.lower s) = true /\
    natural_language items s = Returned (Some (natural_record s num)).
Proof.
  intros L W. induction items as [|[name num] items IH];
    intros (n & k & I & C); [destruct I|].
  destruct (PyStr.contains name (PyStr.lower s)) eqn:E.
  - exists name, num. split; [left; reflexivity|]. split; [exact E|].
    now apply natural_language_hit.
  - destruct I as [I|I]; [inversion I; subst; congruence|].
    destruct IH as (n' & k' & I' & C' & R); [eauto|].
    exists n', k'. split; [right; exact I'|]. split; [exact C'|].
    rewrite natural_language_cons, E. exact R.
Qed.

Lemma natural_language_returned (s : string) (items : list (string * Z))
      (r : GregorianDate.t) :
  natural_language items s = Returned (Some r) ->
  (2 <= List.length (Re.findall_digits s))%nat /\
  runs_within_limit s = true /\
  exists name num,
    In (name, num) items /\ PyStr.contains name (PyStr.lower s) = true /\
    r = natural_record s num.
Proof.
  induction items as [|[name num] items IH]; [discriminate|].
  intros H.
  assert (K : natural_language items s = Returned (Some r) ->
              (2 <= List.length (Re.findall_digits s))%nat /\
              runs_within_limit s = true /\
              exists name0 num0,
                In (name0, num0) ((name, num) :: items) /\
                PyStr.contains name0 (PyStr.lower s) = true /\
                r = natural_record s num0).
  { intros R. destruct (IH R) as (L & W & n & k & I & C & E).
    split; [exact L|]. split; [exact W|].
    exists n, k. split; [right; exact I | auto]. }
  destruct (PyStr.contains name (PyStr.lower s)) eqn:C;
    [|rewrite natural_language_cons, C in H; auto].
  destruct (2 <=? List.length (Re.findall_digits s))%nat eqn:E;
    [|rewrite natural_language_cons, C, E in H; auto].
  apply Nat.leb_le in E.
  destruct (runs_within_limit s) eqn:W;
    [|rewrite (natural_language_beyond s name num items E C W) in H;
      discriminate].
  rewrite (natural_language_hit s name num items E C W) in H.
  inversion H; subst.
  split; [exact E|]. split; [reflexivity|].
  exists name, num. split; [left; reflexivity | auto].
Qed.

Lemma month_numbers :
  forall name num, In (name, num) months -> 1 <= num <= 12.
Proof.
  intros name num I. unfold months in I. simpl in I.
  repeat (destruct I as [I|I]; [inversion I; lia|]). destruct I.
Qed.

(* ================================================================== *)
(** ** Properties of the Gregorian parser *)




(** C2: on every input that begins with the slash form, the parser reads
    the first number as the day and the second as the month when the first
    number exceeds 12, and the first as the month and the second as the day
    otherwise; "25/12/2023" gives day 25 and month 12, "5/6/2023" gives
    month 5 and day 6. *)
Theorem slash_form_first_number_rule :
  (forall s n1 n2 y rest,
      slash_form s n1 n2 y rest ->
      parseGregorianDate s
      = Returned (Some
          (if PyStr.digits_value n1 >? 12
           then GregorianDate.mk (PyStr.digits_value y)
                  (PyStr.digits_value n2) (PyStr.digits_value n1)
           else GregorianDate.mk (PyStr.digits_value y)
                  (PyStr.digits_value n1) (PyStr.digits_value n2)))) /\
  parseGregorianDate "25/12/2023"
  = Returned (Some (GregorianDate.mk 2023 12 25)) /\
  parseGregorianDate "5/6/2023"
  = Returned (Some (GregorianDate.mk 2023 5 6)).
Proof.
  split; [|split; vm_compute; reflexivity].
  intros s n1 n2 y rest F.
  destruct (slash_form_matches _ _ _ _ _ F) as [Hi Hs].
  now apply parse_slash_groups.
Qed.

(** C2: the rule at "25/12/2023", whose first number is 25. *)
Lemma slash_form_first_number_rule_witness :
  parseGregorianDate "25/12/2023"
  = Returned (Some (GregorianDate.mk (PyStr.digits_value "2023")
                      (PyStr.digits_value "12") (PyStr.digits_value "25"))).
Proof.
  apply (proj1 slash_form_first_number_rule "25/12/2023" "25" "12" "2023" "").
  unfold slash_form, digit_field. simpl.
  repeat split; (reflexivity || lia).
Defined.

(** C3: on every input that begins with the ISO form the parser returns
    the year, the month and the day with the values written, unchanged;
    "2023-12-08" gives year 2023, month 12, day 8. *)
Theorem iso_form_numbers_as_written :
  (forall s y m d rest,
      iso_form s y m d rest ->
      parseGregorianDate s
      = Returned (Some (GregorianDate.mk (PyStr.digits_value y)
                          (PyStr.digits_value m) (PyStr.digits_value d)))) /\
  parseGregorianDate "2023-12-08"
  = Returned (Some (GregorianDate.mk 2023 12 8)).
Proof.
  split; [|vm_compute; reflexivity].
  intros s y m d rest F. apply parse_iso_groups.
  now apply iso_form_matches with (rest := rest).
Qed.

(** C3: the ISO form at "2023-12-08". *)
Lemma iso_form_numbers_as_written_witness :
  parseGregorianDate "2023-12-08"
  = Returned (Some (GregorianDate.mk (PyStr.digits_value "2023")
                      (PyStr.digits_value "12") (PyStr.digits_value "08"))).
Proof.
  apply (proj1 iso_form_numbers_as_written "2023-12-08" "2023" "12" "08" "").
  unfold iso_form, digit_field. simpl.
  repeat split; (reflexivity || lia || (left; reflexivity)).
Defined.

(** C4, as the specification states it, fails: "December 8" reaches the
    natural-language branch and names a month, its first and its last
    numeric run are both "8", and the parser returns no record instead of
    day 8 and year 2008. *)
Lemma natural_language_single_run_no_record :
  names_a_month "December 8" /\ ~ takes_first_and_last "December 8".
Proof.
  split.
  - unfold names_a_month. repeat split; try (vm_compute; reflexivity).
    exists "december", 12. split; [|vm_compute; reflexivity].
    unfold months. do 11 right. left. reflexivity.
  - intros T. destruct (T "8" "8") as (r & P & _);
      try (vm_compute; reflexivity).
    vm_compute in P. discriminate P.
Qed.

(** C4, amended: on every input that matches neither the ISO nor the slash
    form, contains an English month name in any letter case and has at
    least two numeric runs, the first and the last of which [int] converts
    (at most 4300 digits each), the parser takes the first numeric run as
    the day and the last as the year, adding 2000 to a year below 100;
    "December 8, 23" gives the year 2023. *)
Theorem natural_language_first_and_last_run :
  (forall s,
      names_a_month s ->
      (2 <= List.length (Re.findall_digits s))%nat ->
      runs_within_limit s = true ->
      takes_first_and_last s) /\
  (exists r,
      parseGregorianDate "December 8, 23" = Returned (Some r) /\
      GregorianDate.year r = 2023).
Proof.
  split.
  - intros s (Hi & Hs & M) L W first last Hf Hl.
    destruct (natural_language_found s months L W M)
      as (name & num & _ & _ & R).
    exists (natural_record s num). split.
    + rewrite (parse_natural _ Hi Hs). exact R.
    + unfold natural_record. simpl.
      rewrite (last_opt_last _ _ EmptyString Hl).
      destruct (Re.findall_digits s) as [|x l]; [discriminate|].
      simpl in Hf. inversion Hf; subst. auto.
  - exists (GregorianDate.mk 2023 12 8). split; vm_compute; reflexivity.
Qed.

(** C4: the amended statement at "December 8, 23", whose runs are "8" and
    "23". *)
Lemma natural_language_first_and_last_run_witness :
  exists r,
    parseGregorianDate "December 8, 23" = Returned (Some r) /\
    GregorianDate.day r = PyStr.digits_value "8" /\
    GregorianDate.year r = two_digit_year (PyStr.digits_value "23").
Proof.
  apply (proj1 natural_language_first_and_last_run "December 8, 23").
  - unfold names_a_month. repeat split; try (vm_compute; reflexivity).
    exists "december", 12. split; [|vm_compute; reflexivity].
    unfold months. do 11 right. left. reflexivity.
  - vm_compute. lia.
  - vm_compute. reflexivity.
  - vm_compute. reflexivity.
  - vm_compute. reflexivity.
Defined.

(** C10: in the natural-language branch (neither the ISO nor the slash form
    matched) an input with fewer than two numeric runs gives no record,
    whether or not it names a month; "December 8" gives none. *)
Theorem natural_language_needs_two_runs :
  (forall s,
      Re.re_match Re.iso_pattern s = None ->
      Re.re_match Re.slash_pattern s = None ->
      (List.length (Re.findall_digits s) < 2)%nat ->
      parseGregorianDate s = Returned None) /\
  PyStr.contains "december" (PyStr.lower "December 8") = true /\
  Re.findall_digits "December 8" = ["8"] /\
  parseGregorianDate "December 8" = Returned None.
Proof.
  split; [|repeat split; vm_compute; reflexivity].
  intros s Hi Hs L. rewrite (parse_natural _ Hi Hs).
  now apply natural_language_few.
Qed.

(** C10: the statement at "December 8", which has the one run "8". *)
Lemma natural_language_needs_two_runs_witness :
  parseGregorianDate "December 8" = Returned None.
Proof.
  apply (proj1 natural_language_needs_two_runs "December 8").
  - vm_compute. reflexivity.
  - vm_compute. reflexivity.
  - vm_compute. lia.
Defined.

(* ================================================================== *)
(** ** The Hebrew parser, token by token *)

Lemma last_opt_cons {A : Type} (x : A) (l : list A) :
  last_opt (x :: l) = or_else (last_opt l) (Some x).
Proof.
  simpl. destruct l as [|y l]; [reflexivity|].
  destruct (last_opt (y :: l)) eqn:E; [reflexivity|].
  apply last_opt_none in E. discriminate.
Qed.

Lemma last_qualifying_cons {A : Type} (offer : string -> option A)
      (t : string) (parts : list string) (d : option A) :
  or_else (last_opt (qualifying offer (t :: parts))) d
  = or_else (last_opt (qualifying offer parts)) (or_else (offer t) d).
Proof.
  cbn [qualifying]. destruct (offer t) as [v|]; [|reflexivity].
  rewrite last_opt_cons. now destruct (last_opt (qualifying offer parts)).
Qed.

Lemma dict_get_in {V : Type} (k : string) (d : list (string * V)) (v : V) :
  dict_get k d = Some v -> In (k, v) d.
Proof.
  induction d as [|[k' v'] d IH]; simpl; [discriminate|].
  destruct (String.eqb_spec k k') as [->|N].
  - intros H. inversion H. auto.
  - auto.
Qed.

Lemma numeric_isdigit (t : string) :
  numeric t = true -> PyStr.isdigit t = true.
Proof.
  unfold numeric, PyStr.isdigit. intros H.
  apply andb_true_iff in H. destruct H as [N D]. rewrite N. simpl.
  clear N. induction t as [|c t IH]; [reflexivity|]. simpl in *.
  apply andb_true_iff in D. destruct D as [Dc Dt].
  now rewrite (decimal_isdigit c Dc), (IH Dt).
Qed.

(** No key of [HEBREW_MONTHS] passes [isdigit]. *)
Lemma isdigit_not_month (t : string) :
  PyStr.isdigit t = true -> dict_get t HEBREW_MONTHS = None.
Proof.
  intros H. destruct (dict_get t HEBREW_MONTHS) as [m|] eqn:E; [|reflexivity].
  apply dict_get_in in E. unfold HEBREW_MONTHS in E. simpl in E.
  repeat (destruct E as [E|E];
          [inversion E; subst; vm_compute in H; discriminate H|]).
  destruct E.
Qed.

Lemma month_candidate_canonical (t m : string) :
  month_candidate t = Some m ->
  In m canonical_names /\ PyStr.nonempty m = true.
Proof.
  unfold month_candidate. intros E. apply dict_get_in in E.
  split; [exact (in_map snd _ _ E)|].
  unfold HEBREW_MONTHS in E. simpl in E.
  repeat (destruct E as [E|E]; [inversion E; reflexivity|]). destruct E.
Qed.

Lemma year_candidate_range (t : string) (y : Z) :
  year_candidate t = Some y -> y > 5000.
Proof.
  unfold year_candidate.
  destruct (numeric t); simpl; [|discriminate].
  destruct (PyStr.digits_value t >? 5000) eqn:E; [|discriminate].
  intros H. inversion H; subst. lia.
Qed.

Lemma day_candidate_range (t : string) (d : Z) :
  day_candidate t = Some d -> 1 <= d <= 30.
Proof.
  unfold day_candidate.
  destruct (numeric t); simpl; [|discriminate].
  destruct (1 <=? PyStr.digits_value t) eqn:E1; simpl; [|discriminate].
  destruct (PyStr.digits_value t <=? 30) eqn:E2; [|discriminate].
  intros H. inversion H; subst. lia.
Qed.

(** One turn of the loop, when it does not raise, overwrites the slot the
    token qualifies for and leaves the others. *)
Lemma scan_part_returned (st st' : slots) (t : string) :
  scan_part st t = Returned st' ->
  s_year st' = or_else (year_candidate t) (s_year st) /\
  s_month st' = or_else (month_candidate t) (s_month st) /\
  s_day st' = or_else (day_candidate t) (s_day st).
Proof.
  unfold scan_part, year_candidate, day_candidate, month_candidate.
  destruct (PyStr.isdigit t) eqn:I.
  - rewrite (isdigit_not_month t I).
    destruct (PyStr.int t) as [num|e] eqn:N; [|discriminate].
    apply int_returned in N. destruct N as [-> ->]. cbn [bind andb].
    destruct (PyStr.digits_value t >? 5000) eqn:Y.
    + intros H. inversion H; subst. simpl.
      replace (PyStr.digits_value t <=? 30) with false by lia.
      rewrite andb_false_r. auto.
    + destruct (1 <=? PyStr.digits_value t); cbn [andb];
        [destruct (PyStr.digits_value t <=? 30)|];
        intros H; inversion H; subst; simpl; auto.
  - assert (N : numeric t = false).
    { destruct (numeric t) eqn:N; [|reflexivity].
      apply numeric_isdigit in N. congruence. }
    rewrite N. cbn [andb].
    destruct (dict_get t HEBREW_MONTHS);
      intros H; inversion H; subst; simpl; auto.
Qed.

Lemma scan_parts_returned (parts : list string) :
  forall st st',
    scan_parts st parts = Returned st' ->
    s_year st'
    = or_else (last_opt (qualifying year_candidate parts)) (s_year st) /\
    s_month st'
    = or_else (last_opt (qualifying month_candidate parts)) (s_month st) /\
    s_day st'
    = or_else (last_opt (qualifying day_candidate parts)) (s_day st).
Proof.
  induction parts as [|t parts IH]; intros st st' H.
  - simpl in H. inversion H; subst. auto.
  - cbn [scan_parts] in H.
    destruct (scan_part st t) as [st1|e] eqn:P; [|discriminate].
    cbn [bind] in H.
    destruct (scan_part_returned _ _ _ P) as (Y & M & D).
    destruct (IH _ _ H) as (Y' & M' & D').
    rewrite !last_qualifying_cons, <- Y, <- M, <- D. auto.
Qed.

(** A token qualifies for one slot at most. *)
Lemma qualifying_count (parts : list string) :
  (List.length (qualifying year_candidate parts)
   + List.length (qualifying month_candidate parts)
   + List.length (qualifying day_candidate parts)
   <= List.length parts)%nat.
Proof.
  induction parts as [|t parts IH]; [simpl; lia|].
  cbn [qualifying List.length].
  unfold year_candidate at 1, day_candidate at 1, month_candidate at 1.
  destruct (numeric t) eqn:N; cbn [andb].
  - rewrite (isdigit_not_month t (numeric_isdigit t N)).
    destruct (PyStr.digits_value t >? 5000) eqn:Y.
    + replace (PyStr.digits_value t <=? 30) with false by lia.
      rewrite andb_false_r. simpl. lia.
    + destruct ((1 <=? PyStr.digits_value t)
                && (PyStr.digits_value t <=? 30)); simpl; lia.
  - destruct (dict_get t HEBREW_MONTHS); simpl; lia.
Qed.

Lemma qualifying_in {A : Type} (offer : string -> option A)
      (parts : list string) (v : A) :
  In v (qualifying offer parts) -> exists t, In t parts /\ offer t = Some v.
Proof.
  induction parts as [|t parts IH]; simpl; [tauto|].
  destruct (offer t) as [w|] eqn:E.
  - intros [->|I]; [eauto|]. destruct (IH I) as (t' & I' & O). eauto.
  - intros I. destruct (IH I) as (t' & I' & O). eauto.
Qed.

Lemma last_qualifying_offer {A : Type} (offer : string -> option A)
      (parts : list string) (v : A) :
  last_opt (qualifying offer parts) = Some v ->
  exists t, In t parts /\ offer t = Some v.
Proof. intros H. apply qualifying_in. now apply last_opt_in. Qed.

Lemma last_opt_some_length {A : Type} (l : list A) (x : A) :
  last_opt l = Some x -> (1 <= List.length l)%nat.
Proof. destruct l; simpl; [discriminate | lia]. Qed.

(** What the parser returns, when it returns, is the record of the last
    value offered to each slot. *)
Lemma parseHebrewDate_returned (s : string) (res : option HebrewDate.t) :
  parseHebrewDate s = Returned res ->
  res = last_of_each_slot (hebrew_parts s).
Proof.
  unfold parseHebrewDate, last_of_each_slot.
  destruct (List.length (hebrew_parts s) <? 3)%nat eqn:L.
  - intros H. inversion H; subst. apply Nat.ltb_lt in L.
    pose proof (qualifying_count (hebrew_parts s)) as C.
    destruct (last_opt (qualifying year_candidate (hebrew_parts s)))
      as [y|] eqn:Y; [|reflexivity].
    destruct (last_opt (qualifying month_candidate (hebrew_parts s)))
      as [m|] eqn:M; [|reflexivity].
    destruct (last_opt (qualifying day_candidate (hebrew_parts s)))
      as [d|] eqn:D; [|reflexivity].
    apply last_opt_some_length in Y, M, D. lia.
  - destruct (scan_parts no_slots (hebrew_parts s)) as [st|e] eqn:P;
      [|discriminate].
    cbn [bind]. destruct (scan_parts_returned _ _ _ P) as (Y & M & D).
    simpl in Y, M, D. rewrite Y, M, D.
    destruct (last_opt (qualifying year_candidate (hebrew_parts s)))
      as [y|] eqn:Ey; cbn [or_else];
      [|intros H; inversion H; reflexivity].
    destruct (last_opt (qualifying month_candidate (hebrew_parts s)))
      as [m|] eqn:Em; cbn [or_else];
      [|intros H; inversion H; reflexivity].
    destruct (last_opt (qualifying day_candidate (hebrew_parts s)))
      as [d|] eqn:Ed; cbn [or_else];
      [|intros H; inversion H; reflexivity].
    destruct (last_qualifying_offer _ _ _ Ey) as (ty & _ & Oy).
    destruct (last_qualifying_offer _ _ _ Em) as (tm & _ & Om).
    destruct (last_qualifying_offer _ _ _ Ed) as (td & _ & Od).
    apply year_candidate_range in Oy. apply day_candidate_range in Od.
    apply month_candidate_canonical in Om. destruct Om as [_ Nm].
    unfold truthy_int, truthy_str. rewrite Nm.
    replace (y =? 0) with false by lia. replace (d =? 0) with false by lia.
    intros H. inversion H; reflexivity.
Qed.

Lemma scan_part_plain (st : slots) (t : string) :
  plain_digits t = true -> exists st', scan_part st t = Returned st'.
Proof.
  unfold plain_digits, scan_part. intros P.
  destruct (PyStr.isdigit t); cbn [negb orb] in P.
  - apply andb_true_iff in P. destruct P as [N L].
    unfold numeric in N. unfold PyStr.int. rewrite N, L. cbn [bind].
    destruct (PyStr.digits_value t >? 5000); [eauto|].
    destruct ((1 <=? PyStr.digits_value t) && (PyStr.digits_value t <=? 30));
      eauto.
  - destruct (dict_get t HEBREW_MONTHS); eauto.
Qed.

Lemma scan_parts_plain (parts : list string) :
  forall st, forallb plain_digits parts = true ->
             exists st', scan_parts st parts = Returned st'.
Proof.
  induction parts as [|t parts IH]; intros st F; simpl; [eauto|].
  simpl in F. apply andb_true_iff in F. destruct F as [P F].
  destruct (scan_part_plain st t P) as [st1 ->]. cbn [bind]. now apply IH.
Qed.

Lemma parseHebrewDate_plain (s : string) :
  forallb plain_digits (hebrew_parts s) = true ->
  exists res, parseHebrewDate s = Returned res.
Proof.
  intros F. unfold parseHebrewDate.
  destruct (List.length (hebrew_parts s) <? 3)%nat; [eauto|].
  destruct (scan_parts_plain _ no_slots F) as [st ->]. cbn [bind].
  destruct (s_year st), (s_month st), (s_day st); eauto.
  match goal with |- context [if ?b then _ else _] => destruct b end; eauto.
Qed.

(* ================================================================== *)
(** ** Properties of the Hebrew parser *)

(** C5: the parser does not depend on the order of the tokens: "5784 Kislev
    25", "25 Kislev 5784" and "Kislev 25, 5784" all give the record with
    year 5784, month "Kislev" and day 25. *)
Theorem hebrew_token_order_insensitive :
  parseHebrewDate "5784 Kislev 25"
  = Returned (Some (HebrewDate.mk 5784 "Kislev" 25)) /\
  parseHebrewDate "25 Kislev 5784"
  = Returned (Some (HebrewDate.mk 5784 "Kislev" 25)) /\
  parseHebrewDate "Kislev 25, 5784"
  = Returned (Some (HebrewDate.mk 5784 "Kislev" 25)).
Proof. repeat split; vm_compute; reflexivity. Qed.



(** The part of C7 that holds: a returned record has a year above 5000,
    one of the 14 display names as its month and a day in 1..30. *)
Lemma hebrew_record_fields (s : string) (r : HebrewDate.t) :
  parseHebrewDate s = Returned (Some r) ->
  HebrewDate.year r > 5000 /\
  In (HebrewDate.month r) canonical_names /\
  1 <= HebrewDate.day r <= 30.
Proof.
  intros H. apply parseHebrewDate_returned in H.
  unfold last_of_each_slot in H.
  destruct (last_opt (qualifying year_candidate (hebrew_parts s)))
    as [y|] eqn:Y; [|discriminate].
  destruct (last_opt (qualifying month_candidate (hebrew_parts s)))
    as [m|] eqn:M; [|discriminate].
  destruct (last_opt (qualifying day_candidate (hebrew_parts s)))
    as [d|] eqn:D; [|discriminate].
  inversion H; subst. simpl.
  destruct (last_qualifying_offer _ _ _ Y) as (ty & _ & Oy).
  destruct (last_qualifying_offer _ _ _ M) as (tm & _ & Om).
  destruct (last_qualifying_offer _ _ _ D) as (td & _ & Od).
  apply year_candidate_range in Oy. apply day_candidate_range in Od.
  apply month_candidate_canonical in Om. tauto.
Qed.

(** The part of C7 that holds: when the parser returns and a slot was
    offered nothing, it returns no record. *)
Lemma hebrew_no_partial_record (s : string) (res : option HebrewDate.t) :
  parseHebrewDate s = Returned res ->
  qualifying year_candidate (hebrew_parts s) = [] \/
  qualifying month_candidate (hebrew_parts s) = [] \/
  qualifying day_candidate (hebrew_parts s) = [] ->
  res = None.
Proof.
  intros H E. apply parseHebrewDate_returned in H. subst.
  unfold last_of_each_slot. destruct E as [-> | [-> | ->]]; simpl;
    [reflexivity | |].
  - now destruct (last_opt (qualifying year_candidate (hebrew_parts s))).
  - destruct (last_opt (qualifying year_candidate (hebrew_parts s)));
      [|reflexivity].
    now destruct (last_opt (qualifying month_candidate (hebrew_parts s))).
Qed.

(** C7 fails on the code: in the input made of U+00B2 followed by
    " kislev 25" no token is a year, and the parser does not return
    no-match: its first token passes [isdigit], [int] rejects it, and the
    [ValueError] leaves the parser. *)
Theorem hebrew_superscript_digit_raises :
  hebrew_parts (superscript_two ++ " kislev 25")
  = [superscript_two; "kislev"; "25"] /\
  qualifying year_candidate (hebrew_parts (superscript_two ++ " kislev 25"))
  = [] /\
  PyStr.isdigit superscript_two = true /\
  PyStr.int superscript_two = Raised ValueError /\
  parseHebrewDate (superscript_two ++ " kislev 25") = Raised ValueError.
Proof. repeat split; vm_compute; reflexivity. Qed.

(** C9: an input that gives fewer than three tokens once commas and
    periods are removed, letters lowered and the text split at white space
    has no match; "Kislev 25" gives two tokens and no match. *)
Theorem hebrew_fewer_than_three_tokens :
  (forall s,
      (List.length (hebrew_parts s) < 3)%nat ->
      parseHebrewDate s = Returned None) /\
  hebrew_parts "Kislev 25" = ["kislev"; "25"] /\
  parseHebrewDate "Kislev 25" = Returned None.
Proof.
  split; [|split; vm_compute; reflexivity].
  intros s L. unfold parseHebrewDate.
  apply Nat.ltb_lt in L. now rewrite L.
Qed.

(** C9: the statement at "Kislev 25". *)
Lemma hebrew_fewer_than_three_tokens_witness :
  parseHebrewDate "Kislev 25" = Returned None.
Proof.
  apply (proj1 hebrew_fewer_than_three_tokens "Kislev 25").
  vm_compute. lia.
Defined.

(* ================================================================== *)
(** ** The gateway *)

Lemma catchable_bind {A B : Type} (c : result A) (k : A -> result B) :
  catchable c -> (forall a, catchable (k a)) -> catchable (bind c k).
Proof. destruct c as [a|e]; simpl; auto. Qed.

Lemma catchable_fetch_json (service : string -> service_behaviour)
      (url : string) :
  catchable (fetch_json service url).
Proof. unfold fetch_json. destruct (service url); simpl; auto. Qed.

Lemma catchable_py_in (key : string) (data : pyval) :
  catchable (py_in key data).
Proof. destruct data; simpl; auto. Qed.

Lemma catchable_py_getitem (data : pyval) (key : string) :
  catchable (py_getitem data key).
Proof.
  destruct data; simpl; auto. destruct (dict_get key items); simpl; auto.
Qed.

Lemma catchable_format_02d (v : pyval) : catchable (format_02d v).
Proof.
  destruct v; simpl; auto.
  destruct (digits_of n <=? PyStr.max_str_digits); simpl; auto.
Qed.

Lemma catchable_int_str (n : Z) : catchable (int_str n).
Proof.
  unfold int_str. destruct (digits_of n <=? PyStr.max_str_digits); simpl; auto.
Qed.

Lemma catchable_py_str (container_repr : pyval -> string) (v : pyval) :
  catchable (py_str container_repr v).
Proof.
  destruct v; cbn [py_str]; try exact I; [apply catchable_int_str| |].
  - destruct (holds_long_int (PList items)); simpl; auto.
  - destruct (holds_long_int (PDict items)); simpl; auto.
Qed.

(** The request is built, with the text of [hebrew_url], when [str]
    converts the year and the day, and is a [ValueError] otherwise. *)
Lemma hebrew_request_limit (d : HebrewDate.t) :
  hebrew_request d
  = if (digits_of (HebrewDate.year d) <=? PyStr.max_str_digits)
       && (digits_of (HebrewDate.day d) <=? PyStr.max_str_digits)
    then Returned (hebrew_url d) else Raised ValueError.
Proof.
  unfold hebrew_request, hebrew_url.
  cbn [urlencode_params urlencode param_str bind]. unfold int_str.
  destruct (digits_of (HebrewDate.year d) <=? PyStr.max_str_digits);
    [|reflexivity].
  cbn [bind andb].
  destruct (digits_of (HebrewDate.day d) <=? PyStr.max_str_digits);
    reflexivity.
Qed.

Lemma gregorian_request_limit (d : GregorianDate.t) :
  gregorian_request d
  = if (digits_of (GregorianDate.year d) <=? PyStr.max_str_digits)
       && (digits_of (GregorianDate.month d) <=? PyStr.max_str_digits)
       && (digits_of (GregorianDate.day d) <=? PyStr.max_str_digits)
    then Returned (gregorian_url d) else Raised ValueError.
Proof.
  unfold gregorian_request, gregorian_url.
  cbn [urlencode_params urlencode param_str bind]. unfold int_str.
  destruct (digits_of (GregorianDate.year d) <=? PyStr.max_str_digits);
    [|reflexivity].
  cbn [bind andb].
  destruct (digits_of (GregorianDate.month d) <=? PyStr.max_str_digits);
    [|reflexivity].
  cbn [bind andb].
  destruct (digits_of (GregorianDate.day d) <=? PyStr.max_str_digits);
    reflexivity.
Qed.

Lemma catchable_hebrew_request (d : HebrewDate.t) :
  catchable (hebrew_request d).
Proof.
  rewrite hebrew_request_limit.
  now destruct ((digits_of (HebrewDate.year d) <=? PyStr.max_str_digits)
                && (digits_of (HebrewDate.day d) <=? PyStr.max_str_digits)).
Qed.

Lemma catchable_gregorian_request (d : GregorianDate.t) :
  catchable (gregorian_request d).
Proof.
  rewrite gregorian_request_limit.
  now destruct ((digits_of (GregorianDate.year d) <=? PyStr.max_str_digits)
                && (digits_of (GregorianDate.month d)
                    <=? PyStr.max_str_digits)
                && (digits_of (GregorianDate.day d) <=? PyStr.max_str_digits)).
Qed.

Lemma catchable_has_fields (a b c : string) (data : pyval) :
  catchable (has_fields a b c data).
Proof.
  unfold has_fields. apply catchable_bind; [apply catchable_py_in|].
  intros [|]; [|exact I].
  apply catchable_bind; [apply catchable_py_in|].
  intros [|]; [apply catchable_py_in | exact I].
Qed.

Create HintDb catchable.

#[local] Hint Resolve catchable_fetch_json catchable_py_in
  catchable_py_getitem catchable_format_02d catchable_has_fields
  catchable_int_str catchable_py_str catchable_hebrew_request
  catchable_gregorian_request
  : catchable.

Ltac catchable_steps :=
  repeat (apply catchable_bind; [auto with catchable | intros ?]).

(** Every exception of the body of a gateway function is one that
    [except Exception] catches. *)
Ltac catchable_body :=
  catchable_steps;
  match goal with
  | |- catchable (if ?b then _ else _) => destruct b; [|exact I]
  end;
  catchable_steps; exact I.

Lemma try_except_returns {A : Type} (body : result (option A)) :
  catchable body -> exists v, try_except_Exception body = Returned v.
Proof.
  destruct body as [v|e]; simpl; [eauto|]. intros ->. eauto.
Qed.

(** The test on the three fields, on a dictionary. *)
Lemma has_fields_dict (a b c : string) (items : list (string * pyval)) :
  has_fields a b c (PDict items)
  = Returned (match dict_get a items, dict_get b items, dict_get c items with
              | Some _, Some _, Some _ => true
              | _, _, _ => false
              end).
Proof.
  unfold has_fields. simpl.
  destruct (dict_get a items), (dict_get b items), (dict_get c items);
    reflexivity.
Qed.

Lemma convertHebrewToGregorian_unusable
      (service : string -> service_behaviour) (container_repr : pyval -> string)
      (hebrew_date : HebrewDate.t) :
  unusable "gy" "gm" "gd" (service (hebrew_url hebrew_date)) = true ->
  convertHebrewToGregorian service container_repr hebrew_date = Returned None.
Proof.
  unfold convertHebrewToGregorian. rewrite hebrew_request_limit.
  destruct ((digits_of (HebrewDate.year hebrew_date)
             <=? PyStr.max_str_digits)
            && (digits_of (HebrewDate.day hebrew_date)
                <=? PyStr.max_str_digits)); [|reflexivity].
  cbn [bind]. unfold fetch_json, unusable.
  destruct (service (hebrew_url hebrew_date)) as [| | | | |data];
    try reflexivity.
  cbn [bind]. destruct data as [| | | | | |items]; try reflexivity.
  - intros _. destruct (has_fields "gy" "gm" "gd" (PStr s)) as [[|]|e] eqn:E;
      try reflexivity.
    pose proof (catchable_has_fields "gy" "gm" "gd" (PStr s)) as C.
    rewrite E in C. simpl in *. now rewrite C.
  - intros _.
    destruct (has_fields "gy" "gm" "gd" (PList items)) as [[|]|e] eqn:E;
      try reflexivity.
    pose proof (catchable_has_fields "gy" "gm" "gd" (PList items)) as C.
    rewrite E in C. simpl in *. now rewrite C.
  - rewrite has_fields_dict.
    destruct (dict_get "gy" items), (dict_get "gm" items),
      (dict_get "gd" items); try discriminate; reflexivity.
Qed.

Lemma convertGregorianToHebrew_unusable
      (service : string -> service_behaviour) (container_repr : pyval -> string)
      (gregorian_date : GregorianDate.t) :
  unusable "hy" "hm" "hd" (service (gregorian_url gregorian_date)) = true ->
  convertGregorianToHebrew service container_repr gregorian_date
  = Returned None.
Proof.
  unfold convertGregorianToHebrew. rewrite gregorian_request_limit.
  destruct ((digits_of (GregorianDate.year gregorian_date)
             <=? PyStr.max_str_digits)
            && (digits_of (GregorianDate.month gregorian_date)
                <=? PyStr.max_str_digits)
            && (digits_of (GregorianDate.day gregorian_date)
                <=? PyStr.max_str_digits)); [|reflexivity].
  cbn [bind]. unfold fetch_json, unusable.
  destruct (service (gregorian_url gregorian_date)) as [| | | | |data];
    try reflexivity.
  cbn [bind]. destruct data as [| | | | | |items]; try reflexivity.
  - intros _. destruct (has_fields "hy" "hm" "hd" (PStr s)) as [[|]|e] eqn:E;
      try reflexivity.
    pose proof (catchable_has_fields "hy" "hm" "hd" (PStr s)) as C.
    rewrite E in C. simpl in *. now rewrite C.
  - intros _.
    destruct (has_fields "hy" "hm" "hd" (PList items)) as [[|]|e] eqn:E;
      try reflexivity.
    pose proof (catchable_has_fields "hy" "hm" "hd" (PList items)) as C.
    rewrite E in C. simpl in *. now rewrite C.
  - rewrite has_fields_dict.
    destruct (dict_get "hy" items), (dict_get "hm" items),
      (dict_get "hd" items); try discriminate; reflexivity.
Qed.

(** C8: whatever the service does (network error, timeout, a status that
    is not 2xx, a body that is not JSON, a JSON body without one of the
    expected fields), and for every date, each gateway function returns
    and raises nothing; in each of those cases what it returns is [None]. *)
Theorem gateway_never_raises
        (service : string -> service_behaviour)
        (container_repr : pyval -> string)
        (hebrew_date : HebrewDate.t) (gregorian_date : GregorianDate.t) :
  (exists v,
      convertHebrewToGregorian service container_repr hebrew_date
      = Returned v) /\
  (exists v,
      convertGregorianToHebrew service container_repr gregorian_date
      = Returned v) /\
  (unusable "gy" "gm" "gd" (service (hebrew_url hebrew_date)) = true ->
   convertHebrewToGregorian service container_repr hebrew_date
   = Returned None) /\
  (unusable "hy" "hm" "hd" (service (gregorian_url gregorian_date)) = true ->
   convertGregorianToHebrew service container_repr gregorian_date
   = Returned None).
Proof.
  split; [|split; [|split]].
  - apply try_except_returns. catchable_body.
  - apply try_except_returns. catchable_body.
  - apply convertHebrewToGregorian_unusable.
  - apply convertGregorianToHebrew_unusable.
Qed.

(** C8: both directions against a service that times out. *)
Lemma gateway_never_raises_witness :
  convertHebrewToGregorian (fun _ => Timeout) (fun _ => "")
    (HebrewDate.mk 5784 "Kislev" 25) = Returned None /\
  convertGregorianToHebrew (fun _ => Timeout) (fun _ => "")
    (GregorianDate.mk 2023 12 8) = Returned None.
Proof.
  destruct (gateway_never_raises (fun _ => Timeout) (fun _ => "")
              (HebrewDate.mk 5784 "Kislev" 25) (GregorianDate.mk 2023 12 8))
    as (_ & _ & H & G).
  split; [apply H | apply G]; reflexivity.
Defined.

(* ================================================================== *)
(** ** Further properties of the two parsers *)

Lemma natural_language_find (s : string) (items : list (string * Z)) :
  natural_language items s
  = match List.find
            (fun item => PyStr.contains (fst item) (PyStr.lower s)) items
    with
    | Some (_, num) =>
        if (2 <=? List.length (Re.findall_digits s))%nat
        then if runs_within_limit s
             then Returned (Some (natural_record s num))
             else Raised ValueError
        else Returned None
    | None => Returned None
    end.
Proof.
  induction items as [|[name num] items IH]; [reflexivity|].
  cbn [List.find fst].
  destruct (PyStr.contains name (PyStr.lower s)) eqn:C;
    [|rewrite natural_language_cons, C; exact IH].
  destruct (2 <=? List.length (Re.findall_digits s))%nat eqn:E.
  - apply Nat.leb_le in E. destruct (runs_within_limit s) eqn:W.
    + now apply natural_language_hit.
    + now apply natural_language_beyond.
  - apply Nat.leb_gt in E. now apply natural_language_few.
Qed.

(** Past the two patterns the parser gives [natural_outcome]. *)
Lemma parse_natural_outcome (s : string) :
  Re.re_match Re.iso_pattern s = None ->
  Re.re_match Re.slash_pattern s = None ->
  parseGregorianDate s = natural_outcome s.
Proof.
  intros Hi Hs. rewrite (parse_natural _ Hi Hs). apply natural_language_find.
Qed.

(** When and what the Gregorian parser raises. *)
Lemma parse_gregorian_raised (s : string) (e : exn) :
  parseGregorianDate s = Raised e <->
  e = ValueError /\
  Re.re_match Re.iso_pattern s = None /\
  Re.re_match Re.slash_pattern s = None /\
  (exists name num, first_named s = Some (name, num)) /\
  (2 <= List.length (Re.findall_digits s))%nat /\
  runs_within_limit s = false.
Proof.
  split.
  - intros H.
    destruct (Re.re_match Re.iso_pattern s) as [groups|] eqn:Hi.
    { destruct (iso_match_groups _ _ Hi) as (y & m & d & -> & _).
      rewrite (parse_iso_groups _ _ _ _ Hi) in H. discriminate. }
    destruct (Re.re_match Re.slash_pattern s) as [groups|] eqn:Hs.
    { destruct (slash_match_groups _ _ Hs) as (a & b & y & -> & _).
      rewrite (parse_slash_groups _ _ _ _ Hi Hs) in H.
      destruct (PyStr.digits_value a >? 12); discriminate. }
    rewrite (parse_natural_outcome _ Hi Hs) in H. unfold natural_outcome in H.
    destruct (first_named s) as [[name num]|]; [|discriminate].
    destruct (2 <=? List.length (Re.findall_digits s))%nat eqn:E;
      [|discriminate].
    destruct (runs_within_limit s); [discriminate|].
    inversion H. apply Nat.leb_le in E. eauto 10.
  - intros (-> & Hi & Hs & (name & num & F) & L & W).
    rewrite (parse_natural_outcome _ Hi Hs). unfold natural_outcome.
    rewrite F, W. apply Nat.leb_le in L. now rewrite L.
Qed.

(** X1: the Gregorian parser raises exactly in the natural-language
    branch, when the input matches neither pattern, names a month, has at
    least two numeric runs and the first or the last run has more digits
    than [int] converts (4300); the exception is a [ValueError].  On an
    input that matches the ISO or the slash pattern it raises nothing. *)
Theorem parseGregorianDate_raises_iff (s : string) (e : exn) :
  parseGregorianDate s = Raised e <->
  e = ValueError /\
  Re.re_match Re.iso_pattern s = None /\
  Re.re_match Re.slash_pattern s = None /\
  (exists name num, first_named s = Some (name, num)) /\
  (2 <= List.length (Re.findall_digits s))%nat /\
  runs_within_limit s = false.
Proof. apply parse_gregorian_raised. Qed.

(** X1 at "December ", 4301 times the digit 1, and " 2023": the first run
    is one digit too long. *)
Lemma parseGregorianDate_raises_iff_witness :
  parseGregorianDate
    ("December " ++ string_of_list_ascii (List.repeat "1"%char 4301)
     ++ " 2023")
  = Raised ValueError.
Proof.
  apply (proj2 (parseGregorianDate_raises_iff _ ValueError)).
  split; [reflexivity|].
  split; [vm_compute; reflexivity|].
  split; [vm_compute; reflexivity|].
  split; [exists "december", 12; vm_compute; reflexivity|].
  split; [vm_compute; lia | vm_compute; reflexivity].
Defined.

Lemma scan_part_raises (st : slots) (t : string) (e : exn) :
  scan_part st t = Raised e -> e = ValueError /\ plain_digits t = false.
Proof.
  unfold scan_part, plain_digits, numeric, PyStr.int.
  destruct (PyStr.isdigit t).
  - destruct (PyStr.nonempty t && PyStr.all_chars PyStr.is_decimal t);
      cbn [bind negb orb andb];
      [destruct (Z.of_nat (String.length t) <=? PyStr.max_str_digits);
       cbn [bind]|].
    + destruct (PyStr.digits_value t >? 5000); [discriminate|].
      destruct ((1 <=? PyStr.digits_value t)
                && (PyStr.digits_value t <=? 30)); discriminate.
    + intros H. inversion H. auto.
    + intros H. inversion H. auto.
  - destruct (dict_get t HEBREW_MONTHS); discriminate.
Qed.

Lemma scan_part_not_plain (st : slots) (t : string) :
  plain_digits t = false -> scan_part st t = Raised ValueError.
Proof.
  unfold scan_part, plain_digits, numeric, PyStr.int.
  destruct (PyStr.isdigit t); [|discriminate]. cbn [negb orb].
  destruct (PyStr.nonempty t && PyStr.all_chars PyStr.is_decimal t);
    [|reflexivity].
  cbn [andb]. now intros ->.
Qed.

Lemma scan_parts_not_plain (parts : list string) :
  forall st, forallb plain_digits parts = false ->
             scan_parts st parts = Raised ValueError.
Proof.
  induction parts as [|t parts IH]; intros st F; [discriminate|].
  cbn [forallb] in F. cbn [scan_parts].
  destruct (plain_digits t) eqn:P.
  - destruct (scan_part_plain st t P) as [st1 ->]. cbn [bind].
    apply IH. exact F.
  - now rewrite (scan_part_not_plain st t P).
Qed.

(** X2: the Hebrew parser raises exactly when the input has at least
    three tokens and one of them passes [isdigit] without being a string
    [int] converts, that is, made of decimal digits only and of at most
    4300 of them; the exception is then a [ValueError]. *)
Theorem parseHebrewDate_raises_iff (s : string) (e : exn) :
  parseHebrewDate s = Raised e <->
  e = ValueError /\ (3 <= List.length (hebrew_parts s))%nat /\
  forallb plain_digits (hebrew_parts s) = false.
Proof.
  split.
  - intros H.
    destruct (forallb plain_digits (hebrew_parts s)) eqn:F.
    { destruct (parseHebrewDate_plain s F) as [res R]. congruence. }
    unfold parseHebrewDate in H.
    destruct (List.length (hebrew_parts s) <? 3)%nat eqn:L; [discriminate|].
    apply Nat.ltb_ge in L.
    rewrite (scan_parts_not_plain _ no_slots F) in H. inversion H. auto.
  - intros (-> & L & F). unfold parseHebrewDate.
    apply Nat.ltb_ge in L. rewrite L.
    now rewrite (scan_parts_not_plain _ no_slots F).
Qed.

(** X3: no input matches both the ISO and the slash pattern, so the order
    in which the parser tries them decides nothing. *)
Theorem iso_and_slash_exclusive (s : string) :
  Re.re_match Re.iso_pattern s = None \/
  Re.re_match Re.slash_pattern s = None.
Proof.
  destruct (Re.re_match Re.slash_pattern s) as [groups|] eqn:Hs; [|auto].
  left. destruct (slash_match_groups _ _ Hs) as (a & b & y & -> & _).
  destruct (slash_match_form _ _ _ _ Hs) as [rest F].
  exact (proj1 (slash_form_matches _ _ _ _ _ F)).
Qed.

Lemma digits_value_four (g : string) :
  PyStr.all_chars PyStr.is_decimal g = true -> String.length g = 4%nat ->
  0 <= PyStr.digits_value g <= 9999.
Proof.
  intros H L. unfold PyStr.digits_value.
  destruct g as [|a [|b [|c [|d [|e g]]]]];
    cbn [PyStr.digits_value_from PyStr.all_chars String.length] in *;
    try discriminate.
  rewrite andb_true_r in H.
  apply andb_true_iff in H. destruct H as [Ha H].
  apply andb_true_iff in H. destruct H as [Hb H].
  apply andb_true_iff in H. destruct H as [Hc Hd].
  pose proof (decimal_digit_range a Ha). pose proof (decimal_digit_range b Hb).
  pose proof (decimal_digit_range c Hc). pose proof (decimal_digit_range d Hd).
  lia.
Qed.

(** X4: the year of a record of the Gregorian parser is in 0..9999 when
    the ISO or the slash form matched, and is at least 100 otherwise: the
    natural-language branch cannot give a year below 100. *)
Theorem gregorian_year_ranges (s : string) (r : GregorianDate.t) :
  parseGregorianDate s = Returned (Some r) ->
  (Re.re_match Re.iso_pattern s <> None \/
   Re.re_match Re.slash_pattern s <> None ->
   0 <= GregorianDate.year r <= 9999) /\
  (Re.re_match Re.iso_pattern s = None ->
   Re.re_match Re.slash_pattern s = None ->
   100 <= GregorianDate.year r).
Proof.
  intros H.
  destruct (Re.re_match Re.iso_pattern s) as [groups|] eqn:Hi.
  - destruct (iso_match_groups _ _ Hi) as (y & m & d & -> & [Dy Ly] & _).
    rewrite (parse_iso_groups _ _ _ _ Hi) in H. inversion H; subst. simpl.
    split; [|discriminate]. intros _. apply digits_value_four; [exact Dy|lia].
  - destruct (Re.re_match Re.slash_pattern s) as [groups|] eqn:Hs.
    + destruct (slash_match_groups _ _ Hs)
        as (a & b & y & -> & _ & _ & [Dy Ly]).
      rewrite (parse_slash_groups _ _ _ _ Hi Hs) in H.
      assert (0 <= PyStr.digits_value y <= 9999)
        by (apply digits_value_four; [exact Dy|lia]).
      destruct (PyStr.digits_value a >? 12); inversion H; subst; simpl;
        (split; [auto | discriminate]).
    + rewrite (parse_natural _ Hi Hs) in H.
      apply natural_language_returned in H.
      destruct H as (L & _ & name & num & I & C & ->). simpl.
      split; [intros [K|K]; congruence|]. intros _ _.
      pose proof (run_nonneg s _
                    (last_in (Re.findall_digits s) EmptyString ltac:(lia)))
        as Hl.
      unfold two_digit_year.
      destruct (PyStr.digits_value (List.last (Re.findall_digits s) "") <? 100)
        eqn:E; lia.
Qed.

(** X4 at "March 5, 99", which the natural-language branch reads as the
    year 2099. *)
Lemma gregorian_year_ranges_witness :
  100 <= GregorianDate.year (GregorianDate.mk 2099 3 5).
Proof.
  apply (gregorian_year_ranges "March 5, 99" (GregorianDate.mk 2099 3 5));
    vm_compute; reflexivity.
Defined.

(** X5: when neither the ISO nor the slash form matches, the month of the
    result is that of the first entry of the table, in table order, whose
    name occurs in the input, wherever the names stand in the text; the
    day is the first numeric run and the year the last; there is no
    result without such an entry or without two numeric runs, and a
    [ValueError] when the first or the last run has more than 4300
    digits. *)
Theorem natural_language_table_order (s : string) :
  Re.re_match Re.iso_pattern s = None ->
  Re.re_match Re.slash_pattern s = None ->
  parseGregorianDate s = natural_outcome s.
Proof. apply parse_natural_outcome. Qed.

(** X5 at "June 7 to May 5 2023": "may" precedes "june" in the table and
    the month is 5. *)
Lemma natural_language_table_order_witness :
  parseGregorianDate "June 7 to May 5 2023"
  = Returned (Some (GregorianDate.mk 2023 5 7)).
Proof.
  rewrite (natural_language_table_order "June 7 to May 5 2023");
    vm_compute; reflexivity.
Defined.

(** X6: the Gregorian parser gives no match exactly when the input matches
    neither the ISO nor the slash pattern and either names no month or has
    fewer than two numeric runs. *)
Theorem parseGregorianDate_no_match_iff (s : string) :
  parseGregorianDate s = Returned None <->
  Re.re_match Re.iso_pattern s = None /\
  Re.re_match Re.slash_pattern s = None /\
  (first_named s = None \/ (List.length (Re.findall_digits s) < 2)%nat).
Proof.
  split.
  - intros H.
    destruct (Re.re_match Re.iso_pattern s) as [groups|] eqn:Hi.
    { destruct (iso_match_groups _ _ Hi) as (y & m & d & -> & _).
      rewrite (parse_iso_groups _ _ _ _ Hi) in H. discriminate. }
    destruct (Re.re_match Re.slash_pattern s) as [groups|] eqn:Hs.
    { destruct (slash_match_groups _ _ Hs) as (a & b & y & -> & _).
      rewrite (parse_slash_groups _ _ _ _ Hi Hs) in H.
      destruct (PyStr.digits_value a >? 12); discriminate. }
    rewrite (parse_natural_outcome _ Hi Hs) in H. unfold natural_outcome in H.
    repeat split.
    destruct (first_named s) as [[name num]|]; [|auto].
    destruct (2 <=? List.length (Re.findall_digits s))%nat eqn:E;
      [destruct (runs_within_limit s); discriminate|].
    apply Nat.leb_gt in E. auto.
  - intros (Hi & Hs & K).
    rewrite (parse_natural_outcome _ Hi Hs). unfold natural_outcome.
    destruct K as [->|L]; [reflexivity|].
    destruct (first_named s) as [[name num]|]; [|reflexivity].
    apply Nat.leb_gt in L. now rewrite L.
Qed.

(** X6 at "hello world". *)
Lemma parseGregorianDate_no_match_iff_witness :
  parseGregorianDate "hello world" = Returned None.
Proof.
  apply (proj2 (parseGregorianDate_no_match_iff "hello world")).
  repeat split; try (vm_compute; reflexivity). left. vm_compute. reflexivity.
Defined.

(** X2 at the input made of U+00B2 and " kislev 25". *)
Lemma parseHebrewDate_raises_iff_witness :
  parseHebrewDate (superscript_two ++ " kislev 25") = Raised ValueError.
Proof.
  apply (proj2 (parseHebrewDate_raises_iff
                  (superscript_two ++ " kislev 25") ValueError)).
  repeat split; vm_compute; (reflexivity || lia).
Defined.

(* ================================================================== *)
(** ** Letter case *)

Ltac each_char c :=
  destruct c as [[|] [|] [|] [|] [|] [|] [|] [|]]; vm_compute; reflexivity.

Lemma char_lower_idem (c : ascii) :
  PyStr.char_lower (PyStr.char_lower c) = PyStr.char_lower c.
Proof. each_char c. Qed.

Lemma char_lower_decimal (c : ascii) :
  PyStr.is_decimal (PyStr.char_lower c) = PyStr.is_decimal c.
Proof. each_char c. Qed.

Lemma char_lower_decimal_fixed (c : ascii) :
  (if PyStr.is_decimal c then Ascii.eqb (PyStr.char_lower c) c else true)
  = true.
Proof. each_char c. Qed.

Lemma char_lower_punctuation (c : ascii) :
  is_punctuation (PyStr.char_lower c) = is_punctuation c.
Proof. each_char c. Qed.

Lemma char_lower_dash (c : ascii) :
  Ascii.eqb (PyStr.char_lower c) "-" = Ascii.eqb c "-".
Proof. each_char c. Qed.

Lemma char_lower_slash (c : ascii) :
  Ascii.eqb (PyStr.char_lower c) "/" = Ascii.eqb c "/".
Proof. each_char c. Qed.

Lemma lower_idem (s : string) : PyStr.lower (PyStr.lower s) = PyStr.lower s.
Proof.
  induction s as [|c s IH]; simpl; [reflexivity|].
  now rewrite char_lower_idem, IH.
Qed.

Lemma lower_strip_punctuation (s : string) :
  PyStr.lower (strip_punctuation s) = strip_punctuation (PyStr.lower s).
Proof.
  unfold strip_punctuation. fold is_punctuation.
  change (fun c : ascii => Ascii.eqb c ","%char || Ascii.eqb c "."%char)
    with is_punctuation.
  induction s as [|c s IH]; simpl; [reflexivity|].
  rewrite char_lower_punctuation.
  destruct (is_punctuation c); simpl; now rewrite IH.
Qed.

Lemma hebrew_parts_lower (s : string) :
  hebrew_parts (PyStr.lower s) = hebrew_parts s.
Proof.
  unfold hebrew_parts. now rewrite <- lower_strip_punctuation, lower_idem.
Qed.

Lemma parseHebrewDate_parts (s s' : string) :
  hebrew_parts s = hebrew_parts s' -> parseHebrewDate s = parseHebrewDate s'.
Proof. unfold parseHebrewDate. now intros ->. Qed.

(** X7: the Hebrew parser ignores letter case: two inputs that become equal
    once lowered get the same outcome, a record, no match or an
    exception. *)
Theorem parseHebrewDate_ignores_case (s s' : string) :
  PyStr.lower s = PyStr.lower s' -> parseHebrewDate s = parseHebrewDate s'.
Proof.
  intros E. apply parseHebrewDate_parts.
  now rewrite <- (hebrew_parts_lower s), <- (hebrew_parts_lower s'), E.
Qed.

(** X7 at "KISLEV 25 5784" and "kIsLeV 25 5784". *)
Lemma parseHebrewDate_ignores_case_witness :
  parseHebrewDate "KISLEV 25 5784" = parseHebrewDate "kIsLeV 25 5784".
Proof.
  apply parseHebrewDate_ignores_case. vm_compute. reflexivity.
Defined.

Lemma take_digits_lower (n : nat) :
  forall s,
    Re.take_digits n (PyStr.lower s)
    = match Re.take_digits n s with
      | Some (g, rest) => Some (g, PyStr.lower rest)
      | None => None
      end.
Proof.
  induction n as [|n IH]; intros s; [reflexivity|].
  destruct s as [|c s]; [reflexivity|].
  cbn [PyStr.lower Re.take_digits].
  rewrite char_lower_decimal, IH.
  pose proof (char_lower_decimal_fixed c) as F.
  destruct (PyStr.is_decimal c); [|reflexivity].
  apply Ascii.eqb_eq in F. rewrite F.
  now destruct (Re.take_digits n s) as [[g rest]|].
Qed.

Lemma greedy_lower (cont cont' : string -> option (list string)) (lo : nat) :
  (forall r, cont' (PyStr.lower r) = cont r) ->
  forall extra s,
    Re.greedy extra lo cont' (PyStr.lower s) = Re.greedy extra lo cont s.
Proof.
  intros C. induction extra as [|extra IH]; intros s;
    cbn [Re.greedy]; rewrite take_digits_lower.
  - destruct (Re.take_digits (lo + 0) s) as [[g rest]|]; [|reflexivity].
    now rewrite C.
  - rewrite IH.
    destruct (Re.take_digits (lo + S extra) s) as [[g rest]|]; [|reflexivity].
    now rewrite C.
Qed.

Lemma re_match_lower (p : Re.pattern) :
  Forall case_free p ->
  forall s, Re.re_match p (PyStr.lower s) = Re.re_match p s.
Proof.
  induction p as [|[c|lo hi] p IH]; intros F s; [reflexivity| |].
  - inversion F as [|? ? Fc Fp]; subst. simpl in Fc.
    destruct s as [|a s]; [reflexivity|].
    cbn [PyStr.lower Re.re_match]. rewrite Fc, (IH Fp). reflexivity.
  - inversion F as [|? ? Fc Fp]; subst. cbn [Re.re_match].
    destruct (lo <=? hi)%nat; [|reflexivity].
    apply greedy_lower. exact (IH Fp).
Qed.

Lemma iso_pattern_case_free : Forall case_free Re.iso_pattern.
Proof.
  unfold Re.iso_pattern.
  repeat constructor; intros x; apply char_lower_dash.
Qed.

Lemma slash_pattern_case_free : Forall case_free Re.slash_pattern.
Proof.
  unfold Re.slash_pattern.
  repeat constructor; intros x; apply char_lower_slash.
Qed.

Lemma runs_decimal_lower (s : string) :
  forall cur,
    PyStr.runs_from PyStr.is_decimal cur (PyStr.lower s)
    = PyStr.runs_from PyStr.is_decimal cur s.
Proof.
  induction s as [|c s IH]; intros cur; [reflexivity|].
  cbn [PyStr.lower PyStr.runs_from]. rewrite char_lower_decimal.
  pose proof (char_lower_decimal_fixed c) as F.
  destruct (PyStr.is_decimal c).
  - apply Ascii.eqb_eq in F. rewrite F. apply IH.
  - now rewrite !IH.
Qed.

Lemma findall_digits_lower (s : string) :
  Re.findall_digits (PyStr.lower s) = Re.findall_digits s.
Proof. apply runs_decimal_lower. Qed.

Lemma parseGregorianDate_lower (s : string) :
  parseGregorianDate (PyStr.lower s) = parseGregorianDate s.
Proof.
  unfold parseGregorianDate.
  rewrite (re_match_lower _ iso_pattern_case_free),
    (re_match_lower _ slash_pattern_case_free).
  destruct (Re.re_match Re.iso_pattern s); [reflexivity|].
  destruct (Re.re_match Re.slash_pattern s); [reflexivity|].
  rewrite !natural_language_find. unfold natural_record, runs_within_limit.
  now rewrite lower_idem, findall_digits_lower.
Qed.

(** X8: the Gregorian parser ignores letter case: two inputs that become
    equal once lowered get the same outcome. *)
Theorem parseGregorianDate_ignores_case (s s' : string) :
  PyStr.lower s = PyStr.lower s' ->
  parseGregorianDate s = parseGregorianDate s'.
Proof.
  intros E.
  now rewrite <- (parseGregorianDate_lower s),
    <- (parseGregorianDate_lower s'), E.
Qed.

(** X8 at "DECEMBER 8, 2023" and "dEcEmBeR 8, 2023". *)
Lemma parseGregorianDate_ignores_case_witness :
  parseGregorianDate "DECEMBER 8, 2023" = parseGregorianDate "dEcEmBeR 8, 2023".
Proof.
  apply parseGregorianDate_ignores_case. vm_compute. reflexivity.
Defined.

(* ================================================================== *)
(** ** Decimal text of an integer *)

Lemma append_assoc (a b c : string) : (a ++ b) ++ c = a ++ (b ++ c).
Proof. induction a as [|x a IH]; simpl; [reflexivity | now rewrite IH]. Qed.

Lemma string_of_uint_decimal (u : Decimal.uint) :
  PyStr.all_chars PyStr.is_decimal (NilEmpty.string_of_uint u) = true.
Proof. induction u; simpl; auto. Qed.

Ltac digit_code :=
  match goal with
  | |- context [Z.of_N (PyStr.code ?c)] =>
      let v := eval vm_compute in (Z.of_N (PyStr.code c)) in
      change (Z.of_N (PyStr.code c)) with v
  end.

Lemma string_of_uint_value_acc (u : Decimal.uint) :
  forall acc,
    PyStr.digits_value_from (Z.pos acc) (NilEmpty.string_of_uint u)
    = Z.pos (Pos.of_uint_acc u acc).
Proof.
  induction u as [|u IH|u IH|u IH|u IH|u IH|u IH|u IH|u IH|u IH|u IH];
    intros acc;
    cbn [NilEmpty.string_of_uint PyStr.digits_value_from Pos.of_uint_acc];
    [reflexivity|..]; rewrite <- IH; f_equal; digit_code; lia.
Qed.

Lemma string_of_uint_value (u : Decimal.uint) :
  PyStr.digits_value_from 0 (NilEmpty.string_of_uint u)
  = Z.of_N (Pos.of_uint u).
Proof.
  induction u as [|u IH|u IH|u IH|u IH|u IH|u IH|u IH|u IH|u IH|u IH];
    cbn [NilEmpty.string_of_uint PyStr.digits_value_from Pos.of_uint];
    [reflexivity | exact IH |..];
    digit_code; cbn [Z.of_N]; rewrite <- string_of_uint_value_acc;
    reflexivity.
Qed.

Lemma str_int_nonneg (n : Z) :
  0 <= n -> str_int n = NilEmpty.string_of_uint (N.to_uint (Z.to_N n)) /\
            PyStr.nonempty (str_int n) = true.
Proof.
  intros H. destruct n as [|p|p]; [split; reflexivity | | lia].
  unfold str_int. cbn [Z.to_int Z.to_N N.to_uint NilZero.string_of_int].
  unfold NilZero.string_of_uint.
  pose proof (DecimalPos.Unsigned.to_uint_nonnil p) as NZ.
  destruct (Pos.to_uint p) eqn:E; try congruence; split; reflexivity.
Qed.

Lemma str_int_numeric (n : Z) : 0 <= n -> numeric (str_int n) = true.
Proof.
  intros H. destruct (str_int_nonneg n H) as [E N]. unfold numeric.
  rewrite N, E. apply string_of_uint_decimal.
Qed.

Lemma str_int_value (n : Z) : 0 <= n -> PyStr.digits_value (str_int n) = n.
Proof.
  intros H. destruct (str_int_nonneg n H) as [E _]. rewrite E.
  unfold PyStr.digits_value. rewrite string_of_uint_value.
  change (Pos.of_uint (N.to_uint (Z.to_N n)))
    with (N.of_uint (N.to_uint (Z.to_N n))).
  rewrite DecimalN.Unsigned.of_to. lia.
Qed.

Lemma digits_of_nonneg (n : Z) :
  0 <= n -> digits_of n = Z.of_nat (String.length (str_int n)).
Proof. intros H. unfold digits_of. now rewrite Z.abs_eq. Qed.

Lemma str_int_within_limit (n : Z) :
  0 <= n -> digits_of n <= PyStr.max_str_digits ->
  within_limit (str_int n) = true.
Proof.
  intros H L. unfold within_limit. apply Z.leb_le.
  now rewrite <- digits_of_nonneg.
Qed.

Lemma int_str_within (n : Z) :
  digits_of n <= PyStr.max_str_digits -> int_str n = Returned (str_int n).
Proof. intros L. unfold int_str. apply Z.leb_le in L. now rewrite L. Qed.

Lemma decimal_string_uint (t : string) :
  PyStr.all_chars PyStr.is_decimal t = true ->
  exists u, NilEmpty.string_of_uint u = t.
Proof.
  induction t as [|c t IH]; [exists Decimal.Nil; reflexivity|].
  simpl. intros H. apply andb_true_iff in H. destruct H as [Hc Ht].
  destruct (IH Ht) as [u <-].
  destruct c as [[|] [|] [|] [|] [|] [|] [|] [|]];
    try (vm_compute in Hc; discriminate Hc);
    first [ exists (Decimal.D0 u); reflexivity
          | exists (Decimal.D1 u); reflexivity
          | exists (Decimal.D2 u); reflexivity
          | exists (Decimal.D3 u); reflexivity
          | exists (Decimal.D4 u); reflexivity
          | exists (Decimal.D5 u); reflexivity
          | exists (Decimal.D6 u); reflexivity
          | exists (Decimal.D7 u); reflexivity
          | exists (Decimal.D8 u); reflexivity
          | exists (Decimal.D9 u); reflexivity ].
Qed.

Lemma string_of_uint_length (u : Decimal.uint) :
  String.length (NilEmpty.string_of_uint u) = Decimal.nb_digits u.
Proof. induction u; simpl; auto. Qed.

(** The decimal text of the value of a digit string is no longer than the
    string: it is the string without its leading zeros. *)
Lemma digits_of_value (t : string) :
  numeric t = true ->
  digits_of (PyStr.digits_value t) <= Z.of_nat (String.length t).
Proof.
  unfold numeric. intros H. apply andb_true_iff in H. destruct H as [N D].
  destruct (decimal_string_uint t D) as [u <-].
  assert (NZ : u <> Decimal.Nil) by (intros ->; discriminate N).
  unfold PyStr.digits_value. rewrite string_of_uint_value.
  rewrite digits_of_nonneg by lia.
  destruct (str_int_nonneg (Z.of_N (Pos.of_uint u)) ltac:(lia)) as [E _].
  rewrite E, N2Z.id.
  change (Pos.of_uint u) with (N.of_uint u).
  rewrite DecimalN.Unsigned.to_of, !string_of_uint_length.
  pose proof (DecimalFacts.nb_digits_unorm u NZ). lia.
Qed.

(** What [int] returns, [str] converts. *)
Lemma int_returned_digits (t : string) (n : Z) :
  PyStr.int t = Returned n -> 0 <= n /\ digits_of n <= PyStr.max_str_digits.
Proof.
  intros H. pose proof (int_returned_limit _ _ H) as L.
  destruct (int_returned _ _ H) as [N ->].
  pose proof (digits_of_value t N). unfold within_limit in L.
  apply Z.leb_le in L. split; [|lia].
  apply digits_value_nonneg. unfold numeric in N.
  now apply andb_true_iff in N.
Qed.

(* ================================================================== *)
(** ** The requests of the gateway *)

Lemma count_char_app (c : ascii) (a b : string) :
  count_char c (a ++ b) = (count_char c a + count_char c b)%nat.
Proof.
  induction a as [|x a IH]; simpl; [reflexivity|]. rewrite IH. lia.
Qed.

Lemma quote_plus_char_no_ampersand (a : ascii) :
  count_char "&" (quote_plus_char a) = 0%nat.
Proof. each_char a. Qed.

Lemma quote_plus_char_no_equals (a : ascii) :
  count_char "=" (quote_plus_char a) = 0%nat.
Proof. each_char a. Qed.

Lemma quote_plus_no_separator (s : string) :
  count_char "&" (quote_plus s) = 0%nat /\
  count_char "=" (quote_plus s) = 0%nat.
Proof.
  induction s as [|a s [IH1 IH2]]; [split; reflexivity|].
  cbn [quote_plus]. rewrite !count_char_app, IH1, IH2.
  now rewrite quote_plus_char_no_ampersand, quote_plus_char_no_equals.
Qed.

Lemma urlencode_cons (k v : string) (p : string * string)
      (params : list (string * string)) :
  urlencode ((k, v) :: p :: params)
  = quote_plus k ++ "=" ++ quote_plus v ++ "&" ++ urlencode (p :: params).
Proof. reflexivity. Qed.

Lemma urlencode_separators (params : list (string * string)) :
  count_char "&" (urlencode params) = Nat.pred (List.length params) /\
  count_char "=" (urlencode params) = List.length params.
Proof.
  induction params as [|[k v] params [IH1 IH2]]; [split; reflexivity|].
  destruct (quote_plus_no_separator k) as [Ka Ke].
  destruct (quote_plus_no_separator v) as [Va Ve].
  destruct params as [|p params].
  - cbn [urlencode List.length Nat.pred].
    rewrite !count_char_app, Ka, Ke, Va, Ve. split; reflexivity.
  - rewrite urlencode_cons, !count_char_app, IH1, IH2, Ka, Ke, Va, Ve.
    cbn [List.length Nat.pred]. split; reflexivity.
Qed.

(** X9: whatever strings and numbers the date holds, the request has
    exactly the six parameters of the source: its URL has five '&' and six
    '=', so a month string cannot add or cut a parameter. *)
Theorem request_has_six_parameters
        (hebrew_date : HebrewDate.t) (gregorian_date : GregorianDate.t) :
  count_char "&" (hebrew_url hebrew_date) = 5%nat /\
  count_char "=" (hebrew_url hebrew_date) = 6%nat /\
  count_char "&" (gregorian_url gregorian_date) = 5%nat /\
  count_char "=" (gregorian_url gregorian_date) = 6%nat.
Proof.
  unfold hebrew_url, gregorian_url. rewrite !count_char_app.
  repeat split;
    match goal with
    | |- context [urlencode ?p] =>
        destruct (urlencode_separators p) as [A E]; rewrite ?A, ?E
    end; reflexivity.
Qed.

Lemma quote_plus_char_unreserved (c : ascii) :
  unreserved c = true -> quote_plus_char c = String c "".
Proof. unfold unreserved, quote_plus_char. now intros ->. Qed.

Lemma quote_plus_unreserved (s : string) :
  PyStr.all_chars unreserved s = true -> quote_plus s = s.
Proof.
  induction s as [|c s IH]; simpl; [reflexivity|]. intros H.
  apply andb_true_iff in H. destruct H as [Hc Hs].
  now rewrite (quote_plus_char_unreserved c Hc), (IH Hs).
Qed.

Lemma string_of_uint_unreserved (u : Decimal.uint) :
  PyStr.all_chars unreserved (NilEmpty.string_of_uint u) = true.
Proof. induction u; simpl; auto. Qed.

Lemma str_int_unreserved (n : Z) :
  PyStr.all_chars unreserved (str_int n) = true.
Proof.
  assert (U : forall u,
             PyStr.all_chars unreserved (NilZero.string_of_uint u) = true).
  { intros u. unfold NilZero.string_of_uint.
    destruct u; try reflexivity; apply (string_of_uint_unreserved (_ u)). }
  unfold str_int. destruct n as [|p|p]; cbn [Z.to_int NilZero.string_of_int].
  - reflexivity.
  - apply U.
  - cbn [PyStr.all_chars]. rewrite U. reflexivity.
Qed.

Lemma quote_plus_str_int (n : Z) : quote_plus (str_int n) = str_int n.
Proof. apply quote_plus_unreserved, str_int_unreserved. Qed.

Lemma quote_plus_canonical (m : string) :
  In m canonical_names -> quote_plus m = m.
Proof.
  unfold canonical_names, HEBREW_MONTHS. simpl.
  intros I. repeat (destruct I as [<-|I]; [vm_compute; reflexivity|]).
  destruct I.
Qed.

(** X10: the request of a parsed date carries its fields as they are: after
    the fixed [cfg=json], the year and the day in decimal and the month
    name unescaped, then the direction flag and [strict=1]. *)
Theorem request_of_parsed_date :
  (forall s r,
      parseHebrewDate s = Returned (Some r) ->
      hebrew_url r
      = "https://www.hebcal.com/converter?cfg=json&hy="
        ++ str_int (HebrewDate.year r) ++ "&hm=" ++ HebrewDate.month r
        ++ "&hd=" ++ str_int (HebrewDate.day r) ++ "&h2g=1&strict=1") /\
  (forall g,
      gregorian_url g
      = "https://www.hebcal.com/converter?cfg=json&gy="
        ++ str_int (GregorianDate.year g) ++ "&gm="
        ++ str_int (GregorianDate.month g) ++ "&gd="
        ++ str_int (GregorianDate.day g) ++ "&g2h=1&strict=1").
Proof.
  split.
  - intros s r H. destruct (hebrew_record_fields s r H) as (_ & M & _).
    unfold hebrew_url. cbn [urlencode].
    rewrite !quote_plus_str_int, (quote_plus_canonical _ M).
    change (quote_plus "cfg") with "cfg". change (quote_plus "json") with "json".
    change (quote_plus "hy") with "hy". change (quote_plus "hm") with "hm".
    change (quote_plus "hd") with "hd". change (quote_plus "h2g") with "h2g".
    change (quote_plus "strict") with "strict".
    change (quote_plus "1") with "1".
    cbn [String.append]. rewrite ?append_assoc. reflexivity.
  - intros g. unfold gregorian_url. cbn [urlencode].
    rewrite !quote_plus_str_int.
    change (quote_plus "cfg") with "cfg". change (quote_plus "json") with "json".
    change (quote_plus "gy") with "gy". change (quote_plus "gm") with "gm".
    change (quote_plus "gd") with "gd". change (quote_plus "g2h") with "g2h".
    change (quote_plus "strict") with "strict".
    change (quote_plus "1") with "1".
    cbn [String.append]. rewrite ?append_assoc. reflexivity.
Qed.

(** X10 at the record of "25 Kislev 5784". *)
Lemma request_of_parsed_date_witness :
  hebrew_url (HebrewDate.mk 5784 "Kislev" 25)
  = "https://www.hebcal.com/converter?cfg=json&hy=5784&hm=Kislev&hd=25&h2g=1&strict=1".
Proof.
  rewrite (proj1 request_of_parsed_date "25 Kislev 5784"
             (HebrewDate.mk 5784 "Kislev" 25));
    vm_compute; reflexivity.
Defined.

(* ================================================================== *)
(** ** The answers of the gateway *)

Lemma usable_dict (a b c : string) (beh : service_behaviour) :
  unusable a b c beh = false ->
  exists items va vb vc,
    beh = JsonBody (PDict items) /\ dict_get a items = Some va /\
    dict_get b items = Some vb /\ dict_get c items = Some vc.
Proof.
  unfold unusable. destruct beh as [| | | | |data]; try discriminate.
  destruct data as [| | | | | |items]; try discriminate.
  destruct (dict_get a items) as [va|] eqn:A; [|discriminate].
  destruct (dict_get b items) as [vb|] eqn:B; [|discriminate].
  destruct (dict_get c items) as [vc|] eqn:C; [|discriminate].
  intros _. exists items, va, vb, vc. auto.
Qed.

Lemma unusable_dict (a b c : string) (items : list (string * pyval))
      (va vb vc : pyval) :
  dict_get a items = Some va -> dict_get b items = Some vb ->
  dict_get c items = Some vc ->
  unusable a b c (JsonBody (PDict items)) = false.
Proof. intros A B C. unfold unusable. now rewrite A, B, C. Qed.

Lemma hebrew_request_returned (d : HebrewDate.t) (url : string) :
  hebrew_request d = Returned url -> url = hebrew_url d.
Proof.
  rewrite hebrew_request_limit.
  destruct ((digits_of (HebrewDate.year d) <=? PyStr.max_str_digits)
            && (digits_of (HebrewDate.day d) <=? PyStr.max_str_digits));
    intros H; inversion H; reflexivity.
Qed.

Lemma gregorian_request_returned (d : GregorianDate.t) (url : string) :
  gregorian_request d = Returned url -> url = gregorian_url d.
Proof.
  rewrite gregorian_request_limit.
  destruct ((digits_of (GregorianDate.year d) <=? PyStr.max_str_digits)
            && (digits_of (GregorianDate.month d) <=? PyStr.max_str_digits)
            && (digits_of (GregorianDate.day d) <=? PyStr.max_str_digits));
    intros H; inversion H; reflexivity.
Qed.

Lemma convertHebrewToGregorian_no_request
      (service : string -> service_behaviour) (container_repr : pyval -> string)
      (hebrew_date : HebrewDate.t) (e : exn) :
  hebrew_request hebrew_date = Raised e ->
  convertHebrewToGregorian service container_repr hebrew_date = Returned None.
Proof.
  intros R. pose proof (catchable_hebrew_request hebrew_date) as C.
  unfold convertHebrewToGregorian. rewrite R in *. simpl in *. now rewrite C.
Qed.

Lemma convertGregorianToHebrew_no_request
      (service : string -> service_behaviour) (container_repr : pyval -> string)
      (gregorian_date : GregorianDate.t) (e : exn) :
  gregorian_request gregorian_date = Raised e ->
  convertGregorianToHebrew service container_repr gregorian_date
  = Returned None.
Proof.
  intros R. pose proof (catchable_gregorian_request gregorian_date) as C.
  unfold convertGregorianToHebrew. rewrite R in *. simpl in *. now rewrite C.
Qed.

Lemma convertHebrewToGregorian_dict
      (service : string -> service_behaviour) (container_repr : pyval -> string)
      (hebrew_date : HebrewDate.t) (url : string)
      (items : list (string * pyval)) (gy gm gd : pyval) :
  hebrew_request hebrew_date = Returned url ->
  service url = JsonBody (PDict items) ->
  dict_get "gy" items = Some gy -> dict_get "gm" items = Some gm ->
  dict_get "gd" items = Some gd ->
  convertHebrewToGregorian service container_repr hebrew_date
  = try_except_Exception
      (yyyy <- py_str container_repr gy ;;
       mm <- format_02d gm ;;
       dd <- format_02d gd ;;
       Returned (Some (ConvertedDate.mk gy gm gd
                         (yyyy ++ "-" ++ mm ++ "-" ++ dd)))).
Proof.
  intros R S Y M D. unfold convertHebrewToGregorian, fetch_json.
  rewrite R. cbn [bind]. rewrite S. cbn [bind].
  rewrite has_fields_dict, Y, M, D.
  cbn [bind py_getitem]. now rewrite Y, M, D.
Qed.

Lemma convertGregorianToHebrew_dict
      (service : string -> service_behaviour) (container_repr : pyval -> string)
      (gregorian_date : GregorianDate.t) (url : string)
      (items : list (string * pyval)) (hy hm hd : pyval) :
  gregorian_request gregorian_date = Returned url ->
  service url = JsonBody (PDict items) ->
  dict_get "hy" items = Some hy -> dict_get "hm" items = Some hm ->
  dict_get "hd" items = Some hd ->
  convertGregorianToHebrew service container_repr gregorian_date
  = try_except_Exception
      (d <- py_str container_repr hd ;;
       m <- py_str container_repr hm ;;
       y <- py_str container_repr hy ;;
       Returned (Some (ConvertedDate.mk hy hm hd
                         (d ++ " " ++ m ++ " " ++ y)))).
Proof.
  intros R S Y M D. unfold convertGregorianToHebrew, fetch_json.
  rewrite R. cbn [bind]. rewrite S. cbn [bind].
  rewrite has_fields_dict, Y, M, D.
  cbn [bind py_getitem]. now rewrite Y, M, D.
Qed.

(** A caught exception gives [None], never a result. *)
Lemma try_except_some {A : Type} (body : result (option A)) (r : A) :
  try_except_Exception body = Returned (Some r) -> body = Returned (Some r).
Proof.
  destruct body as [v|e]; simpl; [auto|].
  destruct (is_Exception e); discriminate.
Qed.

(** X11: the Hebrew-to-Gregorian call gives a result exactly when the
    request is built ([str] converts the year and the day of the date),
    the service answers it with an object that has [gy], [gm] and [gd],
    [str] converts [gy], and [gm] and [gd] are integers (or booleans) that
    the format [02d] converts; the result then carries the three values as
    received and the text [gy-mm-dd] with month and day padded to two
    digits.  An object that has the three fields with a month or a day of
    another type gives no result. *)
Theorem convertHebrewToGregorian_result_iff
        (service : string -> service_behaviour)
        (container_repr : pyval -> string)
        (hebrew_date : HebrewDate.t) (r : ConvertedDate.t) :
  convertHebrewToGregorian service container_repr hebrew_date
  = Returned (Some r) <->
  exists url items gy gm gd yyyy mm dd,
    hebrew_request hebrew_date = Returned url /\
    service url = JsonBody (PDict items) /\
    dict_get "gy" items = Some gy /\ dict_get "gm" items = Some gm /\
    dict_get "gd" items = Some gd /\
    py_str container_repr gy = Returned yyyy /\
    format_02d gm = Returned mm /\ format_02d gd = Returned dd /\
    r = ConvertedDate.mk gy gm gd (yyyy ++ "-" ++ mm ++ "-" ++ dd).
Proof.
  split.
  - intros H.
    destruct (hebrew_request hebrew_date) as [url|e] eqn:R;
      [|rewrite (convertHebrewToGregorian_no_request _ _ _ _ R) in H;
        discriminate].
    pose proof (hebrew_request_returned _ _ R) as U.
    destruct (unusable "gy" "gm" "gd" (service (hebrew_url hebrew_date)))
      eqn:N.
    { rewrite (convertHebrewToGregorian_unusable _ _ _ N) in H.
      discriminate. }
    destruct (usable_dict _ _ _ _ N) as (items & gy & gm & gd & S & Y & M & D).
    rewrite <- U in S.
    rewrite (convertHebrewToGregorian_dict _ _ _ _ _ _ _ _ R S Y M D) in H.
    apply try_except_some in H.
    destruct (py_str container_repr gy) as [yyyy|e0] eqn:Fy; [|discriminate].
    destruct (format_02d gm) as [mm|e1] eqn:Fm; [|discriminate].
    destruct (format_02d gd) as [dd|e2] eqn:Fd; [|discriminate].
    cbn [bind] in H. inversion H; subst.
    exists (hebrew_url hebrew_date), items, gy, gm, gd, yyyy, mm, dd.
    auto 12.
  - intros (url & items & gy & gm & gd & yyyy & mm & dd
            & R & S & Y & M & D & Fy & Fm & Fd & ->).
    rewrite (convertHebrewToGregorian_dict _ _ _ _ _ _ _ _ R S Y M D),
      Fy, Fm, Fd.
    reflexivity.
Qed.

(** X11 against a service that answers 2023, 12, 8. *)
Lemma convertHebrewToGregorian_result_iff_witness :
  convertHebrewToGregorian
    (fun _ => JsonBody (PDict [("gy", PInt 2023); ("gm", PInt 12);
                               ("gd", PInt 8)]))
    (fun _ => "") (HebrewDate.mk 5784 "Kislev" 25)
  = Returned (Some (ConvertedDate.mk (PInt 2023) (PInt 12) (PInt 8)
                      "2023-12-08")).
Proof.
  apply (proj2 (convertHebrewToGregorian_result_iff _ _ _ _)).
  exists (hebrew_url (HebrewDate.mk 5784 "Kislev" 25)),
    [("gy", PInt 2023); ("gm", PInt 12); ("gd", PInt 8)],
    (PInt 2023), (PInt 12), (PInt 8), "2023", "12", "08".
  repeat split; vm_compute; reflexivity.
Defined.

(** X12: the Gregorian-to-Hebrew call gives a result exactly when the
    request is built ([str] converts the year, the month and the day of
    the date), the service answers it with an object that has [hy], [hm]
    and [hd], and [str] converts the three, whatever their types; the
    result carries the three values and the text [hd hm hy]. *)
Theorem convertGregorianToHebrew_result_iff
        (service : string -> service_behaviour)
        (container_repr : pyval -> string)
        (gregorian_date : GregorianDate.t) (r : ConvertedDate.t) :
  convertGregorianToHebrew service container_repr gregorian_date
  = Returned (Some r) <->
  exists url items hy hm hd d m y,
    gregorian_request gregorian_date = Returned url /\
    service url = JsonBody (PDict items) /\
    dict_get "hy" items = Some hy /\ dict_get "hm" items = Some hm /\
    dict_get "hd" items = Some hd /\
    py_str container_repr hd = Returned d /\
    py_str container_repr hm = Returned m /\
    py_str container_repr hy = Returned y /\
    r = ConvertedDate.mk hy hm hd (d ++ " " ++ m ++ " " ++ y).
Proof.
  split.
  - intros H.
    destruct (gregorian_request gregorian_date) as [url|e] eqn:R;
      [|rewrite (convertGregorianToHebrew_no_request _ _ _ _ R) in H;
        discriminate].
    pose proof (gregorian_request_returned _ _ R) as U.
    destruct (unusable "hy" "hm" "hd"
                (service (gregorian_url gregorian_date))) eqn:N.
    { rewrite (convertGregorianToHebrew_unusable _ _ _ N) in H.
      discriminate. }
    destruct (usable_dict _ _ _ _ N) as (items & hy & hm & hd & S & Y & M & D).
    rewrite <- U in S.
    rewrite (convertGregorianToHebrew_dict _ _ _ _ _ _ _ _ R S Y M D) in H.
    apply try_except_some in H.
    destruct (py_str container_repr hd) as [d|e0] eqn:Fd; [|discriminate].
    destruct (py_str container_repr hm) as [m|e1] eqn:Fm; [|discriminate].
    destruct (py_str container_repr hy) as [y|e2] eqn:Fy; [|discriminate].
    cbn [bind] in H. inversion H; subst.
    exists (gregorian_url gregorian_date), items, hy, hm, hd, d, m, y.
    auto 12.
  - intros (url & items & hy & hm & hd & d & m & y
            & R & S & Y & M & D & Fd & Fm & Fy & ->).
    rewrite (convertGregorianToHebrew_dict _ _ _ _ _ _ _ _ R S Y M D),
      Fd, Fm, Fy.
    reflexivity.
Qed.

(** X12 against a service that answers 5784, "Kislev", 25. *)
Lemma convertGregorianToHebrew_result_iff_witness :
  convertGregorianToHebrew
    (fun _ => JsonBody (PDict [("hy", PInt 5784); ("hm", PStr "Kislev");
                               ("hd", PInt 25)]))
    (fun _ => "") (GregorianDate.mk 2023 12 8)
  = Returned (Some (ConvertedDate.mk (PInt 5784) (PStr "Kislev") (PInt 25)
                      "25 Kislev 5784")).
Proof.
  apply (proj2 (convertGregorianToHebrew_result_iff _ _ _ _)).
  exists (gregorian_url (GregorianDate.mk 2023 12 8)),
    [("hy", PInt 5784); ("hm", PStr "Kislev"); ("hd", PInt 25)],
    (PInt 5784), (PStr "Kislev"), (PInt 25), "25", "Kislev", "5784".
  repeat split; vm_compute; reflexivity.
Defined.

(* ================================================================== *)
(** ** Texts that parse back *)

Lemma range_check (P : Z -> bool) (lo hi : Z) :
  forallb (fun k => P (lo + Z.of_nat k))
          (List.seq 0 (Z.to_nat (hi - lo + 1))) = true ->
  forall n, lo <= n <= hi -> P n = true.
Proof.
  intros F n R. rewrite forallb_forall in F.
  specialize (F (Z.to_nat (n - lo))).
  replace (lo + Z.of_nat (Z.to_nat (n - lo))) with n in F by lia.
  apply F, in_seq. lia.
Qed.

Lemma str_int_four_digits (n : Z) :
  1000 <= n <= 9999 -> String.length (str_int n) = 4%nat.
Proof.
  intros R. apply Nat.eqb_eq.
  apply (range_check (fun n => (String.length (str_int n) =? 4)%nat)
           1000 9999); [vm_compute; reflexivity | exact R].
Qed.

Lemma zero_pad2_two_digits (n : Z) :
  0 <= n <= 99 -> String.length (zero_pad2 n) = 2%nat.
Proof.
  intros R. apply Nat.eqb_eq.
  apply (range_check (fun n => (String.length (zero_pad2 n) =? 2)%nat)
           0 99); [vm_compute; reflexivity | exact R].
Qed.

Lemma zero_pad2_decimal (n : Z) :
  0 <= n -> PyStr.all_chars PyStr.is_decimal (zero_pad2 n) = true.
Proof.
  intros H. pose proof (str_int_numeric n H) as N. unfold numeric in N.
  apply andb_true_iff in N. destruct N as [_ D]. unfold zero_pad2.
  destruct ((0 <=? n) && (n <? 10)); [|exact D].
  cbn [String.append PyStr.all_chars]. now rewrite D.
Qed.

Lemma zero_pad2_value (n : Z) : 0 <= n -> PyStr.digits_value (zero_pad2 n) = n.
Proof.
  intros H. unfold zero_pad2.
  destruct ((0 <=? n) && (n <? 10)); [|now apply str_int_value].
  unfold PyStr.digits_value. cbn [String.append PyStr.digits_value_from].
  digit_code. change (10 * 0 + (48 - 48)) with 0.
  now apply str_int_value.
Qed.

Lemma append_empty (s : string) : s ++ "" = s.
Proof. induction s as [|c s IH]; simpl; [reflexivity | now rewrite IH]. Qed.

(** The text [y-mm-dd] of a date with a four-digit year parses back to the
    date. *)
Lemma parse_iso_text (y m d : Z) :
  1000 <= y <= 9999 -> 0 <= m <= 99 -> 0 <= d <= 99 ->
  parseGregorianDate (str_int y ++ "-" ++ zero_pad2 m ++ "-" ++ zero_pad2 d)
  = Returned (Some (GregorianDate.mk y m d)).
Proof.
  intros Ry Rm Rd.
  assert (F : iso_form
                (str_int y ++ "-" ++ zero_pad2 m ++ "-" ++ zero_pad2 d)
                (str_int y) (zero_pad2 m) (zero_pad2 d) "").
  { unfold iso_form, digit_field. rewrite append_empty.
    pose proof (str_int_numeric y) as Ny. unfold numeric in Ny.
    rewrite (str_int_four_digits y Ry), !zero_pad2_two_digits by lia.
    rewrite !zero_pad2_decimal by lia.
    destruct (proj1 (andb_true_iff _ _) (Ny ltac:(lia))) as [_ Dy].
    rewrite Dy. repeat split; auto; lia. }
  rewrite (parse_iso_groups _ _ _ _ (iso_form_matches _ _ _ _ _ F)).
  now rewrite str_int_value, !zero_pad2_value by lia.
Qed.

(** The integers of at most four digits are within the limit of [str]. *)
Lemma small_digits (n : Z) :
  0 <= n <= 9999 -> digits_of n <= PyStr.max_str_digits.
Proof.
  intros R. apply Z.leb_le.
  apply (range_check (fun n => digits_of n <=? PyStr.max_str_digits) 0 9999);
    [vm_compute; reflexivity | exact R].
Qed.

Lemma format_02d_int (n : Z) :
  digits_of n <= PyStr.max_str_digits ->
  format_02d (PInt n) = Returned (zero_pad2 n).
Proof.
  intros L. apply Z.leb_le in L. cbn [format_02d]. now rewrite L.
Qed.

(** X13: when the request of a Hebrew-to-Gregorian call is built and the
    service answers it with integers, a year of four digits and a month
    and a day in 0..99, the call gives a result whose text the Gregorian
    parser reads back as the same year, month and day. *)
Theorem converted_text_parses_back
        (service : string -> service_behaviour)
        (container_repr : pyval -> string)
        (hebrew_date : HebrewDate.t) (url : string)
        (items : list (string * pyval)) (y m d : Z) :
  hebrew_request hebrew_date = Returned url ->
  service url = JsonBody (PDict items) ->
  dict_get "gy" items = Some (PInt y) ->
  dict_get "gm" items = Some (PInt m) ->
  dict_get "gd" items = Some (PInt d) ->
  1000 <= y <= 9999 -> 0 <= m <= 99 -> 0 <= d <= 99 ->
  exists r,
    convertHebrewToGregorian service container_repr hebrew_date
    = Returned (Some r) /\
    parseGregorianDate (ConvertedDate.formatted r)
    = Returned (Some (GregorianDate.mk y m d)).
Proof.
  intros R S Y M D Ry Rm Rd.
  rewrite (convertHebrewToGregorian_dict _ _ _ _ _ _ _ _ R S Y M D).
  cbn [py_str].
  rewrite (int_str_within y) by (apply small_digits; lia).
  rewrite !format_02d_int by (apply small_digits; lia).
  cbn [bind try_except_Exception].
  eexists. split; [reflexivity|]. cbn [ConvertedDate.formatted].
  now apply parse_iso_text.
Qed.

(** X13 against a service that answers 2023, 12, 8. *)
Lemma converted_text_parses_back_witness :
  exists r,
    convertHebrewToGregorian
      (fun _ => JsonBody (PDict [("gy", PInt 2023); ("gm", PInt 12);
                                 ("gd", PInt 8)]))
      (fun _ => "") (HebrewDate.mk 5784 "Kislev" 25)
    = Returned (Some r) /\
    parseGregorianDate (ConvertedDate.formatted r)
    = Returned (Some (GregorianDate.mk 2023 12 8)).
Proof.
  apply (converted_text_parses_back _ _ _
           (hebrew_url (HebrewDate.mk 5784 "Kislev" 25))
           [("gy", PInt 2023); ("gm", PInt 12); ("gd", PInt 8)]);
    try (vm_compute; reflexivity); lia.
Defined.

(* ================================================================== *)
(** ** The presenter *)

Lemma lower_app (a b : string) :
  PyStr.lower (a ++ b) = PyStr.lower a ++ PyStr.lower b.
Proof. induction a as [|c a IH]; simpl; [reflexivity | now rewrite IH]. Qed.

Lemma remove_chars_app (drop : ascii -> bool) (a b : string) :
  PyStr.remove_chars drop (a ++ b)
  = PyStr.remove_chars drop a ++ PyStr.remove_chars drop b.
Proof.
  induction a as [|c a IH]; simpl; [reflexivity|].
  destruct (drop c); simpl; now rewrite IH.
Qed.

Lemma decimal_plain_char (c : ascii) :
  (if PyStr.is_decimal c
   then negb (is_punctuation c) && negb (PyStr.char_isspace c)
   else true) = true.
Proof. each_char c. Qed.

(** A string of decimal digits has no punctuation to remove, no letter to
    lower and no white space. *)
Lemma decimal_string_plain (a : string) :
  PyStr.all_chars PyStr.is_decimal a = true ->
  strip_punctuation a = a /\ PyStr.lower a = a /\
  PyStr.all_chars (fun c => negb (PyStr.char_isspace c)) a = true.
Proof.
  unfold strip_punctuation.
  change (fun c : ascii => Ascii.eqb c ","%char || Ascii.eqb c "."%char)
    with is_punctuation.
  induction a as [|c a IH]; simpl; [auto|]. intros H.
  apply andb_true_iff in H. destruct H as [Hc Ha].
  destruct (IH Ha) as (S & L & W).
  pose proof (decimal_plain_char c) as P.
  pose proof (char_lower_decimal_fixed c) as F.
  rewrite Hc in P, F. apply andb_true_iff in P. destruct P as [P1 P2].
  apply negb_true_iff in P1. apply Ascii.eqb_eq in F.
  now rewrite P1, P2, S, L, W, F.
Qed.

Lemma runs_from_app (keep : ascii -> bool) (a : string) :
  forall cur s,
    PyStr.all_chars keep a = true ->
    PyStr.runs_from keep cur (a ++ s) = PyStr.runs_from keep (cur ++ a) s.
Proof.
  induction a as [|c a IH]; intros cur s H.
  - now rewrite append_empty.
  - simpl in H. apply andb_true_iff in H. destruct H as [Hc Ha].
    cbn [String.append PyStr.runs_from]. rewrite Hc, (IH _ _ Ha).
    now rewrite append_assoc.
Qed.

Lemma split_three (a b c : string) :
  let word := fun x => negb (PyStr.char_isspace x) in
  PyStr.nonempty a = true -> PyStr.nonempty b = true ->
  PyStr.nonempty c = true ->
  PyStr.all_chars word a = true -> PyStr.all_chars word b = true ->
  PyStr.all_chars word c = true ->
  PyStr.split (a ++ " " ++ b ++ " " ++ c) = [a; b; c].
Proof.
  intros word Na Nb Nc Wa Wb Wc. unfold PyStr.split, PyStr.runs. fold word.
  rewrite (runs_from_app word a _ _ Wa).
  cbn [String.append PyStr.runs_from]. change (word " "%char) with false.
  cbv iota. rewrite Na. f_equal.
  rewrite (runs_from_app word b _ _ Wb).
  cbn [String.append PyStr.runs_from]. change (word " "%char) with false.
  cbv iota. rewrite Nb. f_equal.
  rewrite <- (append_empty c) at 1.
  rewrite (runs_from_app word c _ _ Wc).
  cbn [String.append PyStr.runs_from]. now rewrite Nc.
Qed.

(** Lowering a display name of [HEBREW_MONTHS] gives its key. *)
Lemma canonical_name_key (m : string) :
  In m canonical_names ->
  dict_get (PyStr.lower m) HEBREW_MONTHS = Some m /\
  strip_punctuation m = m /\ PyStr.nonempty (PyStr.lower m) = true /\
  PyStr.all_chars (fun c => negb (PyStr.char_isspace c)) (PyStr.lower m)
  = true.
Proof.
  unfold canonical_names, HEBREW_MONTHS. simpl. intros I.
  repeat (destruct I as [<-|I]; [repeat split; vm_compute; reflexivity|]).
  destruct I.
Qed.

Lemma numeric_parts (a : string) :
  numeric a = true ->
  PyStr.nonempty a = true /\ PyStr.all_chars PyStr.is_decimal a = true.
Proof. unfold numeric. intros H. now apply andb_true_iff in H. Qed.

Lemma month_key_not_numeric (k m : string) :
  dict_get k HEBREW_MONTHS = Some m -> numeric k = false.
Proof.
  intros D. destruct (numeric k) eqn:N; [|reflexivity].
  rewrite (isdigit_not_month k (numeric_isdigit k N)) in D. discriminate.
Qed.

(** The tokens of "day month year". *)
Lemma hebrew_parts_text (y d : Z) (m : string) :
  0 <= y -> 0 <= d -> In m canonical_names ->
  hebrew_parts (str_int d ++ " " ++ m ++ " " ++ str_int y)
  = [str_int d; PyStr.lower m; str_int y].
Proof.
  intros Hy Hd I. destruct (canonical_name_key m I) as (_ & Sm & Nm & Wm).
  destruct (numeric_parts _ (str_int_numeric y Hy)) as [Ny Dy].
  destruct (numeric_parts _ (str_int_numeric d Hd)) as [Nd Dd].
  destruct (decimal_string_plain _ Dy) as (Sy & Ly & Wy).
  destruct (decimal_string_plain _ Dd) as (Sd & Ld & Wd).
  unfold hebrew_parts.
  replace (strip_punctuation (str_int d ++ " " ++ m ++ " " ++ str_int y))
    with (str_int d ++ " " ++ m ++ " " ++ str_int y).
  2:{ unfold strip_punctuation in *. rewrite !remove_chars_app, Sd, Sm, Sy.
      reflexivity. }
  rewrite !lower_app, Ld, Ly. change (PyStr.lower " ") with " ".
  now apply split_three.
Qed.

(** "day month year" parses to the record it was written from. *)
Lemma parse_hebrew_text (h : HebrewDate.t) :
  HebrewDate.year h > 5000 -> In (HebrewDate.month h) canonical_names ->
  1 <= HebrewDate.day h <= 30 ->
  digits_of (HebrewDate.year h) <= PyStr.max_str_digits ->
  parseHebrewDate (hebrew_input_text h) = Returned (Some h).
Proof.
  destruct h as [y m d]. cbn [HebrewDate.year HebrewDate.month HebrewDate.day].
  intros Hy I Hd Ly. unfold hebrew_input_text.
  pose proof (str_int_within_limit y ltac:(lia) Ly) as Wy.
  pose proof (str_int_within_limit d ltac:(lia)
                (small_digits d ltac:(lia))) as Wd.
  unfold within_limit in Wy, Wd.
  cbn [HebrewDate.year HebrewDate.month HebrewDate.day].
  pose proof (hebrew_parts_text y d m ltac:(lia) ltac:(lia) I) as P.
  destruct (canonical_name_key m I) as (K & _).
  pose proof (month_key_not_numeric _ _ K) as NK.
  pose proof (str_int_numeric y ltac:(lia)) as Ny.
  pose proof (str_int_numeric d ltac:(lia)) as Nd.
  pose proof (str_int_value y ltac:(lia)) as Vy.
  pose proof (str_int_value d ltac:(lia)) as Vd.
  assert (F : forallb plain_digits
                (hebrew_parts (str_int d ++ " " ++ m ++ " " ++ str_int y))
              = true).
  { rewrite P. unfold plain_digits. cbn [forallb]. rewrite Ny, Nd, Wy, Wd.
    destruct (PyStr.isdigit (PyStr.lower m)) eqn:E;
      [rewrite (isdigit_not_month _ E) in K; discriminate|].
    cbn [andb orb negb]. now rewrite !orb_true_r. }
  destruct (parseHebrewDate_plain _ F) as [res R]. rewrite R. f_equal.
  rewrite (parseHebrewDate_returned _ _ R), P.
  unfold last_of_each_slot, year_candidate, day_candidate, month_candidate.
  cbn [qualifying].
  rewrite Ny, Nd, NK, Vy, Vd, K.
  rewrite (isdigit_not_month _ (numeric_isdigit _ Ny)),
    (isdigit_not_month _ (numeric_isdigit _ Nd)).
  cbn [andb].
  replace (d >? 5000) with false by lia. replace (y >? 5000) with true by lia.
  replace (1 <=? d) with true by lia. replace (d <=? 30) with true by lia.
  replace (y <=? 30) with false by lia. rewrite andb_false_r.
  reflexivity.
Qed.

Lemma createResultItem_hebrew (container_repr : pyval -> string)
      (iconPath arrow : string) (h : HebrewDate.t) (out : ConvertedDate.t) :
  digits_of (HebrewDate.year h) <= PyStr.max_str_digits ->
  digits_of (HebrewDate.day h) <= PyStr.max_str_digits ->
  createResultItem container_repr iconPath arrow (hebrew_dict h) out true
  = Returned
      (mkItem md_name iconPath (ConvertedDate.formatted out)
         (("Hebrew " ++ arrow ++ " Gregorian") ++ ": " ++ hebrew_input_text h)
         [ mkAction "copy" "Copy to clipboard" (ConvertedDate.formatted out);
           mkAction "copy-input" "Copy input date" (hebrew_input_text h) ]).
Proof.
  intros Ly Ld. unfold createResultItem, hebrew_dict, hebrew_input_text.
  change (py_getitem (PDict ?l) "day")
    with (Returned (PInt (HebrewDate.day h))).
  change (py_getitem (PDict ?l) "month")
    with (Returned (PStr (HebrewDate.month h))).
  change (py_getitem (PDict ?l) "year")
    with (Returned (PInt (HebrewDate.year h))).
  cbn [bind py_str]. rewrite (int_str_within _ Ld), (int_str_within _ Ly).
  reflexivity.
Qed.

Lemma createResultItem_gregorian (container_repr : pyval -> string)
      (iconPath arrow : string) (g : GregorianDate.t) (out : ConvertedDate.t) :
  digits_of (GregorianDate.year g) <= PyStr.max_str_digits ->
  digits_of (GregorianDate.month g) <= PyStr.max_str_digits ->
  digits_of (GregorianDate.day g) <= PyStr.max_str_digits ->
  createResultItem container_repr iconPath arrow (gregorian_dict g) out false
  = Returned
      (mkItem md_name iconPath (ConvertedDate.formatted out)
         (("Gregorian " ++ arrow ++ " Hebrew") ++ ": "
          ++ gregorian_input_text g)
         [ mkAction "copy" "Copy to clipboard" (ConvertedDate.formatted out);
           mkAction "copy-input" "Copy input date" (gregorian_input_text g) ]).
Proof.
  intros Ly Lm Ld. unfold createResultItem, gregorian_dict, gregorian_input_text.
  change (py_getitem (PDict ?l) "day")
    with (Returned (PInt (GregorianDate.day g))).
  change (py_getitem (PDict ?l) "month")
    with (Returned (PInt (GregorianDate.month g))).
  change (py_getitem (PDict ?l) "year")
    with (Returned (PInt (GregorianDate.year g))).
  cbn [bind py_str].
  rewrite (int_str_within _ Ly), (format_02d_int _ Lm), (format_02d_int _ Ld).
  reflexivity.
Qed.

Lemma parseHebrewDate_some_plain (s : string) (h : HebrewDate.t) :
  parseHebrewDate s = Returned (Some h) ->
  forallb plain_digits (hebrew_parts s) = true.
Proof.
  intros H. destruct (forallb plain_digits (hebrew_parts s)) eqn:F;
    [reflexivity|].
  unfold parseHebrewDate in H.
  destruct (List.length (hebrew_parts s) <? 3)%nat; [discriminate|].
  rewrite (scan_parts_not_plain _ no_slots F) in H. discriminate.
Qed.

(** The integers of a record of the Hebrew parser are ones [str]
    converts. *)
Lemma hebrew_record_limits (s : string) (h : HebrewDate.t) :
  parseHebrewDate s = Returned (Some h) ->
  digits_of (HebrewDate.year h) <= PyStr.max_str_digits /\
  digits_of (HebrewDate.day h) <= PyStr.max_str_digits.
Proof.
  intros H. pose proof (parseHebrewDate_some_plain s h H) as F.
  destruct (hebrew_record_fields s h H) as (_ & _ & D).
  split; [|apply small_digits; lia].
  apply parseHebrewDate_returned in H. unfold last_of_each_slot in H.
  destruct (last_opt (qualifying year_candidate (hebrew_parts s)))
    as [y|] eqn:Y; [|discriminate].
  destruct (last_opt (qualifying month_candidate (hebrew_parts s)));
    [|discriminate].
  destruct (last_opt (qualifying day_candidate (hebrew_parts s)));
    [|discriminate].
  inversion H; subst. cbn [HebrewDate.year].
  destruct (last_qualifying_offer _ _ _ Y) as (t & I & O).
  rewrite forallb_forall in F. specialize (F t I).
  unfold year_candidate in O.
  destruct (numeric t) eqn:N; cbn [andb] in O; [|discriminate].
  destruct (PyStr.digits_value t >? 5000); [|discriminate].
  inversion O; subst.
  unfold plain_digits in F. rewrite (numeric_isdigit t N), N in F.
  cbn [negb orb andb] in F. apply Z.leb_le in F.
  pose proof (digits_of_value t N). lia.
Qed.

(** The integers of a record of the Gregorian parser are ones [str]
    converts. *)
Lemma gregorian_record_limits (s : string) (g : GregorianDate.t) :
  parseGregorianDate s = Returned (Some g) ->
  digits_of (GregorianDate.year g) <= PyStr.max_str_digits /\
  digits_of (GregorianDate.month g) <= PyStr.max_str_digits /\
  digits_of (GregorianDate.day g) <= PyStr.max_str_digits.
Proof.
  intros H.
  destruct (Re.re_match Re.iso_pattern s) as [groups|] eqn:Hi.
  - destruct (iso_match_groups _ _ Hi)
      as (y & m & d & -> & [Dy Ly] & [Dm Lm] & [Dd Ld]).
    rewrite (parse_iso_groups _ _ _ _ Hi) in H. inversion H; subst. simpl.
    pose proof (digits_value_four y Dy ltac:(lia)).
    pose proof (digits_value_two m Dm (proj2 Lm)).
    pose proof (digits_value_two d Dd (proj2 Ld)).
    repeat split; apply small_digits; lia.
  - destruct (Re.re_match Re.slash_pattern s) as [groups|] eqn:Hs.
    + destruct (slash_match_groups _ _ Hs)
        as (a & b & y & -> & [Da La] & [Db Lb] & [Dy Ly]).
      rewrite (parse_slash_groups _ _ _ _ Hi Hs) in H.
      pose proof (digits_value_four y Dy ltac:(lia)).
      pose proof (digits_value_two a Da (proj2 La)).
      pose proof (digits_value_two b Db (proj2 Lb)).
      destruct (PyStr.digits_value a >? 12); inversion H; subst; simpl;
        repeat split; apply small_digits; lia.
    + rewrite (parse_natural _ Hi Hs) in H.
      apply natural_language_returned in H.
      destruct H as (L & W & name & num & I & C & ->). simpl.
      pose proof (month_numbers _ _ I).
      unfold runs_within_limit in W. apply andb_true_iff in W.
      destruct W as [W1 W2]. unfold within_limit in W1, W2.
      apply Z.leb_le in W1, W2.
      pose proof (findall_digits_numeric s) as F. rewrite Forall_forall in F.
      pose proof (F _ (hd_in (Re.findall_digits s) EmptyString ltac:(lia)))
        as N1.
      pose proof (F _ (last_in (Re.findall_digits s) EmptyString ltac:(lia)))
        as N2.
      pose proof (digits_of_value _ N1). pose proof (digits_of_value _ N2).
      pose proof (run_nonneg s _
                    (last_in (Re.findall_digits s) EmptyString ltac:(lia))).
      repeat split; [|apply small_digits; lia|lia].
      unfold two_digit_year.
      destruct (PyStr.digits_value (List.last (Re.findall_digits s) "") <? 100)
        eqn:E; [apply small_digits; lia | lia].
Qed.

(** X14: for every record the Hebrew parser returns, the input text the
    presenter shows and offers to copy, "day month year", is read by the
    Hebrew parser as that same record. *)
Theorem hebrew_input_text_parses_back
        (container_repr : pyval -> string) (iconPath arrow : string)
        (s : string) (h : HebrewDate.t) (out : ConvertedDate.t) :
  parseHebrewDate s = Returned (Some h) ->
  exists item input_text,
    createResultItem container_repr iconPath arrow (hebrew_dict h) out true
    = Returned item /\
    List.nth_error (actions item) 1
    = Some (mkAction "copy-input" "Copy input date" input_text) /\
    parseHebrewDate input_text = Returned (Some h).
Proof.
  intros H. destruct (hebrew_record_fields s h H) as (Y & M & D).
  exists (mkItem md_name iconPath (ConvertedDate.formatted out)
            (("Hebrew " ++ arrow ++ " Gregorian") ++ ": "
             ++ hebrew_input_text h)
            [ mkAction "copy" "Copy to clipboard" (ConvertedDate.formatted out);
              mkAction "copy-input" "Copy input date" (hebrew_input_text h) ]),
    (hebrew_input_text h).
  destruct (hebrew_record_limits s h H) as [Ly Ld].
  split; [now apply createResultItem_hebrew|]. split; [reflexivity|].
  now apply parse_hebrew_text.
Qed.

(** X14 at the record of "Kislev 25, 5784". *)
Lemma hebrew_input_text_parses_back_witness :
  exists item input_text,
    createResultItem (fun _ => "") "logo.svg" "->"
      (hebrew_dict (HebrewDate.mk 5784 "Kislev" 25))
      (ConvertedDate.mk (PInt 2023) (PInt 12) (PInt 8) "2023-12-08") true
    = Returned item /\
    List.nth_error (actions item) 1
    = Some (mkAction "copy-input" "Copy input date" input_text) /\
    parseHebrewDate input_text
    = Returned (Some (HebrewDate.mk 5784 "Kislev" 25)).
Proof.
  apply (hebrew_input_text_parses_back _ _ _ "Kislev 25, 5784").
  vm_compute. reflexivity.
Defined.

(** X15: for a Gregorian record with a year of four digits and a month and
    a day in 0..99, the input text the presenter shows and offers to copy,
    "year-mm-dd", is read by the Gregorian parser as that same record. *)
Theorem gregorian_input_text_parses_back
        (container_repr : pyval -> string) (iconPath arrow : string)
        (g : GregorianDate.t) (out : ConvertedDate.t) :
  1000 <= GregorianDate.year g <= 9999 ->
  0 <= GregorianDate.month g <= 99 -> 0 <= GregorianDate.day g <= 99 ->
  exists item input_text,
    createResultItem container_repr iconPath arrow (gregorian_dict g) out false
    = Returned item /\
    List.nth_error (actions item) 1
    = Some (mkAction "copy-input" "Copy input date" input_text) /\
    parseGregorianDate input_text = Returned (Some g).
Proof.
  intros Y M D.
  exists (mkItem md_name iconPath (ConvertedDate.formatted out)
            (("Gregorian " ++ arrow ++ " Hebrew") ++ ": "
             ++ gregorian_input_text g)
            [ mkAction "copy" "Copy to clipboard" (ConvertedDate.formatted out);
              mkAction "copy-input" "Copy input date"
                (gregorian_input_text g) ]),
    (gregorian_input_text g).
  split; [apply createResultItem_gregorian; apply small_digits; lia|].
  split; [reflexivity|].
  destruct g as [y m d]. now apply parse_iso_text.
Qed.

(** X15 at the record of "12/8/2023". *)
Lemma gregorian_input_text_parses_back_witness :
  exists item input_text,
    createResultItem (fun _ => "") "logo.svg" "->"
      (gregorian_dict (GregorianDate.mk 2023 12 8))
      (ConvertedDate.mk (PInt 5784) (PStr "Kislev") (PInt 25)
         "25 Kislev 5784") false
    = Returned item /\
    List.nth_error (actions item) 1
    = Some (mkAction "copy-input" "Copy input date" input_text) /\
    parseGregorianDate input_text
    = Returned (Some (GregorianDate.mk 2023 12 8)).
Proof.
  apply gregorian_input_text_parses_back; simpl; lia.
Defined.

(* ================================================================== *)
(** ** The query handler *)

Lemma lstrip_empty_iff (s : string) :
  lstrip s = "" <-> PyStr.all_chars PyStr.char_isspace s = true.
Proof.
  induction s as [|c s IH]; simpl; [tauto|].
  destruct (PyStr.char_isspace c); simpl; [exact IH|].
  split; discriminate.
Qed.

Lemma lstrip_head (s : string) (c : ascii) (r : string) :
  lstrip s = String c r -> PyStr.char_isspace c = false.
Proof.
  induction s as [|a s IH]; simpl; [discriminate|].
  destruct (PyStr.char_isspace a) eqn:E; [exact IH|].
  intros H. inversion H; subst. exact E.
Qed.

Lemma rstrip_empty_iff (s : string) :
  rstrip s = "" <-> PyStr.all_chars PyStr.char_isspace s = true.
Proof.
  induction s as [|c s IH]; simpl; [tauto|].
  destruct (rstrip s) as [|a r] eqn:E; simpl.
  - destruct (PyStr.char_isspace c); simpl; [tauto|].
    split; discriminate.
  - split; [discriminate|]. intros H.
    apply andb_true_iff in H. destruct H as [_ H].
    apply IH in H. discriminate.
Qed.

Lemma strip_empty_iff (s : string) :
  strip s = "" <-> PyStr.all_chars PyStr.char_isspace s = true.
Proof.
  unfold strip. rewrite rstrip_empty_iff.
  destruct (lstrip s) as [|c r] eqn:E; simpl.
  - split; intros _; [now apply lstrip_empty_iff | reflexivity].
  - rewrite (lstrip_head _ _ _ E). simpl. split; [discriminate|].
    intros H. apply lstrip_empty_iff in H. congruence.
Qed.

Lemma rstrip_cons (c : ascii) (s : string) :
  rstrip (String c s)
  = if PyStr.nonempty (rstrip s) then String c (rstrip s)
    else if PyStr.char_isspace c then "" else String c "".
Proof. reflexivity. Qed.

Lemma rstrip_idem (s : string) : rstrip (rstrip s) = rstrip s.
Proof.
  induction s as [|c s IH]; [reflexivity|]. rewrite rstrip_cons.
  destruct (rstrip s) as [|a r] eqn:E; cbn [PyStr.nonempty].
  - destruct (PyStr.char_isspace c) eqn:W; [reflexivity|].
    rewrite rstrip_cons. cbn [rstrip PyStr.nonempty]. now rewrite W.
  - rewrite rstrip_cons, IH. reflexivity.
Qed.

Lemma rstrip_keeps_head (c : ascii) (r : string) :
  PyStr.char_isspace c = false -> exists r', rstrip (String c r) = String c r'.
Proof.
  intros W. rewrite rstrip_cons. destruct (PyStr.nonempty (rstrip r)); [eauto|].
  rewrite W. eauto.
Qed.

Lemma strip_idem (s : string) : strip (strip s) = strip s.
Proof.
  unfold strip. destruct (lstrip s) as [|c r] eqn:E; [reflexivity|].
  destruct (rstrip_keeps_head c r (lstrip_head _ _ _ E)) as [r' R].
  rewrite R. cbn [lstrip]. rewrite (lstrip_head _ _ _ E).
  rewrite <- R. apply rstrip_idem.
Qed.

Section HandlerFacts.

Variable service : string -> service_behaviour.
Variable container_repr : pyval -> string.
Variable iconPath : string.
Variable arrow : string.

Lemma convertHebrewToGregorian_returns (h : HebrewDate.t) :
  exists v, convertHebrewToGregorian service container_repr h = Returned v.
Proof.
  apply try_except_returns. catchable_body.
Qed.

Lemma convertGregorianToHebrew_returns (g : GregorianDate.t) :
  exists v, convertGregorianToHebrew service container_repr g = Returned v.
Proof.
  apply try_except_returns. catchable_body.
Qed.

(** The item of a conversion, as the presenter builds it. *)
Lemma shows_conversion_item (label input_text : string)
      (out : ConvertedDate.t) :
  shows_conversion
    (mkItem md_name iconPath (ConvertedDate.formatted out)
       (label ++ ": " ++ input_text)
       [ mkAction "copy" "Copy to clipboard" (ConvertedDate.formatted out);
         mkAction "copy-input" "Copy input date" input_text ]).
Proof. exists label, input_text. split; reflexivity. Qed.

(** The Gregorian block, when the parser returns, returns no item or the
    item of one conversion. *)
Lemma gregorian_items_cases (q : string) (res : option GregorianDate.t) :
  parseGregorianDate q = Returned res ->
  exists items,
    gregorian_items service container_repr iconPath arrow q = Returned items /\
    (items = [] \/
     exists g out item,
       res = Some g /\
       convertGregorianToHebrew service container_repr g
       = Returned (Some out) /\
       items = [item] /\ shows_conversion item).
Proof.
  intros P. unfold gregorian_items. rewrite P. cbn [bind].
  destruct res as [g|]; [|eauto].
  destruct (convertGregorianToHebrew_returns g) as [[out|] C]; rewrite C;
    cbn [bind]; [|eauto].
  destruct (gregorian_record_limits q g P) as (Ly & Lm & Ld).
  rewrite (createResultItem_gregorian _ _ _ _ _ Ly Lm Ld). cbn [bind].
  eexists. split; [reflexivity|]. right.
  eexists g, out, _. repeat split; auto. apply shows_conversion_item.
Qed.

Lemma gregorian_items_raises (q : string) (e : exn) :
  parseGregorianDate q = Raised e ->
  gregorian_items service container_repr iconPath arrow q = Raised e.
Proof. intros P. unfold gregorian_items. now rewrite P. Qed.

(** The Hebrew block, when the parser returns, returns [items] with no
    item or the item of one conversion after them. *)
Lemma hebrew_items_cases (q : string) (items : list StandardItem)
      (res : option HebrewDate.t) :
  parseHebrewDate q = Returned res ->
  exists more,
    hebrew_items service container_repr iconPath arrow q items
    = Returned (items ++ more)%list /\
    (more = [] \/
     exists h out item,
       res = Some h /\
       convertHebrewToGregorian service container_repr h
       = Returned (Some out) /\
       more = [item] /\ shows_conversion item).
Proof.
  intros P. unfold hebrew_items. rewrite P. cbn [bind].
  destruct res as [h|]; [|exists []; rewrite List.app_nil_r; auto].
  destruct (convertHebrewToGregorian_returns h) as [[out|] C]; rewrite C;
    cbn [bind]; [|exists []; rewrite List.app_nil_r; auto].
  destruct (hebrew_record_limits q h P) as [Ly Ld].
  rewrite (createResultItem_hebrew _ _ _ _ _ Ly Ld). cbn [bind].
  eexists. split; [reflexivity|]. right.
  eexists h, out, _. repeat split; auto. apply shows_conversion_item.
Qed.

Lemma hebrew_items_raises (q : string) (items : list StandardItem) (e : exn) :
  parseHebrewDate q = Raised e ->
  hebrew_items service container_repr iconPath arrow q items = Raised e.
Proof. intros P. unfold hebrew_items. now rewrite P. Qed.

(** The handler on a query that is not blank. *)
Lemma handler_not_blank (query : string) :
  PyStr.nonempty (strip query) = true ->
  handleTriggerQuery service container_repr iconPath arrow query
  = (items <- gregorian_items service container_repr iconPath arrow
                (strip query) ;;
     items <- hebrew_items service container_repr iconPath arrow
                (strip query) items ;;
     match items with
     | [] => Returned [invalid_item iconPath]
     | _ :: _ => Returned items
     end).
Proof. intros N. unfold handleTriggerQuery. now rewrite N. Qed.

Lemma handler_blank (query : string) :
  PyStr.nonempty (strip query) = false ->
  handleTriggerQuery service container_repr iconPath arrow query
  = Returned [prompt_item iconPath].
Proof. intros N. unfold handleTriggerQuery. now rewrite N. Qed.

(** What the handler returns, when it returns: the prompt, the
    invalid-format notice, or one or two items that show a conversion. *)
Lemma handler_returned (query : string) (items : list StandardItem) :
  handleTriggerQuery service container_repr iconPath arrow query
  = Returned items ->
  (PyStr.nonempty (strip query) = false /\ items = [prompt_item iconPath]) \/
  (PyStr.nonempty (strip query) = true /\
   (items = [invalid_item iconPath] \/
    (Forall shows_conversion items /\
     (1 <= List.length items <= 2)%nat))).
Proof.
  destruct (PyStr.nonempty (strip query)) eqn:N.
  - rewrite (handler_not_blank _ N). intros H. right. split; [reflexivity|].
    destruct (parseGregorianDate (strip query)) as [gres|e] eqn:Pg;
      [|rewrite (gregorian_items_raises _ _ Pg) in H; discriminate].
    destruct (gregorian_items_cases _ _ Pg) as (gi & G & GC).
    rewrite G in H. cbn [bind] in H.
    destruct (parseHebrewDate (strip query)) as [res|e] eqn:P;
      [|rewrite (hebrew_items_raises _ _ _ P) in H; discriminate].
    destruct (hebrew_items_cases _ gi _ P) as (more & Hh & HC).
    rewrite Hh in H. cbn [bind] in H.
    destruct GC as [->|(g & o & i1 & _ & _ & -> & S1)];
      destruct HC as [->|(h & o2 & i2 & _ & _ & -> & S2)];
      cbn [List.app] in H; inversion H; subst; auto;
      right; (split; [repeat constructor; assumption | simpl; lia]).
  - rewrite (handler_blank _ N). intros H. inversion H. auto.
Qed.

End HandlerFacts.

Section HandlerProperties.

Variable service : string -> service_behaviour.
Variable container_repr : pyval -> string.
Variable iconPath : string.
Variable arrow : string.

Local Abbreviation handler :=
  (handleTriggerQuery service container_repr iconPath arrow).

Lemma gregorian_items_none (q : string) (res : option GregorianDate.t) :
  parseGregorianDate q = Returned res ->
  no_gregorian_conversion service container_repr q ->
  gregorian_items service container_repr iconPath arrow q = Returned [].
Proof.
  intros P N. unfold gregorian_items. rewrite P. cbn [bind].
  destruct res as [g|]; [|reflexivity]. now rewrite (N g P).
Qed.

Lemma gregorian_items_some (q : string) (g : GregorianDate.t)
      (out : ConvertedDate.t) :
  parseGregorianDate q = Returned (Some g) ->
  convertGregorianToHebrew service container_repr g = Returned (Some out) ->
  gregorian_items service container_repr iconPath arrow q
  = Returned [conversion_item iconPath ("Gregorian " ++ arrow ++ " Hebrew")
                (gregorian_input_text g) out].
Proof.
  intros P C. unfold gregorian_items. rewrite P. cbn [bind]. rewrite C.
  cbn [bind]. destruct (gregorian_record_limits q g P) as (Ly & Lm & Ld).
  now rewrite (createResultItem_gregorian _ _ _ _ _ Ly Lm Ld).
Qed.

Lemma hebrew_items_none (q : string) (items : list StandardItem)
      (res : option HebrewDate.t) :
  parseHebrewDate q = Returned res ->
  no_hebrew_conversion service container_repr q ->
  hebrew_items service container_repr iconPath arrow q items = Returned items.
Proof.
  intros P N. unfold hebrew_items. rewrite P. cbn [bind].
  destruct res as [h|]; [|reflexivity]. now rewrite (N h P).
Qed.

Lemma hebrew_items_some (q : string) (items : list StandardItem)
      (h : HebrewDate.t) (out : ConvertedDate.t) :
  parseHebrewDate q = Returned (Some h) ->
  convertHebrewToGregorian service container_repr h = Returned (Some out) ->
  hebrew_items service container_repr iconPath arrow q items
  = Returned (items ++ [conversion_item iconPath
                          ("Hebrew " ++ arrow ++ " Gregorian")
                          (hebrew_input_text h) out])%list.
Proof.
  intros P C. unfold hebrew_items. rewrite P. cbn [bind]. rewrite C.
  cbn [bind]. destruct (hebrew_record_limits q h P) as [Ly Ld].
  now rewrite (createResultItem_hebrew _ _ _ _ _ Ly Ld).
Qed.

Lemma invalid_item_shows_nothing : ~ shows_conversion (invalid_item iconPath).
Proof. intros (l & t & _ & A). discriminate A. Qed.

Lemma prompt_item_shows_nothing : ~ shows_conversion (prompt_item iconPath).
Proof. intros (l & t & _ & A). discriminate A. Qed.

(** X16: the handler raises exactly when the query is not blank and one
    of the parsers raises on the stripped query: the Gregorian parser, which
    runs first, or, once that has returned, the Hebrew parser.  The
    exception is the parser's, and no item was added before it.  Nothing
    else in the handler raises. *)
Theorem handler_raises_iff (query : string) (e : exn) :
  handler query = Raised e <->
  PyStr.nonempty (strip query) = true /\
  (parseGregorianDate (strip query) = Raised e \/
   ((exists gres, parseGregorianDate (strip query) = Returned gres) /\
    parseHebrewDate (strip query) = Raised e)).
Proof.
  split.
  - intros H. destruct (PyStr.nonempty (strip query)) eqn:N;
      [|rewrite (handler_blank _ _ _ _ _ N) in H; discriminate].
    split; [reflexivity|]. rewrite (handler_not_blank _ _ _ _ _ N) in H.
    destruct (parseGregorianDate (strip query)) as [gres|e'] eqn:Pg.
    + right. split; [eauto|].
      destruct (gregorian_items_cases service container_repr iconPath arrow
                  _ _ Pg) as (gi & G & _).
      rewrite G in H. cbn [bind] in H.
      destruct (parseHebrewDate (strip query)) as [res|e'] eqn:P.
      * destruct (hebrew_items_cases service container_repr iconPath arrow
                    _ gi _ P) as (more & Hh & _).
        rewrite Hh in H. cbn [bind] in H.
        destruct (gi ++ more)%list; discriminate.
      * rewrite (hebrew_items_raises _ _ _ _ _ _ _ P) in H.
        cbn [bind] in H. congruence.
    + left.
      rewrite (gregorian_items_raises service container_repr iconPath arrow
                 _ _ Pg) in H.
      cbn [bind] in H. congruence.
  - intros [N [Pg|[[gres Pg] P]]]; rewrite (handler_not_blank _ _ _ _ _ N).
    + now rewrite (gregorian_items_raises service container_repr iconPath
                     arrow _ _ Pg).
    + destruct (gregorian_items_cases service container_repr iconPath arrow
                  _ _ Pg) as (gi & G & _).
      rewrite G. cbn [bind].
      now rewrite (hebrew_items_raises _ _ _ _ _ _ _ P).
Qed.

(** X17: when the handler returns, it shows either one item without
    actions, the prompt for a blank query or the invalid-format notice, or
    one or two conversions, each with the two copy actions, the first of
    which copies the text shown; it never shows nothing and never more than
    two items. *)
Theorem handler_result_shape (query : string) (items : list StandardItem) :
  handler query = Returned items ->
  items = [prompt_item iconPath] \/ items = [invalid_item iconPath] \/
  (Forall shows_conversion items /\ (1 <= List.length items <= 2)%nat).
Proof.
  intros H. apply handler_returned in H.
  destruct H as [[_ H]|[_ [H|H]]]; auto.
Qed.

(** X18: the handler shows the prompt exactly for the queries made of
    white space only (the empty query among them). *)
Theorem handler_prompt_iff (query : string) :
  handler query = Returned [prompt_item iconPath] <->
  PyStr.all_chars PyStr.char_isspace query = true.
Proof.
  rewrite <- strip_empty_iff. split.
  - intros H. apply handler_returned in H.
    destruct H as [[N _]|[_ [H|[F _]]]].
    + destruct (strip query); [reflexivity | discriminate].
    + discriminate.
    + inversion F as [|? ? S _]; subst.
      destruct (prompt_item_shows_nothing S).
  - intros E. apply handler_blank. now rewrite E.
Qed.

(** X19: for a query that is not blank, the handler shows the
    invalid-format notice exactly when neither parser raises and neither
    reading of the query converts: each parser gave no match, or the
    gateway gave no result for its record. *)
Theorem handler_invalid_iff (query : string) :
  PyStr.nonempty (strip query) = true ->
  (handler query = Returned [invalid_item iconPath] <->
   (exists gres, parseGregorianDate (strip query) = Returned gres) /\
   (exists res, parseHebrewDate (strip query) = Returned res) /\
   no_gregorian_conversion service container_repr (strip query) /\
   no_hebrew_conversion service container_repr (strip query)).
Proof.
  intros N. rewrite (handler_not_blank _ _ _ _ _ N). split.
  - intros H.
    destruct (parseGregorianDate (strip query)) as [gres|e] eqn:Pg;
      [|rewrite (gregorian_items_raises service container_repr iconPath
                   arrow _ _ Pg) in H; discriminate].
    destruct (gregorian_items_cases service container_repr iconPath arrow
                _ _ Pg) as (gi & G & GC).
    rewrite G in H. cbn [bind] in H.
    destruct (parseHebrewDate (strip query)) as [res|e] eqn:P;
      [|rewrite (hebrew_items_raises _ _ _ _ _ _ _ P) in H; discriminate].
    split; [eauto|]. split; [eauto|]. split.
    + intros g Pg'.
      destruct (convertGregorianToHebrew_returns service container_repr g)
        as [[out|] C]; [|exact C].
      destruct (hebrew_items_cases service container_repr iconPath arrow
                  (strip query) gi res P) as (more & Hh & _).
      rewrite Hh in H. cbn [bind] in H.
      rewrite (gregorian_items_some _ _ _ Pg' C) in G. inversion G; subst.
      cbn [List.app] in H. unfold conversion_item, invalid_item in H.
      discriminate H.
    + intros h Ph. rewrite P in Ph. inversion Ph; subst.
      destruct (convertHebrewToGregorian_returns service container_repr h)
        as [[out|] C]; [|exact C].
      rewrite (hebrew_items_some _ gi _ _ P C) in H. cbn [bind] in H.
      unfold conversion_item, invalid_item in H.
      destruct gi as [|i [|j gi]]; cbn [List.app] in H; discriminate H.
  - intros ([gres Pg] & [res P] & NG & NH).
    rewrite (gregorian_items_none _ _ Pg NG). cbn [bind].
    now rewrite (hebrew_items_none _ _ _ P NH).
Qed.

(** X20: with a service from which nothing can be read (no network, an
    error status, a body that is not the expected object), every query that
    is not blank and on which neither parser raises gets the
    invalid-format notice, also when its format was recognised. *)
Theorem handler_service_down (query : string)
        (gres : option GregorianDate.t) (res : option HebrewDate.t) :
  service_down service ->
  PyStr.nonempty (strip query) = true ->
  parseGregorianDate (strip query) = Returned gres ->
  parseHebrewDate (strip query) = Returned res ->
  handler query = Returned [invalid_item iconPath].
Proof.
  intros D N Pg P. rewrite (handler_not_blank _ _ _ _ _ N).
  rewrite (gregorian_items_none _ _ Pg).
  - cbn [bind]. rewrite (hebrew_items_none _ _ _ P); [reflexivity|].
    intros h _. apply convertHebrewToGregorian_unusable, D.
  - intros g _. apply convertGregorianToHebrew_unusable, D.
Qed.

(** X21: white space around the query changes nothing: the handler gives
    the query and the stripped query the same outcome. *)
Theorem handler_ignores_surrounding_space (query : string) :
  handler (strip query) = handler query.
Proof. unfold handleTriggerQuery. now rewrite strip_idem. Qed.

(** X22: when both readings of a query convert, the handler shows exactly
    two items, the conversion of the Gregorian reading first and that of
    the Hebrew reading second, each with its direction label and input
    text. *)
Theorem handler_both_readings (query : string)
        (g : GregorianDate.t) (h : HebrewDate.t) (out1 out2 : ConvertedDate.t) :
  PyStr.nonempty (strip query) = true ->
  parseGregorianDate (strip query) = Returned (Some g) ->
  convertGregorianToHebrew service container_repr g = Returned (Some out1) ->
  parseHebrewDate (strip query) = Returned (Some h) ->
  convertHebrewToGregorian service container_repr h = Returned (Some out2) ->
  handler query
  = Returned
      [ conversion_item iconPath ("Gregorian " ++ arrow ++ " Hebrew")
          (gregorian_input_text g) out1;
        conversion_item iconPath ("Hebrew " ++ arrow ++ " Gregorian")
          (hebrew_input_text h) out2 ].
Proof.
  intros N Pg Cg Ph Ch.
  rewrite (handler_not_blank _ _ _ _ _ N), (gregorian_items_some _ _ _ Pg Cg).
  cbn [bind]. now rewrite (hebrew_items_some _ _ _ _ Ph Ch).
Qed.

End HandlerProperties.

(** X16 at the query made of U+00B2 and " kislev 25", the service timing
    out. *)
Lemma handler_raises_iff_witness :
  handleTriggerQuery (fun _ => Timeout) (fun _ => "") "logo.svg" "->"
    (superscript_two ++ " kislev 25")
  = Raised ValueError.
Proof.
  apply (proj2 (handler_raises_iff _ _ _ _ _ _)).
  split; [vm_compute; reflexivity|]. right.
  split; [exists None|]; vm_compute; reflexivity.
Defined.

(** X17 at "hello world". *)
Lemma handler_result_shape_witness :
  [invalid_item "logo.svg"] = [prompt_item "logo.svg"] \/
  [invalid_item "logo.svg"] = [invalid_item "logo.svg"] \/
  (Forall shows_conversion [invalid_item "logo.svg"] /\
   (1 <= List.length [invalid_item "logo.svg"] <= 2)%nat).
Proof.
  apply (handler_result_shape (fun _ => Timeout) (fun _ => "") "logo.svg" "->"
           "hello world").
  vm_compute. reflexivity.
Defined.

(** X18 at a query of three spaces. *)
Lemma handler_prompt_iff_witness :
  handleTriggerQuery (fun _ => Timeout) (fun _ => "") "logo.svg" "->" "   "
  = Returned [prompt_item "logo.svg"].
Proof.
  apply (proj2 (handler_prompt_iff _ _ _ _ _)). vm_compute. reflexivity.
Defined.

(** X19 at "hello world", which neither parser matches. *)
Lemma handler_invalid_iff_witness :
  handleTriggerQuery (fun _ => Timeout) (fun _ => "") "logo.svg" "->"
    "hello world"
  = Returned [invalid_item "logo.svg"].
Proof.
  apply (proj2 (handler_invalid_iff _ _ _ _ "hello world"
                  ltac:(vm_compute; reflexivity))).
  split; [exists None; vm_compute; reflexivity|].
  split; [exists None; vm_compute; reflexivity|].
  split; intros r H; vm_compute in H; discriminate H.
Defined.

(** X20 at "2023-12-08" with a service that times out. *)
Lemma handler_service_down_witness :
  handleTriggerQuery (fun _ => Timeout) (fun _ => "") "logo.svg" "->"
    "2023-12-08"
  = Returned [invalid_item "logo.svg"].
Proof.
  apply (handler_service_down _ _ _ _ "2023-12-08"
           (Some (GregorianDate.mk 2023 12 8)) None).
  - intros url. split; reflexivity.
  - vm_compute. reflexivity.
  - vm_compute. reflexivity.
  - vm_compute. reflexivity.
Defined.

(** X22 at "5784 Adar 25 may", which both parsers match, with a service
    that answers both directions. *)
Lemma handler_both_readings_witness :
  exists first second,
    handleTriggerQuery
      (fun _ => JsonBody (PDict [("gy", PInt 2024); ("gm", PInt 3);
                                 ("gd", PInt 5); ("hy", PInt 5785);
                                 ("hm", PStr "Iyyar"); ("hd", PInt 3)]))
      (fun _ => "") "logo.svg" "->" "5784 Adar 25 may"
    = Returned [first; second] /\
    text first = "3 Iyyar 5785" /\ text second = "2024-03-05".
Proof.
  eexists _, _. split.
  - apply (handler_both_readings _ _ _ _ "5784 Adar 25 may"
             (GregorianDate.mk 2025 5 5784) (HebrewDate.mk 5784 "Adar" 25));
      vm_compute; reflexivity.
  - split; reflexivity.
Defined.
